(** * Vector addition offloaded through OpenCL: a model of [task.cpp]

    The host program of [task.cpp] is embedded as a computation in a small
    state-and-exit monad.  Every call into the OpenCL runtime, the C library
    and the clock is an explicit primitive whose result is taken from an
    environment [Env]; the observable behaviour of a run is the list of
    events it emits together with the way the process ends. *)

From Stdlib Require Import ZArith Lia String Ascii.
From stdpp Require Import base tactics option list list_numbers gmap strings.

Local Open Scope Z_scope.

Set Warnings "-clear-no-such-hyp".

(** ** Machine integers *)

(** [int] is a 32-bit two's complement integer. *)
Definition wrap_int (z : Z) : Z := (z + 2 ^ 31) `mod` 2 ^ 32 - 2 ^ 31.

(** [size_t] is an unsigned 64-bit integer; [(size_t)z] and the product of
    two [size_t] values wrap modulo [2^64]. *)
Definition to_size_t (z : Z) : Z := z `mod` 2 ^ 64.
Definition size_mul (a b : Z) : Z := (a * b) `mod` 2 ^ 64.

Definition sizeof_int : Z := 4.
Definition sizeof_cl_mem : Z := 8.
Definition LONG_MAX : Z := 2 ^ 63 - 1.
Definition LONG_MIN : Z := - 2 ^ 63.
Definition PTRDIFF_MAX : Z := 2 ^ 63 - 1.

(** ** [atoi] of the C library

    [atoi(s)] is [(int) strtol(s, NULL, 10)]: leading white space is
    skipped, an optional sign is read, then the longest run of decimal
    digits; [strtol] saturates at the bounds of [long] and the conversion to
    [int] keeps the low 32 bits. *)

Definition isspace (c : ascii) : bool :=
  let n := Z.of_nat (nat_of_ascii c) in
  (n =? 32) || ((9 <=? n) && (n <=? 13)).

Definition digit_of (c : ascii) : option Z :=
  let n := Z.of_nat (nat_of_ascii c) in
  if (48 <=? n) && (n <=? 57) then Some (n - 48) else None.

Fixpoint skip_space (s : string) : string :=
  match s with
  | String c r => if isspace c then skip_space r else s
  | EmptyString => s
  end.

Fixpoint read_digits (acc : Z) (s : string) : Z :=
  match s with
  | String c r =>
      match digit_of c with
      | Some d => read_digits (10 * acc + d) r
      | None => acc
      end
  | EmptyString => acc
  end.

Definition clamp_long (z : Z) : Z := Z.max LONG_MIN (Z.min LONG_MAX z).

Definition strtol10 (s : string) : Z :=
  match skip_space s with
  | String "-" r => clamp_long (- read_digits 0 r)
  | String "+" r => clamp_long (read_digits 0 r)
  | r => clamp_long (read_digits 0 r)
  end.

Definition atoi (s : string) : Z := wrap_int (strtol10 s).

(** ** OpenCL values *)

Definition cl_int := Z.

Definition CL_SUCCESS : cl_int := 0.
Definition CL_DEVICE_NOT_FOUND : cl_int := -1.
Definition CL_INVALID_VALUE : cl_int := -30.
Definition CL_INVALID_MEM_OBJECT : cl_int := -38.
Definition CL_INVALID_KERNEL : cl_int := -48.
Definition CL_INVALID_KERNEL_ARGS : cl_int := -52.
Definition CL_INVALID_EVENT : cl_int := -58.
Definition CL_INVALID_COMMAND_QUEUE : cl_int := -36.
Definition CL_INVALID_PROGRAM : cl_int := -44.
Definition CL_INVALID_CONTEXT : cl_int := -34.
Definition CL_PLATFORM_NOT_FOUND_KHR : cl_int := -1001.

Definition CL_TRUE : bool := true.

(** The class of a device, as selected by [CL_DEVICE_TYPE_GPU] and
    [CL_DEVICE_TYPE_CPU]; [ACCELERATOR] stands for every other class. *)
Inductive DeviceType := GPU | CPU | ACCELERATOR.

#[global] Instance DeviceType_eq_dec : EqDecision DeviceType.
Proof. solve_decision. Defined.

(** A platform is the list of its devices; a device identifier names a
    platform and a position in it. *)
Definition Platform := list DeviceType.

Record cl_device_id := Device { dev_platform : nat; dev_index : nat }.

(** The three host arrays [v1], [v2], [v_out]; the same tag names the
    device buffer variable [bufV1], [bufV2], [bufV_out] that mirrors it. *)
Inductive Arr := V1 | V2 | V_OUT.

#[global] Instance Arr_eq_dec : EqDecision Arr.
Proof. solve_decision. Defined.

(** One value for each of the three arrays. *)
Record Arrs (V : Type) := MkArrs { at_v1 : V; at_v2 : V; at_v_out : V }.
Arguments MkArrs {V} _ _ _.
Arguments at_v1 {V} _.
Arguments at_v2 {V} _.
Arguments at_v_out {V} _.

Definition get {V} (a : Arr) (f : Arrs V) : V :=
  match a with
  | V1 => at_v1 f
  | V2 => at_v2 f
  | V_OUT => at_v_out f
  end.

Definition upd {V} (a : Arr) (v : V) (f : Arrs V) : Arrs V :=
  match a with
  | V1 => MkArrs v (at_v2 f) (at_v_out f)
  | V2 => MkArrs (at_v1 f) v (at_v_out f)
  | V_OUT => MkArrs (at_v1 f) (at_v2 f) v
  end.

(** A [cl_mem] is [None] for [NULL] and a buffer handle otherwise. *)
Definition cl_mem := option nat.

(** A bound kernel argument. *)
Inductive KArg := KInt (z : Z) | KMem (m : cl_mem).

(** ** Events *)

Inductive PfArg := PInt (z : Z) | PStr (s : string) | PMillis (ticks : Z).

Inductive ClCall :=
| GetPlatformIDs
| GetDeviceIDs (ty : DeviceType)
| CreateContext
| CreateProgramWithSource
| BuildProgram
| GetProgramBuildInfo
| CreateCommandQueueWithProperties
| CreateKernel (name : string)
| SetKernelArg (idx : nat)
| CreateBuffer (bytes : Z)
| EnqueueWriteBuffer (buf : cl_mem) (blocking : bool) (bytes : Z) (src : Arr)
| EnqueueNDRangeKernel (global : Z)
| WaitForEvents
| EnqueueReadBuffer (buf : cl_mem) (blocking : bool) (bytes : Z) (dst : Arr)
| ReleaseMemObject (buf : cl_mem)
| ReleaseKernel
| ReleaseCommandQueue
| ReleaseProgram
| ReleaseContext.

Inductive Event :=
| Printf (fmt : string) (args : list PfArg)
| Perror (msg : string)
| Call (c : ClCall) (ret : cl_int)
| Now (t : Z)
| Free (a : Arr).

(** Resources a run can hold. *)
Inductive Resource :=
| RHost (a : Arr)
| RMem (h : nat)
| RKernel
| RQueue
| RProgram
| RContext
| REvent.

#[global] Instance Resource_eq_dec : EqDecision Resource.
Proof. solve_decision. Defined.

(** Commands waiting in the (single, in-order) command queue. *)
Inductive Cmd :=
| CmdKernel (args : gmap nat KArg) (global : Z)
| CmdWrite (h : nat) (cells : nat) (src : Arr)
| CmdRead (h : nat) (cells : nat) (dst : Arr).

(** ** The environment of a run *)

Record Env := {
  argv : list string;
  (** the successive results of [rand()], which are never negative *)
  rand_val : nat -> N;
  (** whether [malloc] of a request of at most [PTRDIFF_MAX] bytes for the
      given array succeeds *)
  malloc_ok : Arr -> bool;
  platforms : list Platform;
  r_CreateContext : cl_int;
  (** the text of the kernel source file, [None] when it cannot be opened *)
  source_file : option string;
  r_CreateProgramWithSource : cl_int;
  r_BuildProgram : cl_int;
  build_log : string;
  r_CreateCommandQueue : cl_int;
  r_CreateKernel : cl_int;
  r_SetKernelArg : nat -> cl_int;
  (** result of the k-th buffer creation, and the cells found in it *)
  r_CreateBuffer : nat -> cl_int;
  uninit : nat -> Z;
  r_EnqueueWriteBuffer : Arr -> cl_int;
  r_EnqueueNDRangeKernel : cl_int;
  r_WaitForEvents : cl_int;
  r_EnqueueReadBuffer : cl_int;
  (** wall-clock time taken by each observable action *)
  cost : Event -> N
}.

(** ** Program and runtime state *)

Record State := {
  (** globals of [task.cpp] *)
  SZ : Z;
  host : Arrs (option (list Z));
  buf : Arrs cl_mem;
  event : option nat;
  err : Z;
  (** state of the C library and of the OpenCL runtime *)
  rand_next : nat;
  next_mem : nat;
  dmem : gmap nat (list Z);
  kargs : gmap nat KArg;
  pending : list Cmd;
  live : list Resource;
  clock : Z
}.

Definition set_SZ (x : Z) (s : State) : State :=
  {| SZ := x; host := host s; buf := buf s; event := event s; err := err s;
     rand_next := rand_next s; next_mem := next_mem s; dmem := dmem s;
     kargs := kargs s; pending := pending s; live := live s; clock := clock s |}.
Definition set_host (x : Arrs (option (list Z))) (s : State) : State :=
  {| SZ := SZ s; host := x; buf := buf s; event := event s; err := err s;
     rand_next := rand_next s; next_mem := next_mem s; dmem := dmem s;
     kargs := kargs s; pending := pending s; live := live s; clock := clock s |}.
Definition set_buf (x : Arrs cl_mem) (s : State) : State :=
  {| SZ := SZ s; host := host s; buf := x; event := event s; err := err s;
     rand_next := rand_next s; next_mem := next_mem s; dmem := dmem s;
     kargs := kargs s; pending := pending s; live := live s; clock := clock s |}.
Definition set_event (x : option nat) (s : State) : State :=
  {| SZ := SZ s; host := host s; buf := buf s; event := x; err := err s;
     rand_next := rand_next s; next_mem := next_mem s; dmem := dmem s;
     kargs := kargs s; pending := pending s; live := live s; clock := clock s |}.
Definition set_err (x : Z) (s : State) : State :=
  {| SZ := SZ s; host := host s; buf := buf s; event := event s; err := x;
     rand_next := rand_next s; next_mem := next_mem s; dmem := dmem s;
     kargs := kargs s; pending := pending s; live := live s; clock := clock s |}.
Definition set_rand_next (x : nat) (s : State) : State :=
  {| SZ := SZ s; host := host s; buf := buf s; event := event s; err := err s;
     rand_next := x; next_mem := next_mem s; dmem := dmem s;
     kargs := kargs s; pending := pending s; live := live s; clock := clock s |}.
Definition set_next_mem (x : nat) (s : State) : State :=
  {| SZ := SZ s; host := host s; buf := buf s; event := event s; err := err s;
     rand_next := rand_next s; next_mem := x; dmem := dmem s;
     kargs := kargs s; pending := pending s; live := live s; clock := clock s |}.
Definition set_dmem (x : gmap nat (list Z)) (s : State) : State :=
  {| SZ := SZ s; host := host s; buf := buf s; event := event s; err := err s;
     rand_next := rand_next s; next_mem := next_mem s; dmem := x;
     kargs := kargs s; pending := pending s; live := live s; clock := clock s |}.
Definition set_kargs (x : gmap nat KArg) (s : State) : State :=
  {| SZ := SZ s; host := host s; buf := buf s; event := event s; err := err s;
     rand_next := rand_next s; next_mem := next_mem s; dmem := dmem s;
     kargs := x; pending := pending s; live := live s; clock := clock s |}.
Definition set_pending (x : list Cmd) (s : State) : State :=
  {| SZ := SZ s; host := host s; buf := buf s; event := event s; err := err s;
     rand_next := rand_next s; next_mem := next_mem s; dmem := dmem s;
     kargs := kargs s; pending := x; live := live s; clock := clock s |}.
Definition set_live (x : list Resource) (s : State) : State :=
  {| SZ := SZ s; host := host s; buf := buf s; event := event s; err := err s;
     rand_next := rand_next s; next_mem := next_mem s; dmem := dmem s;
     kargs := kargs s; pending := pending s; live := x; clock := clock s |}.
Definition set_clock (x : Z) (s : State) : State :=
  {| SZ := SZ s; host := host s; buf := buf s; event := event s; err := err s;
     rand_next := rand_next s; next_mem := next_mem s; dmem := dmem s;
     kargs := kargs s; pending := pending s; live := live s; clock := x |}.

(** The globals [v1], [v2], [v_out] and [bufV1], [bufV2], [bufV_out]. *)
Definition v1 (s : State) : option (list Z) := get V1 (host s).
Definition v2 (s : State) : option (list Z) := get V2 (host s).
Definition v_out (s : State) : option (list Z) := get V_OUT (host s).
Definition bufV1 (s : State) : cl_mem := get V1 (buf s).
Definition bufV2 (s : State) : cl_mem := get V2 (buf s).
Definition bufV_out (s : State) : cl_mem := get V_OUT (buf s).

(** The state in which [main] is entered: [SZ] has its initialiser, every
    pointer and handle is null, nothing is held. *)
Definition initial_state : State :=
  {| SZ := 100000000; host := MkArrs None None None;
     buf := MkArrs None None None;
     event := None; err := 0;
     rand_next := 0; next_mem := 0; dmem := ∅; kargs := ∅;
     pending := []; live := []; clock := 0 |}.

(** ** The monad: state, emitted events, [exit] and crashes *)

Inductive Outcome (A : Type) :=
| Ret (a : A)
| Exit (status : Z)
| Crash.
Arguments Ret {A} a.
Arguments Exit {A} status.
Arguments Crash {A}.

Definition M (A : Type) : Type := State -> Outcome A * State * list Event.

Definition ret {A} (a : A) : M A := fun s => (Ret a, s, []).

Definition bind {A B} (m : M A) (f : A -> M B) : M B :=
  fun s =>
    match m s with
    | (Ret a, s1, t1) =>
        match f a s1 with
        | (o, s2, t2) => (o, s2, t1 ++ t2)
        end
    | (Exit c, s1, t1) => (Exit c, s1, t1)
    | (Crash, s1, t1) => (Crash, s1, t1)
    end.

Declare Scope prog_scope.
Delimit Scope prog_scope with prog.
Notation "x <- m ;; k" := (bind m (fun x => k))
  (at level 100, m at next level, right associativity) : prog_scope.
Notation "m ;; k" := (bind m (fun _ => k))
  (at level 100, right associativity) : prog_scope.
Local Open Scope prog_scope.

Definition gets {A} (f : State -> A) : M A := fun s => (Ret (f s), s, []).
Definition modify (f : State -> State) : M unit := fun s => (Ret tt, f s, []).
Definition exit {A} (status : Z) : M A := fun s => (Exit status, s, []).
Definition crash {A} : M A := fun s => (Crash, s, []).

(** A [for] loop over the successive values of its index. *)
Fixpoint for_ (l : list Z) (body : Z -> M unit) : M unit :=
  match l with
  | [] => ret tt
  | i :: l' => body i ;; for_ l' body
  end.

(** A [for (i = lo; i < hi; i++)] loop visits [range lo hi]. *)
Definition range (lo hi : Z) : list Z := seqZ lo (hi - lo).

(** How a run ends, as seen by the parent process. *)
Inductive Termination := Exited (status : Z) | Crashed.

Definition termination {A} (r : Outcome A * State * list Event) : Termination :=
  match r.1.1 with
  | Ret _ => Exited 0
  | Exit c => Exited c
  | Crash => Crashed
  end.

Definition trace {A} (r : Outcome A * State * list Event) : list Event := r.2.
Definition final {A} (r : Outcome A * State * list Event) : State := r.1.2.

(** ** Resources *)

(** An object comes to be held, or an argument bound, when the call that
    makes it succeeds. *)
Definition hold_if (ok : bool) (r : Resource) (l : list Resource)
    : list Resource :=
  if ok then r :: l else l.

Definition bind_if (ok : bool) (idx : nat) (arg : KArg) (m : gmap nat KArg)
    : gmap nat KArg :=
  if ok then <[idx := arg]> m else m.

Definition acquire (r : Resource) (s : State) : State :=
  set_live (r :: live s) s.
Definition release (r : Resource) (s : State) : State :=
  set_live (filter (fun x => x ≠ r) (live s)) s.
Definition holds (r : Resource) (s : State) : bool :=
  bool_decide (r ∈ live s).

(** ** The device side *)

(** Copy of the first [n] cells of [src] over those of [dst]; it stops at
    the end of either list, so [dst] keeps its length. *)
Fixpoint blit (n : nat) (src dst : list Z) : list Z :=
  match n, src, dst with
  | S k, x :: src', _ :: dst' => x :: blit k src' dst'
  | _, _, _ => dst
  end.

(** Modelled from the spec: the kernel source [vector_ops.txt] with its entry
    point [vector_add_ocl] is not among the sources.  The spec gives its
    parameters as (element count, input buffer A, input buffer B, output
    buffer) and says that each invocation processes exactly one index of an
    elementwise addition; the work item [gid] therefore stores
    [A[gid] + B[gid]] (an [int] addition) in the output at [gid] when [gid]
    is below the element count.  An access through a null or released
    buffer, or outside it, has no effect here. *)
Definition vector_add_ocl (n : Z) (a b c : cl_mem) (gid : Z)
    (mem : gmap nat (list Z)) : gmap nat (list Z) :=
  if (0 <=? gid) && (gid <? n) then
    match a, b, c with
    | Some ha, Some hb, Some hc =>
        match mem !! ha, mem !! hb, mem !! hc with
        | Some la, Some lb, Some lc =>
            match la !! Z.to_nat gid, lb !! Z.to_nat gid with
            | Some x, Some y =>
                <[hc := <[Z.to_nat gid := wrap_int (x + y)]> lc]> mem
            | _, _ => mem
            end
        | _, _, _ => mem
        end
    | _, _, _ => mem
    end
  else mem.

(** Execution of the kernel over a one-dimensional work domain: one work
    item per index below [global]. *)
Definition run_kernel (args : gmap nat KArg) (global : Z)
    (mem : gmap nat (list Z)) : gmap nat (list Z) :=
  match args !! 0%nat, args !! 1%nat, args !! 2%nat, args !! 3%nat with
  | Some (KInt n), Some (KMem a), Some (KMem b), Some (KMem c) =>
      foldl (fun m gid => vector_add_ocl n a b c gid m) mem (seqZ 0 global)
  | _, _, _, _ => mem
  end.

Definition exec_cmd (s : State) (c : Cmd) : State :=
  match c with
  | CmdKernel args global => set_dmem (run_kernel args global (dmem s)) s
  | CmdWrite h n src =>
      match get src (host s), dmem s !! h with
      | Some data, Some old => set_dmem (<[h := blit n data old]> (dmem s)) s
      | _, _ => s
      end
  | CmdRead h n dst =>
      match dmem s !! h, get dst (host s) with
      | Some data, Some old =>
          set_host (upd dst (Some (blit n data old)) (host s)) s
      | _, _ => s
      end
  end.

(** The queue is in order: waiting for a command completes every command
    enqueued before it. *)
Definition drain (s : State) : State :=
  set_pending [] (foldl exec_cmd s (pending s)).

Definition enqueue (c : Cmd) (s : State) : State :=
  set_pending (pending s ++ [c]) s.

(** The result of a transfer between the buffer [b] and the host block [p]:
    a null buffer and a null host pointer are refused, otherwise the
    runtime decides. *)
Definition transfer_code (b : cl_mem) (p : option (list Z)) (r : cl_int)
    : cl_int :=
  match b, p with
  | None, _ => CL_INVALID_MEM_OBJECT
  | Some _, None => CL_INVALID_VALUE
  | Some _, Some _ => r
  end.

(** An accepted transfer on a valid buffer is put on the queue; a blocking
    one has run, after all that was queued before it, when the call
    returns. *)
Definition transfer (b : cl_mem) (ok blocking : bool) (c : nat -> Cmd)
    (s : State) : State :=
  match b with
  | Some h =>
      if ok then
        if blocking then drain (enqueue (c h) s) else enqueue (c h) s
      else s
  | None => s
  end.

(** An accepted kernel launch is put on the queue with the arguments bound
    at that time, and its completion event is created. *)
Definition launch (ok : bool) (args : gmap nat KArg) (global : Z) (s : State)
    : State :=
  if ok then
    set_event (Some 0%nat) (acquire REvent (enqueue (CmdKernel args global) s))
  else s.

(** A successful wait returns when the queue has run. *)
Definition wait_done (ok : bool) (s : State) : State :=
  if ok then drain s else s.

(** A created buffer has [bytes / sizeof(int)] cells, with whatever
    [fill] finds in them. *)
Definition create_buffer (ok : bool) (k : nat) (fill : nat -> Z) (bytes : Z)
    (s : State) : State :=
  set_dmem
    (if ok then <[k := fill <$> seq 0 (Z.to_nat (bytes `div` sizeof_int))]> (dmem s)
     else dmem s)
    (set_live (hold_if ok (RMem k) (live s)) s).

Definition destroy_buffer (b : cl_mem) (s : State) : State :=
  match b with
  | Some h => set_dmem (delete h (dmem s)) (release (RMem h) s)
  | None => s
  end.

Definition args_bound (args : gmap nat KArg) : bool :=
  forallb (fun i => bool_decide (is_Some (args !! i))) [0; 1; 2; 3]%nat.

Definition nl : string := String "010"%char EmptyString.
Definition separator : string := nl +:+ "----------------------------" +:+ nl.
Definition kernel_file : string := "./vector_ops.txt".

Definition PRINT : Z := 1.

(** Position of the first device of class [ty] in a platform. *)
Definition find_device (ty : DeviceType) (p : Platform)
    : option (nat * DeviceType) :=
  list_find (fun d => d = ty) p.

Section Program.

Variable env : Env.

(** ** Primitives: console, clock, C library *)

(** Every observable action takes the time the environment gives it. *)
Definition emit (e : Event) : M unit :=
  fun s => (Ret tt, set_clock (clock s + Z.of_N (cost env e)) s, [e]).

Definition printf (fmt : string) (args : list PfArg) : M unit :=
  emit (Printf fmt args).
Definition perror (msg : string) : M unit := emit (Perror msg).

(** [std::chrono::high_resolution_clock::now()] *)
Definition now : M Z := fun s => (Ret (clock s), s, [Now (clock s)]).

Definition rand : M Z :=
  fun s => (Ret (Z.of_N (rand_val env (rand_next s))),
            set_rand_next (S (rand_next s)) s, []).

(** [malloc] returns a block of [bytes / sizeof(int)] cells, or [NULL]. *)
Definition malloc (a : Arr) (bytes : Z) : M (option (list Z)) :=
  let ok := (bytes <=? PTRDIFF_MAX) && malloc_ok env a in
  modify (fun s => set_live (hold_if ok (RHost a) (live s)) s) ;;
  ret (if ok then Some (replicate (Z.to_nat (bytes `div` sizeof_int)) 0)
       else None).

(** [free] gives the block back; the pointer variable keeps its value. *)
Definition free (a : Arr) : M unit :=
  modify (release (RHost a)) ;; emit (Free a).

Definition fopen (filename : string) : M (option string) :=
  ret (if String.eqb filename kernel_file then source_file env else None).

(** [A[i]] read through a pointer: a null pointer or an index outside the
    block crashes the process. *)
Definition load (A : option (list Z)) (i : Z) : M Z :=
  match A with
  | Some l =>
      if 0 <=? i then
        match l !! Z.to_nat i with
        | Some x => ret x
        | None => crash
        end
      else crash
  | None => crash
  end.

(** [A[i] = x] for the global pointer [A]. *)
Definition store (A : Arr) (i : Z) (x : Z) : M unit :=
  p <- gets (fun s => get A (host s)) ;;
  match p with
  | Some l =>
      if (0 <=? i) && (i <? Z.of_nat (length l)) then
        modify (fun s => set_host (upd A (Some (<[Z.to_nat i := x]> l)) (host s)) s)
      else crash
  | None => crash
  end.

(** ** Primitives: the OpenCL runtime *)

Definition clGetPlatformIDs : M (cl_int * option nat) :=
  match platforms env with
  | [] =>
      emit (Call GetPlatformIDs CL_PLATFORM_NOT_FOUND_KHR) ;;
      ret (CL_PLATFORM_NOT_FOUND_KHR, None)
  | _ :: _ =>
      emit (Call GetPlatformIDs CL_SUCCESS) ;; ret (CL_SUCCESS, Some 0%nat)
  end.

(** The first device of class [ty] of the platform, if there is one. *)
Definition clGetDeviceIDs (platform : nat) (ty : DeviceType)
    : M (cl_int * option cl_device_id) :=
  match find_device ty (default [] (platforms env !! platform)) with
  | Some (i, _) =>
      emit (Call (GetDeviceIDs ty) CL_SUCCESS) ;;
      ret (CL_SUCCESS, Some (Device platform i))
  | None =>
      emit (Call (GetDeviceIDs ty) CL_DEVICE_NOT_FOUND) ;;
      ret (CL_DEVICE_NOT_FOUND, None)
  end.

(** Creation of one of the singleton objects (context, program, queue,
    kernel): the object exists when the call reports [CL_SUCCESS]. *)
Definition cl_create (c : ClCall) (r : cl_int) (res : Resource) : M cl_int :=
  modify (fun s => set_live (hold_if (r =? CL_SUCCESS) res (live s)) s) ;;
  emit (Call c r) ;;
  ret r.

Definition clCreateContext (dev : option cl_device_id) : M cl_int :=
  cl_create CreateContext (r_CreateContext env) RContext.

Definition clCreateProgramWithSource (text : string) : M cl_int :=
  cl_create CreateProgramWithSource (r_CreateProgramWithSource env) RProgram.

Definition clBuildProgram : M cl_int :=
  emit (Call BuildProgram (r_BuildProgram env)) ;; ret (r_BuildProgram env).

(** [clGetProgramBuildInfo(.., CL_PROGRAM_BUILD_LOG, 0, NULL, &log_size)]:
    the size of the log, terminator included. *)
Definition clGetProgramBuildInfo_size : M Z :=
  emit (Call GetProgramBuildInfo CL_SUCCESS) ;;
  ret (Z.of_nat (String.length (build_log env)) + 1).

(** [clGetProgramBuildInfo(.., CL_PROGRAM_BUILD_LOG, size, buffer, NULL)]
    fills the buffer with the log when it fits. *)
Definition clGetProgramBuildInfo_log (size : Z) : M string :=
  if Z.of_nat (String.length (build_log env)) + 1 <=? size then
    emit (Call GetProgramBuildInfo CL_SUCCESS) ;; ret (build_log env)
  else
    emit (Call GetProgramBuildInfo CL_INVALID_VALUE) ;; ret EmptyString.

Definition clCreateCommandQueueWithProperties : M cl_int :=
  cl_create CreateCommandQueueWithProperties (r_CreateCommandQueue env) RQueue.

Definition clCreateKernel (name : string) : M cl_int :=
  cl_create (CreateKernel name) (r_CreateKernel env) RKernel.

Definition clSetKernelArg (idx : nat) (arg : KArg) : M cl_int :=
  let r := r_SetKernelArg env idx in
  modify (fun s =>
    set_kargs (bind_if (r =? CL_SUCCESS) idx arg (kargs s)) s) ;;
  emit (Call (SetKernelArg idx) r) ;;
  ret r.

(** [clCreateBuffer(context, flags, bytes, NULL, NULL)]: the handle is null
    when the creation fails; the error code is not handed to the caller. *)
Definition clCreateBuffer (bytes : Z) : M cl_mem :=
  k <- gets next_mem ;;
  modify (set_next_mem (S k)) ;;
  let r := r_CreateBuffer env k in
  modify (create_buffer (r =? CL_SUCCESS) k (uninit env) bytes) ;;
  emit (Call (CreateBuffer bytes) r) ;;
  ret (if r =? CL_SUCCESS then Some k else None).

(** A transfer command is put on the queue; a blocking call returns once
    the queue has run up to it. *)
Definition clEnqueueWriteBuffer (b : cl_mem) (blocking : bool) (bytes : Z)
    (src : Arr) : M cl_int :=
  p <- gets (fun s => get src (host s)) ;;
  let r := transfer_code b p (r_EnqueueWriteBuffer env src) in
  modify (transfer b (r =? CL_SUCCESS) blocking
            (fun h => CmdWrite h (Z.to_nat (bytes `div` sizeof_int)) src)) ;;
  emit (Call (EnqueueWriteBuffer b blocking bytes src) r) ;;
  ret r.

Definition clEnqueueReadBuffer (b : cl_mem) (blocking : bool) (bytes : Z)
    (dst : Arr) : M cl_int :=
  p <- gets (fun s => get dst (host s)) ;;
  let r := transfer_code b p (r_EnqueueReadBuffer env) in
  modify (transfer b (r =? CL_SUCCESS) blocking
            (fun h => CmdRead h (Z.to_nat (bytes `div` sizeof_int)) dst)) ;;
  emit (Call (EnqueueReadBuffer b blocking bytes dst) r) ;;
  ret r.

(** [clEnqueueNDRangeKernel(queue, kernel, 1, NULL, global, NULL, 0, NULL,
    &event)]: on success the kernel, with the arguments bound at that time,
    is put on the queue and [event] receives its completion event. *)
Definition clEnqueueNDRangeKernel (global : Z) : M cl_int :=
  args <- gets kargs ;;
  let r := if args_bound args then r_EnqueueNDRangeKernel env
           else CL_INVALID_KERNEL_ARGS in
  modify (launch (r =? CL_SUCCESS) args global) ;;
  emit (Call (EnqueueNDRangeKernel global) r) ;;
  ret r.

(** [clWaitForEvents(1, &event)] *)
Definition clWaitForEvents : M cl_int :=
  ev <- gets event ;;
  let r := match ev with
           | None => CL_INVALID_EVENT
           | Some _ => r_WaitForEvents env
           end in
  modify (wait_done (r =? CL_SUCCESS)) ;;
  emit (Call WaitForEvents r) ;;
  ret r.

(** Release of an object: it is given back when it is held, and the call
    reports an invalid object otherwise. *)
Definition cl_release (c : ClCall) (res : Resource) (bad : cl_int) : M cl_int :=
  held <- gets (holds res) ;;
  let r := if held then CL_SUCCESS else bad in
  modify (release res) ;;
  emit (Call c r) ;;
  ret r.

Definition clReleaseMemObject (b : cl_mem) : M cl_int :=
  held <- gets (fun s => from_option (fun h => holds (RMem h) s) false b) ;;
  let r := if held then CL_SUCCESS else CL_INVALID_MEM_OBJECT in
  modify (destroy_buffer b) ;;
  emit (Call (ReleaseMemObject b) r) ;;
  ret r.

Definition clReleaseKernel : M cl_int :=
  cl_release ReleaseKernel RKernel CL_INVALID_KERNEL.
Definition clReleaseCommandQueue : M cl_int :=
  cl_release ReleaseCommandQueue RQueue CL_INVALID_COMMAND_QUEUE.
Definition clReleaseProgram : M cl_int :=
  cl_release ReleaseProgram RProgram CL_INVALID_PROGRAM.
Definition clReleaseContext : M cl_int :=
  cl_release ReleaseContext RContext CL_INVALID_CONTEXT.

(** ** The program *)

(** [void init(int *&A, int size)] *)
Definition init (A : Arr) (size : Z) : M unit :=
  p <- malloc A (size_mul sizeof_int (to_size_t size)) ;;
  modify (fun s => set_host (upd A p (host s)) s) ;;
  for_ (range 0 size) (fun i =>
    r <- rand ;;
    store A i (r `rem` 100)).

(** [void print(int *A, int size)] *)
Definition print (A : option (list Z)) (size : Z) : M unit :=
  if PRINT =? 0 then ret tt
  else
    (if (PRINT =? 1) && (15 <? size) then
       for_ (range 0 5) (fun i => x <- load A i ;; printf "%d " [PInt x]) ;;
       printf " ..... " [] ;;
       for_ (range (size - 5) size) (fun i =>
         x <- load A i ;; printf "%d " [PInt x])
     else
       for_ (range 0 size) (fun i => x <- load A i ;; printf "%d " [PInt x])) ;;
    printf separator [].

(** [void free_memory()] *)
Definition free_memory : M unit :=
  b <- gets bufV1 ;; clReleaseMemObject b ;;
  b <- gets bufV2 ;; clReleaseMemObject b ;;
  b <- gets bufV_out ;; clReleaseMemObject b ;;
  clReleaseKernel ;;
  clReleaseCommandQueue ;;
  clReleaseProgram ;;
  clReleaseContext ;;
  free V1 ;;
  free V2 ;;
  free V_OUT.

(** [void copy_kernel_args()] *)
Definition copy_kernel_args : M unit :=
  sz <- gets SZ ;;
  r <- clSetKernelArg 0 (KInt sz) ;;
  modify (set_err r) ;;
  b <- gets bufV1 ;;
  r <- clSetKernelArg 1 (KMem b) ;;
  modify (fun s => set_err (Z.lor (err s) r) s) ;;
  b <- gets bufV2 ;;
  r <- clSetKernelArg 2 (KMem b) ;;
  modify (fun s => set_err (Z.lor (err s) r) s) ;;
  b <- gets bufV_out ;;
  r <- clSetKernelArg 3 (KMem b) ;;
  modify (fun s => set_err (Z.lor (err s) r) s) ;;
  e <- gets err ;;
  if e <? 0 then
    perror "Couldn't create a kernel argument" ;;
    printf "Error code = %d" [PInt e] ;;
    exit 1
  else ret tt.

(** [void setup_kernel_memory()] *)
Definition setup_kernel_memory : M unit :=
  sz <- gets SZ ;;
  b <- clCreateBuffer (size_mul (to_size_t sz) sizeof_int) ;;
  modify (fun s => set_buf (upd V1 b (buf s)) s) ;;
  b <- clCreateBuffer (size_mul (to_size_t sz) sizeof_int) ;;
  modify (fun s => set_buf (upd V2 b (buf s)) s) ;;
  b <- clCreateBuffer (size_mul (to_size_t sz) sizeof_int) ;;
  modify (fun s => set_buf (upd V_OUT b (buf s)) s) ;;
  b <- gets bufV1 ;;
  clEnqueueWriteBuffer b CL_TRUE (size_mul (to_size_t sz) sizeof_int) V1 ;;
  b <- gets bufV2 ;;
  clEnqueueWriteBuffer b CL_TRUE (size_mul (to_size_t sz) sizeof_int) V2 ;;
  ret tt.

(** [cl_device_id create_device()] *)
Definition create_device : M (option cl_device_id) :=
  r <- clGetPlatformIDs ;;
  (if r.1 <? 0 then perror "Couldn't identify a platform" ;; exit 1
   else ret tt) ;;
  let platform := default 0%nat r.2 in
  r <- clGetDeviceIDs platform GPU ;;
  r <- (if r.1 =? CL_DEVICE_NOT_FOUND then clGetDeviceIDs platform CPU
        else ret r) ;;
  (if r.1 <? 0 then perror "Couldn't access any devices" ;; exit 1
   else ret tt) ;;
  ret r.2.

(** [cl_program build_program(cl_context ctx, cl_device_id dev,
    const char *filename)]; it uses the global [err]. *)
Definition build_program (dev : option cl_device_id) (filename : string)
    : M unit :=
  program_handle <- fopen filename ;;
  match program_handle with
  | None => perror "Couldn't find the program file" ;; exit 1
  | Some program_buffer =>
      r <- clCreateProgramWithSource program_buffer ;;
      modify (set_err r) ;;
      e <- gets err ;;
      (if e <? 0 then perror "Couldn't create the program" ;; exit 1
       else ret tt) ;;
      r <- clBuildProgram ;;
      modify (set_err r) ;;
      e <- gets err ;;
      if e <? 0 then
        log_size <- clGetProgramBuildInfo_size ;;
        program_log <- clGetProgramBuildInfo_log (log_size + 1) ;;
        printf ("%s" +:+ nl) [PStr program_log] ;;
        exit 1
      else ret tt
  end.

(** [void setup_openCL_device_context_queue_kernel(const char *filename,
    const char *kernelname)]; its [err] is a local variable. *)
Definition setup_openCL_device_context_queue_kernel
    (filename kernelname : string) : M unit :=
  device_id <- create_device ;;
  e <- clCreateContext device_id ;;
  (if e <? 0 then perror "Couldn't create a context" ;; exit 1 else ret tt) ;;
  build_program device_id filename ;;
  e <- clCreateCommandQueueWithProperties ;;
  (if e <? 0 then perror "Couldn't create a command queue" ;; exit 1
   else ret tt) ;;
  e <- clCreateKernel kernelname ;;
  if e <? 0 then
    perror "Couldn't create a kernel" ;;
    printf "Error code = %d" [PInt e] ;;
    exit 1
  else ret tt.

(** [int main(int argc, char **argv)]; falling off its end returns 0. *)
Definition main : M unit :=
  (if 1 <? Z.of_nat (length (argv env)) then
     modify (set_SZ (atoi (default EmptyString (argv env !! 1%nat))))
   else ret tt) ;;
  sz <- gets SZ ;; init V1 sz ;;
  sz <- gets SZ ;; init V2 sz ;;
  sz <- gets SZ ;; init V_OUT sz ;;
  sz <- gets SZ ;;
  let global := to_size_t sz in
  a <- gets v1 ;; sz <- gets SZ ;; print a sz ;;
  a <- gets v2 ;; sz <- gets SZ ;; print a sz ;;
  setup_openCL_device_context_queue_kernel kernel_file "vector_add_ocl" ;;
  setup_kernel_memory ;;
  copy_kernel_args ;;
  start <- now ;;
  clEnqueueNDRangeKernel global ;;
  clWaitForEvents ;;
  b <- gets bufV_out ;; sz <- gets SZ ;;
  clEnqueueReadBuffer b CL_TRUE (size_mul (to_size_t sz) sizeof_int) V_OUT ;;
  a <- gets v_out ;; sz <- gets SZ ;; print a sz ;;
  stop <- now ;;
  printf ("Kernel Execution Time: %f ms" +:+ nl) [PMillis (stop - start)] ;;
  free_memory.

(** A run of the process. *)
Definition run : Outcome unit * State * list Event := main initial_state.

End Program.

(** * Vocabulary of the statements *)

Definition is_ret {A} (o : Outcome A) : Prop :=
  match o with Ret _ => True | _ => False end.

(** [step I E m]: from a state satisfying [I], [m] ends (in whatever way) in
    a state satisfying [I] and emits only events satisfying [E]. *)
Definition step {A} (I : State -> Prop) (E : Event -> Prop) (m : M A) : Prop :=
  forall s, I s -> I (m s).1.2 /\ Forall E (m s).2.

(** [stops E m]: [m] never returns, and emits only events satisfying [E]. *)
Definition stops {A} (I : State -> Prop) (E : Event -> Prop) (m : M A) : Prop :=
  forall s, I s -> ~ is_ret (m s).1.1 /\ Forall E (m s).2.

(** [total m]: [m] always returns. *)
Definition total {A} (m : M A) : Prop := forall s, is_ret (m s).1.1.

(** [cut_short I E m]: a run of [m] that does not return emitted
    only events satisfying [E]. *)
Definition cut_short {A} (I : State -> Prop) (E : Event -> Prop) (m : M A)
    : Prop :=
  forall s, I s -> ~ is_ret (m s).1.1 -> Forall E (m s).2.

(** [wp m s Q]: the run of [m] from [s] ends in a way, a state and with a
    list of events that satisfy [Q]. *)
Definition wp {A} (m : M A) (s : State)
    (Q : Outcome A -> State -> list Event -> Prop) : Prop :=
  Q (m s).1.1 (m s).1.2 (m s).2.

(** The cells that [init] stores when [rand] is at its [k]-th call. *)
Definition rand_cells (env : Env) (k n : nat) : list Z :=
  (fun j => Z.of_N (rand_val env (k + j)%nat) `rem` 100) <$> seq 0 n.

(** What [printf("%d ", x)] emits, and the time a list of events takes. *)
Definition show (x : Z) : Event := Printf "%d " [PInt x].

Definition cost_sum (env : Env) (t : list Event) : Z :=
  foldr (fun e acc => Z.of_N (cost env e) + acc) 0 t.

(** The console preview of an array of [size] cells. *)
Definition ellipsis : Event := Printf " ..... " [].
Definition rule : Event := Printf separator [].

Definition preview (l : list Z) (size : Z) : list Event :=
  (if 15 <? size then
     (show <$> take 5 l) ++ [ellipsis] ++ (show <$> drop (Z.to_nat (size - 5)) l)
   else show <$> l) ++ [rule].

(** ** Sample environments *)

(** An environment in which every call succeeds; [args] are the command
    line arguments after the program name. *)
Definition nominal (args : list string) : Env :=
  {| argv := "task" :: args;
     rand_val := fun k => N.of_nat (7 * k + 3);
     malloc_ok := fun _ => true;
     platforms := [[GPU]];
     r_CreateContext := CL_SUCCESS;
     source_file := Some "__kernel void vector_add_ocl() {}";
     r_CreateProgramWithSource := CL_SUCCESS;
     r_BuildProgram := CL_SUCCESS;
     build_log := "";
     r_CreateCommandQueue := CL_SUCCESS;
     r_CreateKernel := CL_SUCCESS;
     r_SetKernelArg := fun _ => CL_SUCCESS;
     r_CreateBuffer := fun _ => CL_SUCCESS;
     uninit := fun _ => (-7);
     r_EnqueueWriteBuffer := fun _ => CL_SUCCESS;
     r_EnqueueNDRangeKernel := CL_SUCCESS;
     r_WaitForEvents := CL_SUCCESS;
     r_EnqueueReadBuffer := CL_SUCCESS;
     cost := fun _ => 1%N |}.

Definition with_platforms (ps : list Platform) (e : Env) : Env :=
  {| argv := argv e; rand_val := rand_val e; malloc_ok := malloc_ok e;
     platforms := ps; r_CreateContext := r_CreateContext e;
     source_file := source_file e;
     r_CreateProgramWithSource := r_CreateProgramWithSource e;
     r_BuildProgram := r_BuildProgram e; build_log := build_log e;
     r_CreateCommandQueue := r_CreateCommandQueue e;
     r_CreateKernel := r_CreateKernel e; r_SetKernelArg := r_SetKernelArg e;
     r_CreateBuffer := r_CreateBuffer e; uninit := uninit e;
     r_EnqueueWriteBuffer := r_EnqueueWriteBuffer e;
     r_EnqueueNDRangeKernel := r_EnqueueNDRangeKernel e;
     r_WaitForEvents := r_WaitForEvents e;
     r_EnqueueReadBuffer := r_EnqueueReadBuffer e; cost := cost e |}.

Definition with_build (r : cl_int) (log : string) (e : Env) : Env :=
  {| argv := argv e; rand_val := rand_val e; malloc_ok := malloc_ok e;
     platforms := platforms e; r_CreateContext := r_CreateContext e;
     source_file := source_file e;
     r_CreateProgramWithSource := r_CreateProgramWithSource e;
     r_BuildProgram := r; build_log := log;
     r_CreateCommandQueue := r_CreateCommandQueue e;
     r_CreateKernel := r_CreateKernel e; r_SetKernelArg := r_SetKernelArg e;
     r_CreateBuffer := r_CreateBuffer e; uninit := uninit e;
     r_EnqueueWriteBuffer := r_EnqueueWriteBuffer e;
     r_EnqueueNDRangeKernel := r_EnqueueNDRangeKernel e;
     r_WaitForEvents := r_WaitForEvents e;
     r_EnqueueReadBuffer := r_EnqueueReadBuffer e; cost := cost e |}.

Definition with_SetKernelArg (f : nat -> cl_int) (e : Env) : Env :=
  {| argv := argv e; rand_val := rand_val e; malloc_ok := malloc_ok e;
     platforms := platforms e; r_CreateContext := r_CreateContext e;
     source_file := source_file e;
     r_CreateProgramWithSource := r_CreateProgramWithSource e;
     r_BuildProgram := r_BuildProgram e; build_log := build_log e;
     r_CreateCommandQueue := r_CreateCommandQueue e;
     r_CreateKernel := r_CreateKernel e; r_SetKernelArg := f;
     r_CreateBuffer := r_CreateBuffer e; uninit := uninit e;
     r_EnqueueWriteBuffer := r_EnqueueWriteBuffer e;
     r_EnqueueNDRangeKernel := r_EnqueueNDRangeKernel e;
     r_WaitForEvents := r_WaitForEvents e;
     r_EnqueueReadBuffer := r_EnqueueReadBuffer e; cost := cost e |}.

(** The unchecked calls of the pipeline: buffer creation, upload, launch,
    wait and download. *)
Definition with_unchecked (cb : nat -> cl_int) (wr : Arr -> cl_int)
    (nd wt rd : cl_int) (e : Env) : Env :=
  {| argv := argv e; rand_val := rand_val e; malloc_ok := malloc_ok e;
     platforms := platforms e; r_CreateContext := r_CreateContext e;
     source_file := source_file e;
     r_CreateProgramWithSource := r_CreateProgramWithSource e;
     r_BuildProgram := r_BuildProgram e; build_log := build_log e;
     r_CreateCommandQueue := r_CreateCommandQueue e;
     r_CreateKernel := r_CreateKernel e; r_SetKernelArg := r_SetKernelArg e;
     r_CreateBuffer := cb; uninit := uninit e;
     r_EnqueueWriteBuffer := wr;
     r_EnqueueNDRangeKernel := nd;
     r_WaitForEvents := wt;
     r_EnqueueReadBuffer := rd; cost := cost e |}.

(** ** Compilation *)

(** What a failed compilation emits from the build call on: the build, the
    two queries of the log, and the log itself on the console. *)
Definition log_report (env : Env) : list Event :=
  [Call BuildProgram (r_BuildProgram env);
   Call GetProgramBuildInfo CL_SUCCESS;
   Call GetProgramBuildInfo CL_SUCCESS;
   Printf ("%s" +:+ nl) [PStr (build_log env)]].

Definition is_build (e : Event) : Prop :=
  match e with Call BuildProgram _ => True | _ => False end.

(** [reports_build_failure env m]: a run of [m] either never calls the
    compiler, or ends in [exit(1)] right after the report of the log. *)
Definition reports_build_failure (env : Env) {A} (m : M A) : Prop :=
  forall s,
    Forall (fun e => ~ is_build e) (m s).2
    \/ ((m s).1.1 = Exit 1 /\ exists t0, (m s).2 = t0 ++ log_report env).

(** Running queued commands touches the device memory, the host arrays and
    the queue only. *)
Definition untouched (s s' : State) : Prop :=
  SZ s' = SZ s /\ buf s' = buf s /\ event s' = event s /\ err s' = err s
  /\ rand_next s' = rand_next s /\ next_mem s' = next_mem s
  /\ kargs s' = kargs s /\ live s' = live s /\ clock s' = clock s.

(** [runs I E m]: from a state satisfying [I], [m] returns, in a state
    satisfying [I], and emits only events satisfying [E]. *)
Definition runs {A} (I : State -> Prop) (E : Event -> Prop) (m : M A) : Prop :=
  forall s, I s -> is_ret (m s).1.1 /\ I (m s).1.2 /\ Forall E (m s).2.

(** [leaves P m]: a run of [m] that returns has emitted an event
    satisfying [P]. *)
Definition leaves {A} (P : Event -> Prop) (m : M A) : Prop :=
  forall s, is_ret (m s).1.1 -> Exists P (m s).2.

(** The checks of the pipeline all pass: a device is found, and no checked
    call reports an error. *)
Record checked_stages_pass (env : Env) : Prop := {
  pass_platform : exists p ps, platforms env = p :: ps /\ (GPU ∈ p \/ CPU ∈ p);
  pass_context : 0 <= r_CreateContext env;
  pass_source : is_Some (source_file env);
  pass_program : 0 <= r_CreateProgramWithSource env;
  pass_build : 0 <= r_BuildProgram env;
  pass_queue : 0 <= r_CreateCommandQueue env;
  pass_kernel : 0 <= r_CreateKernel env;
  pass_args : forall i, (i < 4)%nat -> 0 <= r_SetKernelArg env i
}.

(** The diagnostics of the program: [perror], the printed error code and
    the printed build log. *)
Definition is_diagnostic (e : Event) : bool :=
  match e with
  | Perror _ => true
  | Printf fmt _ =>
      bool_decide (fmt = "Error code = %d") || bool_decide (fmt = "%s" +:+ nl)
  | _ => false
  end.

Definition quiet (e : Event) : Prop := is_diagnostic e = false.

(** The calls of the setup stage and the bindings of the arguments. *)
Definition is_setup_call (e : Event) : Prop :=
  match e with
  | Call GetPlatformIDs _ | Call (GetDeviceIDs _) _ | Call CreateContext _
  | Call CreateProgramWithSource _ | Call BuildProgram _
  | Call CreateCommandQueueWithProperties _ | Call (CreateKernel _) _
  | Call (SetKernelArg _) _ => True
  | _ => False
  end.

(** Buffers are created, and the kernel is launched, for the count [c]. *)
Definition uses_count (c : Z) (e : Event) : Prop :=
  match e with
  | Call (CreateBuffer bytes) _ => bytes = size_mul (to_size_t c) sizeof_int
  | Call (EnqueueNDRangeKernel g) _ => g = to_size_t c
  | _ => True
  end.

Definition is_buffer_creation (e : Event) : Prop :=
  match e with Call (CreateBuffer _) _ => True | _ => False end.

Definition is_launch (e : Event) : Prop :=
  match e with Call (EnqueueNDRangeKernel _) _ => True | _ => False end.

(** A string that [atoi] reads as a number: after the white space and an
    optional sign comes a digit. *)
Definition starts_with_digit (s : string) : bool :=
  match s with
  | String c _ => bool_decide (is_Some (digit_of c))
  | EmptyString => false
  end.

Definition numeric (s : string) : bool :=
  match skip_space s with
  | String "-" r => starts_with_digit r
  | String "+" r => starts_with_digit r
  | r => starts_with_digit r
  end.

(** [exits_one m]: whenever [m] ends through [exit], the status is 1. *)
Definition exits_one {A} (m : M A) : Prop :=
  forall s c, (m s).1.1 = Exit c -> c = 1.

(** ** Monitors

    A monitor reads the events of a run, one after the other, and refuses
    the run when an event comes out of order. *)

Fixpoint mon_run {C} (next : C -> Event -> option C) (c : C) (t : list Event)
    : option C :=
  match t with
  | [] => Some c
  | e :: t' =>
      match next c e with
      | Some c' => mon_run next c' t'
      | None => None
      end
  end.

Definition accepted {C} (next : C -> Event -> option C) (c : C)
    (t : list Event) : bool :=
  match mon_run next c t with
  | Some _ => true
  | None => false
  end.

(** Events a monitor does not look at. *)
Definition neutral {C} (next : C -> Event -> option C) (e : Event) : Prop :=
  forall c, next c e = Some c.

(** [tracks next c m c']: the monitor, in state [c], accepts the events of
    any run of [m], and is in state [c'] when [m] returns. *)
Definition tracks {C A} (next : C -> Event -> option C) (c : C) (m : M A)
    (c' : C) : Prop :=
  forall s,
    exists c'', mon_run next c (m s).2 = Some c''
                /\ (is_ret (m s).1.1 -> c'' = c').

(** ** Ordering of uploads, launch, wait and download

    An upload must be blocking and come before any launch; a launch needs
    both inputs uploaded; a wait counts once a launch has been enqueued; a
    download must be blocking and come after a launch and a wait that
    followed it. *)

Record Sync := MkSync {
  uploaded : list Arr;
  launched : bool;
  waited : bool
}.

Definition sync_init : Sync := MkSync [] false false.

Definition sync_step (c : Sync) (e : Event) : option Sync :=
  match e with
  | Call (EnqueueWriteBuffer _ blocking _ src) _ =>
      if blocking && negb (launched c)
      then Some (MkSync (src :: uploaded c) (launched c) (waited c))
      else None
  | Call (EnqueueNDRangeKernel _) _ =>
      if bool_decide (V1 ∈ uploaded c) && bool_decide (V2 ∈ uploaded c)
      then Some (MkSync (uploaded c) true false)
      else None
  | Call WaitForEvents _ =>
      Some (MkSync (uploaded c) (launched c) (launched c))
  | Call (EnqueueReadBuffer _ blocking _ _) _ =>
      if blocking && launched c && waited c then Some c else None
  | _ => Some c
  end.

Definition synchronised (t : list Event) : bool :=
  accepted sync_step sync_init t.

(** ** Resources held by a run *)

(** Every live device buffer is known to the program through one of
    [bufV1], [bufV2], [bufV_out]. *)
Definition tracked (s : State) : Prop :=
  forall h, RMem h ∈ live s -> Some h ∈ [bufV1 s; bufV2 s; bufV_out s].

Definition no_buffers (s : State) : Prop := forall h, RMem h ∉ live s.

(** The calls that give a resource back. *)
Definition is_release (e : Event) : bool :=
  match e with
  | Call (ReleaseMemObject _) _ | Call ReleaseKernel _
  | Call ReleaseCommandQueue _ | Call ReleaseProgram _ | Call ReleaseContext _
  | Free _ => true
  | _ => false
  end.

(** [hoare P m Q]: a run of [m] from a state satisfying [P] that returns
    does so in a state satisfying [Q]. *)
Definition hoare {A} (P : State -> Prop) (m : M A) (Q : State -> Prop) : Prop :=
  forall s, P s -> is_ret (m s).1.1 -> Q (m s).1.2.

(** The life of the device buffers: created once the program is built,
    written before the launch, which needs the three buffers created and
    the two inputs written, read back after the launch, released after the
    read. *)
Record Life := MkLife {
  built : bool;
  created : nat;
  written : nat;
  dispatched : bool;
  retrieved : bool
}.

Definition life_init : Life := MkLife false 0 0 false false.

Definition life_step (c : Life) (e : Event) : option Life :=
  match e with
  | Call BuildProgram r =>
      Some (MkLife (0 <=? r) (created c) (written c) (dispatched c) (retrieved c))
  | Call (CreateBuffer _) _ =>
      if built c
      then Some (MkLife true (S (created c)) (written c) (dispatched c)
                  (retrieved c))
      else None
  | Call (EnqueueWriteBuffer _ _ _ _) _ =>
      if (1 <=? created c)%nat && negb (dispatched c)
      then Some (MkLife (built c) (created c) (S (written c)) false
                  (retrieved c))
      else None
  | Call (EnqueueNDRangeKernel _) _ =>
      if (created c =? 3)%nat && (written c =? 2)%nat
      then Some (MkLife (built c) (created c) (written c) true (retrieved c))
      else None
  | Call (EnqueueReadBuffer _ _ _ _) _ =>
      if dispatched c
      then Some (MkLife (built c) (created c) (written c) true true)
      else None
  | Call (ReleaseMemObject _) _ => if retrieved c then Some c else None
  | _ => Some c
  end.

Definition well_ordered (t : list Event) : bool :=
  accepted life_step life_init t.

(** ** The reported time *)

(** The last line of the console output. *)
Definition time_report (ms : Z) : Event :=
  Printf ("Kernel Execution Time: %f ms" +:+ nl) [PMillis ms].

(** [on_return Q m]: the events of a run of [m] that returns satisfy [Q]. *)
Definition on_return {A} (Q : list Event -> Prop) (m : M A) : Prop :=
  forall s, is_ret (m s).1.1 -> Q (m s).2.

(** [timed env m]: all that a run of [m] does to the state is to let the
    time of its events pass. *)
Definition timed (env : Env) {A} (m : M A) : Prop :=
  forall s, (m s).1.2 = set_clock (clock s + cost_sum env (m s).2) s.

(** The events [tm] lie between the two readings of the clock, and the
    time reported is the time they took. *)
Definition measures (env : Env) (t tm : list Event) : Prop :=
  exists t0 start t1,
    t = t0 ++ [Now start] ++ tm
        ++ [Now (start + cost_sum env tm); time_report (cost_sum env tm)] ++ t1.

(** The launch of the kernel, the wait for its completion, the download of
    the output and the printing of the output. *)
Definition launch_to_print (g : Z) (r1 r2 : cl_int) (b : cl_mem) (bytes : Z)
    (r3 : cl_int) (tp : list Event) : list Event :=
  [Call (EnqueueNDRangeKernel g) r1; Call WaitForEvents r2;
   Call (EnqueueReadBuffer b CL_TRUE bytes V_OUT) r3] ++ tp ++ [rule].

Definition times_launch_to_print (env : Env) (t : list Event) : Prop :=
  exists g r1 r2 b bytes r3 tp,
    measures env t (launch_to_print g r1 r2 b bytes r3 tp).

(** ** Unchecked calls *)

(** The extents of the host arrays. *)
Definition extents (s : State) : Arrs (option nat) :=
  MkArrs (length <$> at_v1 (host s)) (length <$> at_v2 (host s))
    (length <$> at_v_out (host s)).

(** [SZ] is [n] and the three host arrays have [n] cells. *)
Definition sized (n : Z) (s : State) : Prop :=
  SZ s = n
  /\ extents s = MkArrs (Some (Z.to_nat n)) (Some (Z.to_nat n)) (Some (Z.to_nat n)).

Definition is_download (e : Event) : Prop :=
  match e with Call (EnqueueReadBuffer _ _ _ _) _ => True | _ => False end.

(** A buffer creation with the result the environment gave it. *)
Definition creation_of (env : Env) (e : Event) : Prop :=
  exists bytes k, e = Call (CreateBuffer bytes) (r_CreateBuffer env k).

(** The calls into the runtime made by a run, with their results. *)
Definition calls (t : list Event) : list (ClCall * cl_int) :=
  omap (fun e => match e with Call c r => Some (c, r) | _ => None end) t.

(** ** The pipeline when every call succeeds *)

Record every_call_succeeds (env : Env) : Prop := {
  ok_checked : checked_stages_pass env;
  ok_malloc : forall a, malloc_ok env a = true;
  ok_args : forall i, (i < 4)%nat -> r_SetKernelArg env i = CL_SUCCESS;
  ok_buffers : forall k, r_CreateBuffer env k = CL_SUCCESS;
  ok_uploads : forall a, r_EnqueueWriteBuffer env a = CL_SUCCESS;
  ok_launch : r_EnqueueNDRangeKernel env = CL_SUCCESS;
  ok_wait : r_WaitForEvents env = CL_SUCCESS;
  ok_download : r_EnqueueReadBuffer env = CL_SUCCESS
}.

(** The part of the state that carries data: all of it but the error
    variable, the resources held and the clock. *)
Definition data (s : State) : State :=
  set_clock 0 (set_err 0 (set_live [] s)).

(** The elementwise [int] sum of two arrays. *)
Definition sums (la lb : list Z) : list Z :=
  zip_with (fun x y => wrap_int (x + y)) la lb.

(** Right after the download into [v_out], the program prints the array
    [l] of [n] cells. *)
Definition printed_after_download (l : list Z) (n : Z) (t : list Event)
    : Prop :=
  exists t0 b bytes r t1,
    t = t0 ++ [Call (EnqueueReadBuffer b CL_TRUE bytes V_OUT) r]
        ++ preview l n ++ t1.

(** ** Checked stages, diagnostics and the order of the calls *)

(** The test [err < 0] of the program passes for the result [r]. *)
Definition passes (r : cl_int) : bool := negb (r <? 0).

(** The first platform has a GPU or a CPU. *)
Definition has_device (env : Env) : bool :=
  match platforms env with
  | p :: _ => bool_decide (GPU ∈ p) || bool_decide (CPU ∈ p)
  | [] => false
  end.

(** Every check of [setup_openCL_device_context_queue_kernel] passes. *)
Definition setup_ok (env : Env) : bool :=
  has_device env && passes (r_CreateContext env)
  && bool_decide (is_Some (source_file env))
  && passes (r_CreateProgramWithSource env) && passes (r_BuildProgram env)
  && passes (r_CreateCommandQueue env) && passes (r_CreateKernel env).

(** The check of [copy_kernel_args] passes. *)
Definition args_ok (env : Env) : bool :=
  forallb (fun i => passes (r_SetKernelArg env i)) [0; 1; 2; 3]%nat.

(** The last event of a run is a diagnostic. *)
Definition last_is_diagnostic (t : list Event) : Prop :=
  exists t0 d, t = t0 ++ [d] /\ is_diagnostic d = true.

(** [diagnosed m]: a run of [m] that ends through [exit] does so with
    status 1 right after a diagnostic; any other run prints none. *)
Definition diagnosed {A} (m : M A) : Prop :=
  forall s,
    match (m s).1.1 with
    | Exit c => c = 1 /\ last_is_diagnostic (m s).2
    | _ => Forall quiet (m s).2
    end.

(** The place of each call in the pipeline. *)
Definition stage_of (c : ClCall) : nat :=
  match c with
  | GetPlatformIDs => 0
  | GetDeviceIDs _ => 1
  | CreateContext => 2
  | CreateProgramWithSource => 3
  | BuildProgram => 4
  | GetProgramBuildInfo => 5
  | CreateCommandQueueWithProperties => 6
  | CreateKernel _ => 7
  | CreateBuffer _ => 8
  | EnqueueWriteBuffer _ _ _ _ => 9
  | SetKernelArg _ => 10
  | EnqueueNDRangeKernel _ => 11
  | WaitForEvents => 12
  | EnqueueReadBuffer _ _ _ _ => 13
  | ReleaseMemObject _ => 14
  | ReleaseKernel => 15
  | ReleaseCommandQueue => 16
  | ReleaseProgram => 17
  | ReleaseContext => 18
  end.

(** The monitor of the order of the calls remembers the place of the last
    one; [free] comes after every call. *)
Definition order_step (last : nat) (e : Event) : option nat :=
  match e with
  | Call c _ => if (last <=? stage_of c)%nat then Some (stage_of c) else None
  | Free _ => if (last <=? 19)%nat then Some 19%nat else None
  | _ => Some last
  end.

Definition in_pipeline_order (t : list Event) : bool :=
  accepted order_step 0%nat t.

(** [i] is the position of the first device of class [ty] in [p]. *)
Definition first_of (ty : DeviceType) (p : Platform) (i : nat) : Prop :=
  p !! i = Some ty /\ forall j, (j < i)%nat -> p !! j <> Some ty.

(** An environment in which [malloc] always fails. *)
Definition without_memory (e : Env) : Env :=
  {| argv := argv e; rand_val := rand_val e; malloc_ok := fun _ => false;
     platforms := platforms e; r_CreateContext := r_CreateContext e;
     source_file := source_file e;
     r_CreateProgramWithSource := r_CreateProgramWithSource e;
     r_BuildProgram := r_BuildProgram e; build_log := build_log e;
     r_CreateCommandQueue := r_CreateCommandQueue e;
     r_CreateKernel := r_CreateKernel e; r_SetKernelArg := r_SetKernelArg e;
     r_CreateBuffer := r_CreateBuffer e; uninit := uninit e;
     r_EnqueueWriteBuffer := r_EnqueueWriteBuffer e;
     r_EnqueueNDRangeKernel := r_EnqueueNDRangeKernel e;
     r_WaitForEvents := r_WaitForEvents e;
     r_EnqueueReadBuffer := r_EnqueueReadBuffer e; cost := cost e |}.

(** The events of a run that goes no further than the setup: no call
    after the creation of the kernel, and nothing freed. *)
Definition only_setup (e : Event) : Prop :=
  match e with
  | Call c _ => (stage_of c <= 7)%nat
  | Free _ => False
  | _ => True
  end.

(** * Reasoning about computations *)

Section Logic.

Context {A B : Type}.

Lemma bind_eq (m : M A) (f : A -> M B) s :
  bind m f s =
  match m s with
  | (Ret a, s1, t1) => ((f a s1).1.1, (f a s1).1.2, t1 ++ (f a s1).2)
  | (Exit c, s1, t1) => (Exit c, s1, t1)
  | (Crash, s1, t1) => (Crash, s1, t1)
  end.
Proof.
  unfold bind. destruct (m s) as [[[a| |] s1] t1]; try done.
  by destruct (f a s1) as [[o s2] t2].
Qed.

(** Whenever [m] returns, [bind m f] goes on with [f]. *)
Lemma bind_ret_l (m : M A) (f : A -> M B) s a s1 t1 :
  m s = (Ret a, s1, t1) ->
  bind m f s = ((f a s1).1.1, (f a s1).1.2, t1 ++ (f a s1).2).
Proof. intros H. by rewrite bind_eq, H. Qed.

(** [exit] and crashes cut the rest of the computation. *)
Lemma bind_exit_l (m : M A) (f : A -> M B) s c s1 t1 :
  m s = (Exit c, s1, t1) -> bind m f s = (Exit c, s1, t1).
Proof. intros H. by rewrite bind_eq, H. Qed.

Lemma bind_crash_l (m : M A) (f : A -> M B) s s1 t1 :
  m s = (Crash, s1, t1) -> bind m f s = (Crash, s1, t1).
Proof. intros H. by rewrite bind_eq, H. Qed.

End Logic.

Section Rules.

Context {A B : Type} (I : State -> Prop) (E : Event -> Prop).

Lemma step_ret (a : A) : step I E (ret a).
Proof. intros s H. by split; [|constructor]. Qed.

Lemma step_gets (f : State -> A) : step I E (gets f).
Proof. intros s H. by split; [|constructor]. Qed.

Lemma step_exit c : step I E (@exit A c).
Proof. intros s H. by split; [|constructor]. Qed.

Lemma step_crash : step I E (@crash A).
Proof. intros s H. by split; [|constructor]. Qed.

Lemma step_modify f : (forall s, I s -> I (f s)) -> step I E (modify f).
Proof. intros Hf s H. split; [by apply Hf|constructor]. Qed.

Lemma step_bind (m : M A) (f : A -> M B) :
  step I E m -> (forall a, step I E (f a)) -> step I E (bind m f).
Proof.
  intros Hm Hf s H. rewrite bind_eq. destruct (Hm s H) as [H1 H2].
  destruct (m s) as [[[a| |] s1] t1]; simpl in *; [|done..].
  destruct (Hf a s1 H1) as [H3 H4]. split; [done|]. by apply Forall_app.
Qed.

Lemma stops_bind (m : M A) (f : A -> M B) :
  step I E m -> (forall a, stops I E (f a)) -> stops I E (bind m f).
Proof.
  intros Hm Hf s H. rewrite bind_eq. destruct (Hm s H) as [H1 H2].
  destruct (m s) as [[[a| |] s1] t1]; simpl in *; [|by split; [tauto|]..].
  destruct (Hf a s1 H1) as [H3 H4]. split; [done|]. by apply Forall_app.
Qed.

Lemma stops_here (m : M A) (f : A -> M B) :
  stops I E m -> stops I E (bind m f).
Proof.
  intros Hm s H. rewrite bind_eq. destruct (Hm s H) as [H1 H2].
  by destruct (m s) as [[[a| |] s1] t1]; simpl in *.
Qed.

Lemma total_bind (m : M A) (f : A -> M B) :
  total m -> (forall a, total (f a)) -> total (bind m f).
Proof.
  intros Hm Hf s. rewrite bind_eq. specialize (Hm s).
  destruct (m s) as [[[a| |] s1] t1]; simpl in *; try done. apply Hf.
Qed.

Lemma cut_short_bind (m : M A) (f : A -> M B) :
  step I E m -> (forall a, cut_short I E (f a)) -> cut_short I E (bind m f).
Proof.
  intros Hm Hf s H. rewrite bind_eq. destruct (Hm s H) as [H1 H2].
  destruct (m s) as [[[a| |] s1] t1]; simpl in *; [|done..].
  intros Hr. apply Forall_app. split; [done|]. by apply Hf.
Qed.

Lemma cut_short_total (m : M A) : total m -> cut_short I E m.
Proof. intros Hm s _ Hr. by destruct Hr. Qed.

End Rules.

Lemma step_for I E (l : list Z) (body : Z -> M unit) :
  (forall i, step I E (body i)) -> step I E (for_ l body).
Proof.
  intros Hb. induction l as [|i l IH]; simpl.
  - apply step_ret.
  - apply step_bind; [apply Hb|]. by intros _.
Qed.

Lemma total_ret {A} (a : A) : total (ret a).
Proof. by intros s. Qed.
Lemma total_gets {A} (f : State -> A) : total (gets f).
Proof. by intros s. Qed.
Lemma total_modify f : total (modify f).
Proof. by intros s. Qed.
Lemma total_emit env e : total (emit env e).
Proof. by intros s. Qed.

Lemma step_emit env I (E : Event -> Prop) e :
  (forall s x, I s -> I (set_clock x s)) -> E e -> step I E (emit env e).
Proof.
  intros HI He s H. split; [by apply HI|]. by constructor.
Qed.

Lemma step_now I (E : Event -> Prop) :
  (forall t, E (Now t)) -> step I E now.
Proof. intros He s H. split; [done|]. by constructor. Qed.

Lemma step_rand env I (E : Event -> Prop) :
  (forall s x, I s -> I (set_rand_next x s)) -> step I E (rand env).
Proof. intros HI s H. split; [by apply HI|]. constructor. Qed.

Ltac head_of t :=
  lazymatch t with
  | ?f _ => head_of f
  | _ => t
  end.

(** Syntax-directed decomposition of a computation; [tac] closes the side
    conditions on the invariant and on the events. *)
Ltac step_with tac :=
  lazy zeta;
  lazymatch goal with
  | |- step _ _ (bind _ _) =>
      apply step_bind; [step_with tac | intros ?; step_with tac]
  | |- step _ _ (ret _) => apply step_ret
  | |- step _ _ (gets _) => apply step_gets
  | |- step _ _ (exit _) => apply step_exit
  | |- step _ _ crash => apply step_crash
  | |- step _ _ (modify _) => apply step_modify; tac
  | |- step _ _ (emit _ _) => apply step_emit; tac
  | |- step _ _ now => apply step_now; tac
  | |- step _ _ (rand _) => apply step_rand; tac
  | |- step _ _ (for_ _ _) => apply step_for; intros ?; step_with tac
  | |- step _ _ (if ?c then _ else _) => destruct c; step_with tac
  | |- step _ _ (match ?x with _ => _ end) => destruct x; step_with tac
  | |- step _ _ ?m => let h := head_of m in unfold h; step_with tac
  end.

Ltac total_auto :=
  lazy zeta;
  lazymatch goal with
  | |- total (bind _ _) => apply total_bind; [total_auto | intros ?; total_auto]
  | |- total (ret _) => apply total_ret
  | |- total (gets _) => apply total_gets
  | |- total (modify _) => apply total_modify
  | |- total (emit _ _) => apply total_emit
  | |- total (if ?c then _ else _) => destruct c; total_auto
  | |- total (match ?x with _ => _ end) => destruct x; total_auto
  | |- total ?m => let h := head_of m in unfold h; total_auto
  end.

(** ** Forward execution

    [wp m s Q] says that the run of [m] from [s] satisfies [Q]; the lemmas
    below execute one primitive at the head of a computation. *)

Section Forward.

Variable env : Env.
Context {A B : Type}.
Implicit Types (k : A -> M B) (Q : Outcome B -> State -> list Event -> Prop).

Lemma wp_bind_eq (m : M A) k s Q a s1 t1 :
  m s = (Ret a, s1, t1) ->
  wp (k a) s1 (fun o s2 t2 => Q o s2 (t1 ++ t2)) ->
  wp (bind m k) s Q.
Proof. unfold wp. intros H. by rewrite bind_eq, H. Qed.

Lemma wp_bind_stop (m : M A) k s Q o s1 t1 :
  m s = (o, s1, t1) ->
  match o with
  | Ret _ => False
  | Exit c => Q (Exit c) s1 t1
  | Crash => Q Crash s1 t1
  end ->
  wp (bind m k) s Q.
Proof. unfold wp. intros H. rewrite bind_eq, H. by destruct o. Qed.

Lemma wp_bind_ret (a : A) k s Q : wp (k a) s Q -> wp (bind (ret a) k) s Q.
Proof. intros H. by eapply wp_bind_eq. Qed.

Lemma wp_bind_gets (f : State -> A) k s Q :
  wp (k (f s)) s Q -> wp (bind (gets f) k) s Q.
Proof. intros H. by eapply wp_bind_eq. Qed.

Lemma wp_bind_exit c k s Q : Q (Exit c) s [] -> wp (bind (@exit A c) k) s Q.
Proof. intros H. by eapply wp_bind_stop. Qed.

Lemma wp_bind_crash k s Q : Q Crash s [] -> wp (bind (@crash A) k) s Q.
Proof. intros H. by eapply wp_bind_stop. Qed.

End Forward.

Section ForwardUnit.

Variable env : Env.
Context {B : Type}.
Implicit Types (Q : Outcome B -> State -> list Event -> Prop).

Lemma wp_bind_modify f (k : unit -> M B) s Q :
  wp (k tt) (f s) Q -> wp (bind (modify f) k) s Q.
Proof. intros H. by eapply wp_bind_eq. Qed.

Lemma wp_bind_emit e (k : unit -> M B) s Q :
  wp (k tt) (set_clock (clock s + Z.of_N (cost env e)) s)
    (fun o s' t => Q o s' (e :: t)) ->
  wp (bind (emit env e) k) s Q.
Proof. intros H. by eapply wp_bind_eq. Qed.

Lemma wp_bind_now (k : Z -> M B) s Q :
  wp (k (clock s)) s (fun o s' t => Q o s' (Now (clock s) :: t)) ->
  wp (bind now k) s Q.
Proof. intros H. by eapply wp_bind_eq. Qed.

Lemma wp_bind_rand (k : Z -> M B) s Q :
  wp (k (Z.of_N (rand_val env (rand_next s)))) (set_rand_next (S (rand_next s)) s) Q ->
  wp (bind (rand env) k) s Q.
Proof. intros H. by eapply wp_bind_eq. Qed.

Lemma wp_bind_assoc {A C} (m : M A) (f : A -> M C) (g : C -> M B) s Q :
  wp (bind m (fun a => bind (f a) g)) s Q -> wp (bind (bind m f) g) s Q.
Proof.
  unfold wp. rewrite !bind_eq.
  destruct (m s) as [[[a| |] s1] t1]; simpl; [|done..].
  rewrite !bind_eq. destruct (f a s1) as [[[c| |] s2] t2]; simpl; [|done..].
  by rewrite app_assoc.
Qed.

Lemma wp_unit_r (m : M B) s Q : wp (bind m ret) s Q -> wp m s Q.
Proof.
  unfold wp. rewrite bind_eq.
  destruct (m s) as [[[a| |] s1] t1]; simpl; [|done..]. by rewrite app_nil_r.
Qed.

Lemma wp_ret (b : B) s Q : Q (Ret b) s [] -> wp (ret b) s Q.
Proof. done. Qed.

Lemma wp_exit c s Q : Q (Exit c) s [] -> wp (@exit B c) s Q.
Proof. done. Qed.

Lemma wp_eq (m : M B) s Q o s' t : m s = (o, s', t) -> Q o s' t -> wp m s Q.
Proof. unfold wp. by intros ->. Qed.

Lemma wp_run (m : M B) s Q : wp m s Q -> Q (m s).1.1 (m s).1.2 (m s).2.
Proof. done. Qed.

End ForwardUnit.

(** Reduction of projections of updated states. *)
Ltac st_simpl :=
  cbn [SZ host buf event err rand_next next_mem dmem kargs pending live clock
       set_SZ set_host set_buf set_event set_err set_rand_next set_next_mem
       set_dmem set_kargs set_pending set_live set_clock
       acquire release create_buffer enqueue fst snd
       get upd at_v1 at_v2 at_v_out v1 v2 v_out bufV1 bufV2 bufV_out
       initial_state].

Ltac st_simpl_in H :=
  cbn [SZ host buf event err rand_next next_mem dmem kargs pending live clock
       set_SZ set_host set_buf set_event set_err set_rand_next set_next_mem
       set_dmem set_kargs set_pending set_live set_clock
       acquire release create_buffer enqueue fst snd
       get upd at_v1 at_v2 at_v_out v1 v2 v_out bufV1 bufV2 bufV_out
       initial_state] in H.

(** One step of forward execution of the primitive at the head. *)
Ltac wp_head :=
  lazymatch goal with
  | |- wp (bind (bind _ _) _) _ _ => apply wp_bind_assoc
  | |- wp (bind (ret _) _) _ _ => apply wp_bind_ret
  | |- wp (bind (gets _) _) _ _ => apply wp_bind_gets
  | |- wp (bind (modify _) _) _ _ => apply wp_bind_modify
  | |- wp (bind (emit _ _) _) _ _ => apply wp_bind_emit
  | |- wp (bind (printf _ _ _) _) _ _ => unfold printf at 1; apply wp_bind_emit
  | |- wp (bind (perror _ _) _) _ _ => unfold perror at 1; apply wp_bind_emit
  | |- wp (bind now _) _ _ => apply wp_bind_now
  | |- wp (bind (rand _) _) _ _ => apply wp_bind_rand
  | |- wp (bind (exit _) _) _ _ => apply wp_bind_exit
  | |- wp (bind crash _) _ _ => apply wp_bind_crash
  | |- wp (ret _) _ _ => apply wp_ret
  | |- wp (exit _) _ _ => apply wp_exit
  | |- wp (emit _ _) _ _ => apply wp_unit_r
  | |- wp (printf _ _ _) _ _ => apply wp_unit_r
  | |- wp (perror _ _) _ _ => apply wp_unit_r
  | |- wp (modify _) _ _ => apply wp_unit_r
  | |- wp (gets _) _ _ => apply wp_unit_r
  end; lazy beta zeta; st_simpl.

Ltac wp_steps := repeat wp_head.

Lemma wp_result {A} (m : M A) s r :
  wp m s (fun o s' t => (o, s', t) = r) -> m s = r.
Proof. unfold wp. by destruct (m s) as [[o s'] t]. Qed.

Lemma get_upd {V} (a : Arr) (v : V) f : get a (upd a v f) = v.
Proof. by destruct a. Qed.

Lemma get_upd_ne {V} (a b : Arr) (v : V) f : a <> b -> get a (upd b v f) = get a f.
Proof. by destruct a, b. Qed.

Lemma upd_upd {V} (a : Arr) (v w : V) f : upd a v (upd a w f) = upd a v f.
Proof. by destruct a. Qed.

Lemma cost_sum_app env t1 t2 :
  cost_sum env (t1 ++ t2) = cost_sum env t1 + cost_sum env t2.
Proof. induction t1 as [|e t1 IH]; simpl; lia. Qed.

Lemma cost_sum_nonneg env t : 0 <= cost_sum env t.
Proof. induction t as [|e t IH]; simpl; lia. Qed.

Lemma set_clock_eq a b s : a = b -> set_clock a s = set_clock b s.
Proof. by intros ->. Qed.

Lemma clock_set_clock a s : clock (set_clock a s) = a.
Proof. done. Qed.

Ltac clock_norm :=
  repeat (progress change (set_clock ?a (set_clock _ ?s)) with (set_clock a s)
          || rewrite clock_set_clock).

(** ** The loops of [init] and [print] *)

Section Loops.

Variable env : Env.

Lemma rand_cells_S k n :
  rand_cells env k (S n)
  = Z.of_N (rand_val env k) `rem` 100 :: rand_cells env (S k) n.
Proof.
  unfold rand_cells. simpl. rewrite Nat.add_0_r. f_equal.
  rewrite <- fmap_S_seq, <- list_fmap_compose. apply list_fmap_ext.
  intros _ j _. simpl. by rewrite Nat.add_succ_r.
Qed.

Lemma length_rand_cells k n : length (rand_cells env k n) = n.
Proof. unfold rand_cells. by rewrite length_fmap, length_seq. Qed.

Lemma rand_cells_bounds k n i x :
  rand_cells env k n !! i = Some x -> 0 <= x <= 99.
Proof.
  unfold rand_cells. rewrite list_lookup_fmap. intros H.
  destruct (seq 0 n !! i) as [j|]; simplify_eq/=.
  pose proof (Z.rem_bound_pos (Z.of_N (rand_val env (k + j))) 100). lia.
Qed.

(** The loop of [init] fills the cells from [i] on with the next results
    of [rand]. *)
Lemma init_loop A (n : nat) : forall (i : nat) l h k s,
  length l = (i + n)%nat ->
  for_ (seqZ (Z.of_nat i) (Z.of_nat n))
    (fun i => r <- rand env ;; store A i (r `rem` 100))
    (set_host (upd A (Some l) h) (set_rand_next k s))
  = (Ret tt,
     set_host (upd A (Some (take i l ++ rand_cells env k n)) h)
       (set_rand_next (k + n) s), []).
Proof.
  induction n as [|n IH]; intros i l h k s Hlen.
  - rewrite seqZ_nil by lia. simpl.
    by rewrite Nat.add_0_r, app_nil_r, take_ge by lia.
  - rewrite seqZ_cons by lia.
    replace (Z.succ (Z.of_nat i)) with (Z.of_nat (S i)) by lia.
    replace (Z.pred (Z.of_nat (S n))) with (Z.of_nat n) by lia.
    set (v := Z.of_N (rand_val env k) `rem` 100).
    apply wp_result. cbn [for_]. wp_steps. unfold store at 1. wp_steps.
    rewrite get_upd.
    replace ((0 <=? Z.of_nat i) && (Z.of_nat i <? Z.of_nat (length l)))
      with true
      by (symmetry; apply andb_true_iff;
          split; [apply Z.leb_le|apply Z.ltb_lt]; lia).
    wp_steps. rewrite Nat2Z.id, upd_upd. fold v.
    eapply wp_eq; [apply (IH (S i) (<[i:=v]> l) h (S k) s)|].
    { rewrite length_insert. lia. }
    rewrite rand_cells_S. fold v.
    rewrite (take_S_r _ _ v), <- app_assoc
      by (apply list_lookup_insert_eq; lia).
    rewrite take_insert_ge by lia. by rewrite Nat.add_succ_r.
Qed.

Lemma bytes_of_count size :
  0 <= size < 2 ^ 61 ->
  size_mul sizeof_int (to_size_t size) = 4 * size
  /\ size_mul (to_size_t size) sizeof_int = 4 * size
  /\ (4 * size) `div` sizeof_int = size.
Proof.
  intros H. unfold size_mul, to_size_t, sizeof_int.
  rewrite (Z.mod_small size) by lia.
  rewrite (Z.mul_comm size 4), Z.mod_small by lia.
  by rewrite (Z.mul_comm 4 size), Z.div_mul by lia.
Qed.

(** [init] on a count that fits and with memory at hand. *)
Lemma init_run A size s :
  0 <= size < 2 ^ 61 -> malloc_ok env A = true ->
  init env A size s
  = (Ret tt,
     set_host (upd A (Some (rand_cells env (rand_next s) (Z.to_nat size))) (host s))
       (set_rand_next (rand_next s + Z.to_nat size) (acquire (RHost A) s)), []).
Proof.
  intros Hsz Hok. destruct (bytes_of_count size Hsz) as (Hb & _ & Hd).
  apply wp_result. unfold init, malloc. rewrite Hb, Hok, Hd.
  replace (4 * size <=? PTRDIFF_MAX) with true
    by (symmetry; apply Z.leb_le; unfold PTRDIFF_MAX; lia).
  unfold range. rewrite Z.sub_0_r. simpl andb. wp_steps.
  pose proof (init_loop A (Z.to_nat size) 0 (replicate (Z.to_nat size) 0)
                (host s) (rand_next s) (acquire (RHost A) s)) as Hloop.
  rewrite Z2Nat.id in Hloop by lia.
  eapply wp_eq; [apply Hloop; by rewrite length_replicate|]. done.
Qed.

(** [init] on a count that is not positive allocates and stores nothing
    else. *)
Lemma init_nonpos A size s :
  size <= 0 ->
  exists p l,
    init env A size s = (Ret tt, set_host (upd A p (host s)) (set_live l s), []).
Proof.
  intros Hsz. unfold init, malloc, range. rewrite seqZ_nil by lia.
  destruct ((_ <=? _) && _).
  - eexists _, _. apply wp_result. wp_steps. done.
  - eexists _, (live s). apply wp_result. wp_steps. done.
Qed.

(** The printing loop shows the cells it visits. *)
Lemma print_loop l (n : nat) : forall (i : nat) s,
  (i + n <= length l)%nat ->
  for_ (seqZ (Z.of_nat i) (Z.of_nat n))
    (fun i => x <- load (Some l) i ;; printf env "%d " [PInt x]) s
  = (Ret tt,
     set_clock (clock s + cost_sum env (show <$> take n (drop i l))) s,
     show <$> take n (drop i l)).
Proof.
  induction n as [|n IH]; intros i s Hlen.
  - rewrite seqZ_nil by lia. simpl. rewrite Z.add_0_r. by destruct s.
  - rewrite seqZ_cons by lia.
    replace (Z.succ (Z.of_nat i)) with (Z.of_nat (S i)) by lia.
    replace (Z.pred (Z.of_nat (S n))) with (Z.of_nat n) by lia.
    destruct (lookup_lt_is_Some_2 l i) as [x Hx]; [lia|].
    rewrite (drop_S _ _ _ Hx). cbn [firstn fmap list_fmap for_ cost_sum foldr].
    apply wp_result. wp_steps. unfold load at 1.
    replace (0 <=? Z.of_nat i) with true by (symmetry; apply Z.leb_le; lia).
    rewrite Nat2Z.id, Hx. wp_steps.
    eapply wp_eq; [apply IH; lia|]. st_simpl.
    fold (show x). fold (cost_sum env (show <$> take n (drop (S i) l))).
    by rewrite Z.add_assoc.
Qed.

(** [print] on an array of [size] cells. *)
Lemma print_run l size s :
  length l = Z.to_nat size -> 0 <= size ->
  print env (Some l) size s
  = (Ret tt, set_clock (clock s + cost_sum env (preview l size)) s,
     preview l size).
Proof.
  intros Hlen Hsz. unfold print, preview, range. change (PRINT =? 0) with false.
  change (PRINT =? 1) with true. cbv iota. simpl andb.
  destruct (Z.ltb_spec 15 size) as [Hbig|Hsmall].
  - change (seqZ 0 (5 - 0)) with (seqZ (Z.of_nat 0) (Z.of_nat 5)).
    replace (size - (size - 5)) with (Z.of_nat 5) by lia.
    replace (size - 5) with (Z.of_nat (Z.to_nat (size - 5))) by lia.
    rewrite Nat2Z.id.
    apply wp_result. wp_steps.
    eapply wp_bind_eq; [apply print_loop; lia|]. wp_steps.
    eapply wp_bind_eq; [apply print_loop; lia|]. wp_steps.
    rewrite drop_0, (take_ge (drop _ _)) by (rewrite length_drop; lia).
    unfold ellipsis, rule. clock_norm. f_equal; [f_equal|].
    + apply set_clock_eq. rewrite !cost_sum_app. simpl. lia.
    + by rewrite <- !app_assoc.
  - rewrite Z.sub_0_r.
    replace (seqZ 0 size) with (seqZ (Z.of_nat 0) (Z.of_nat (Z.to_nat size)))
      by (f_equal; lia).
    apply wp_result. wp_steps.
    eapply wp_bind_eq; [apply print_loop; lia|]. wp_steps.
    rewrite drop_0, take_ge by lia.
    unfold rule. clock_norm. f_equal. f_equal.
    apply set_clock_eq. rewrite !cost_sum_app. simpl. lia.
Qed.

(** [print] with a count that is not positive reads nothing. *)
Lemma print_nonpos a size s :
  size <= 0 ->
  print env a size s
  = (Ret tt, set_clock (clock s + Z.of_N (cost env rule)) s, [rule]).
Proof.
  intros Hsz. unfold print, range. change (PRINT =? 0) with false.
  replace (15 <? size) with false by (symmetry; apply Z.ltb_ge; lia).
  rewrite andb_false_r, seqZ_nil by lia.
  apply wp_result. wp_steps. done.
Qed.

End Loops.

(** * The console preview *)

(** C9: the preview of an array of 20 cells is its first five values, the
    ellipsis, its last five values (and the closing rule); the preview of
    an array of 10 cells is its ten values (and the closing rule). *)
Theorem print_preview_20_and_10 env s
    a0 a1 a2 a3 a4 a5 a6 a7 a8 a9 a10 a11 a12 a13 a14 a15 a16 a17 a18 a19 :
  (let r :=
     print env
       (Some [a0; a1; a2; a3; a4; a5; a6; a7; a8; a9;
              a10; a11; a12; a13; a14; a15; a16; a17; a18; a19]) 20 s in
   r.1.1 = Ret tt
   /\ trace r = [show a0; show a1; show a2; show a3; show a4; ellipsis;
                 show a15; show a16; show a17; show a18; show a19; rule])
  /\ (let r := print env (Some [a0; a1; a2; a3; a4; a5; a6; a7; a8; a9]) 10 s in
      r.1.1 = Ret tt
      /\ trace r = [show a0; show a1; show a2; show a3; show a4;
                    show a5; show a6; show a7; show a8; show a9; rule]).
Proof.
  split; cbv zeta; rewrite print_run by (done || lia); done.
Qed.

(** * Device selection *)

Section Device.

Variable env : Env.

(** [create_device] as a decision on the first platform. *)
Lemma create_device_cases s :
  exists c,
    match platforms env with
    | [] =>
        create_device env s
        = (Exit 1, set_clock c s,
           [Call GetPlatformIDs CL_PLATFORM_NOT_FOUND_KHR;
            Perror "Couldn't identify a platform"])
    | p :: _ =>
        match find_device GPU p, find_device CPU p with
        | Some (i, _), _ =>
            create_device env s
            = (Ret (Some (Device 0 i)), set_clock c s,
               [Call GetPlatformIDs CL_SUCCESS; Call (GetDeviceIDs GPU) CL_SUCCESS])
        | None, Some (i, _) =>
            create_device env s
            = (Ret (Some (Device 0 i)), set_clock c s,
               [Call GetPlatformIDs CL_SUCCESS;
                Call (GetDeviceIDs GPU) CL_DEVICE_NOT_FOUND;
                Call (GetDeviceIDs CPU) CL_SUCCESS])
        | None, None =>
            create_device env s
            = (Exit 1, set_clock c s,
               [Call GetPlatformIDs CL_SUCCESS;
                Call (GetDeviceIDs GPU) CL_DEVICE_NOT_FOUND;
                Call (GetDeviceIDs CPU) CL_DEVICE_NOT_FOUND;
                Perror "Couldn't access any devices"])
        end
    end.
Proof.
  unfold create_device, clGetPlatformIDs, clGetDeviceIDs.
  destruct (platforms env) as [|p ps] eqn:Hp.
  { eexists. apply wp_result. wp_steps. clock_norm. done. }
  destruct (find_device GPU p) as [[i d]|] eqn:Hg.
  { eexists. apply wp_result. wp_steps. simpl. rewrite Hg. wp_steps. simpl.
    wp_steps. clock_norm. done. }
  destruct (find_device CPU p) as [[i d]|] eqn:Hc.
  - eexists. apply wp_result. wp_steps. simpl. rewrite Hg. wp_steps. simpl.
    rewrite Hc. wp_steps. simpl. wp_steps. clock_norm. done.
  - eexists. apply wp_result. wp_steps. simpl. rewrite Hg. wp_steps. simpl.
    rewrite Hc. wp_steps. simpl. wp_steps. clock_norm. done.
Qed.

End Device.

(** C4, as amended: with no platform the selection fails; otherwise only
    the first platform counts: a GPU of it is selected if it has one, else a
    CPU of it if it has one, and the selection fails exactly when the first
    platform has neither. *)
Theorem create_device_first_platform env s :
  match platforms env with
  | [] => (create_device env s).1.1 = Exit 1
  | p :: _ =>
      (GPU ∈ p ->
       exists i, (create_device env s).1.1 = Ret (Some (Device 0 i))
                 /\ p !! i = Some GPU)
      /\ (GPU ∉ p -> CPU ∈ p ->
          exists i, (create_device env s).1.1 = Ret (Some (Device 0 i))
                    /\ p !! i = Some CPU)
      /\ (GPU ∉ p -> CPU ∉ p -> (create_device env s).1.1 = Exit 1)
  end.
Proof.
  destruct (create_device_cases env s) as [c H].
  destruct (platforms env) as [|p ps]; [by rewrite H|].
  destruct (find_device GPU p) as [[i d]|] eqn:Hg.
  - apply list_find_Some in Hg as (Hi & -> & _). rewrite H.
    split; [by eauto|]. split; intros Hn; destruct Hn; by eapply list_elem_of_lookup_2.
  - apply list_find_None in Hg.
    assert (GPU ∉ p) as HnG.
    { intros Hin. by eapply Forall_forall in Hg. }
    destruct (find_device CPU p) as [[i d]|] eqn:Hc.
    + apply list_find_Some in Hc as (Hi & -> & _). rewrite H.
      split; [done|]. split; [by eauto|].
      intros _ Hn. destruct Hn. by eapply list_elem_of_lookup_2.
    + apply list_find_None in Hc. rewrite H.
      split; [done|]. split; [|done].
      intros _ Hin. by eapply Forall_forall in Hc.
Qed.

(** C4, as stated, fails: a GPU on a second platform does not keep the
    selection from failing when the first platform has neither a GPU nor a
    CPU. *)
Lemma create_device_ignores_second_platform :
  (exists p, p ∈ platforms (with_platforms [[ACCELERATOR]; [GPU]] (nominal []))
             /\ GPU ∈ p)
  /\ termination
       (create_device (with_platforms [[ACCELERATOR]; [GPU]] (nominal []))
          initial_state)
     = Exited 1.
Proof.
  split; [|by vm_compute].
  exists [GPU]. split; [|by constructor].
  simpl. apply list_elem_of_further, list_elem_of_here.
Qed.

(** * Compilation of the kernel *)

Ltac triv := by (intros; simpl; auto).

Section Build.

Variable env : Env.

(** [build_program] on the kernel file, case by case. *)
Lemma build_program_cases dev s :
  exists c e l,
    build_program env dev kernel_file s
    = match source_file env with
      | None =>
          (Exit 1, set_clock c (set_err e (set_live l s)),
           [Perror "Couldn't find the program file"])
      | Some _ =>
          if r_CreateProgramWithSource env <? 0 then
            (Exit 1, set_clock c (set_err e (set_live l s)),
             [Call CreateProgramWithSource (r_CreateProgramWithSource env);
              Perror "Couldn't create the program"])
          else if r_BuildProgram env <? 0 then
            (Exit 1, set_clock c (set_err e (set_live l s)),
             Call CreateProgramWithSource (r_CreateProgramWithSource env)
             :: log_report env)
          else
            (Ret tt, set_clock c (set_err e (set_live l s)),
             [Call CreateProgramWithSource (r_CreateProgramWithSource env);
              Call BuildProgram (r_BuildProgram env)])
      end
    /\ (l = live s \/ l = RProgram :: live s).
Proof.
  unfold build_program, fopen. rewrite String.eqb_refl.
  assert (Hl : forall r : cl_int,
    hold_if (r =? CL_SUCCESS) RProgram (live s) = live s
    \/ hold_if (r =? CL_SUCCESS) RProgram (live s) = RProgram :: live s).
  { intros r. destruct (r =? CL_SUCCESS); auto. }
  destruct (source_file env) as [text|].
  2: { exists (clock s + Z.of_N (cost env (Perror "Couldn't find the program file"))),
         (err s), (live s).
       split; [|by left]. apply wp_result. wp_steps. by destruct s. }
  unfold clCreateProgramWithSource, cl_create.
  set (r := r_CreateProgramWithSource env) in *.
  destruct (r <? 0) eqn:Hr.
  { eexists _, _, _. split; [|apply (Hl r)].
    apply wp_result. wp_steps. rewrite Hr. wp_steps.
    destruct (r =? CL_SUCCESS); st_simpl; clock_norm; done. }
  unfold clBuildProgram, clGetProgramBuildInfo_size, clGetProgramBuildInfo_log.
  destruct (r_BuildProgram env <? 0) eqn:Hb.
  - eexists _, _, _. split; [|apply (Hl r)].
    apply wp_result. wp_steps. rewrite Hr. wp_steps. rewrite Hb. wp_steps.
    replace (_ <=? _) with true by (symmetry; apply Z.leb_le; lia).
    wp_steps. unfold log_report.
    destruct (r =? CL_SUCCESS); st_simpl; clock_norm; done.
  - eexists _, _, _. split; [|apply (Hl r)].
    apply wp_result. wp_steps. rewrite Hr. wp_steps. rewrite Hb. wp_steps.
    destruct (r =? CL_SUCCESS); st_simpl; clock_norm; done.
Qed.

Lemma reports_of_step {A} (m : M A) :
  step (fun _ => True) (fun e => ~ is_build e) m -> reports_build_failure env m.
Proof. intros H s. left. by apply H. Qed.

Lemma reports_bind {A B} (m : M A) (f : A -> M B) :
  reports_build_failure env m -> (forall a, reports_build_failure env (f a)) ->
  reports_build_failure env (bind m f).
Proof.
  intros Hm Hf s. rewrite bind_eq. specialize (Hm s).
  destruct (m s) as [[[a| |] s1] t1]; simpl in *.
  2: { destruct Hm as [Hm|[[= ->] Hm]]; [by left|by right]. }
  2: { destruct Hm as [Hm|[? _]]; [by left|done]. }
  destruct Hm as [Hm|[? _]]; [|done].
  destruct (Hf a s1) as [H2|(H2 & t0 & H3)].
  - left. by apply Forall_app.
  - right. split; [done|]. exists (t1 ++ t0). by rewrite H3, app_assoc.
Qed.

Lemma build_program_reports dev :
  r_BuildProgram env < 0 -> reports_build_failure env (build_program env dev kernel_file).
Proof.
  intros Hneg s. destruct (build_program_cases dev s) as (c & e & l & -> & _).
  apply Z.ltb_lt in Hneg. rewrite Hneg.
  destruct (source_file env);
    [destruct (r_CreateProgramWithSource env <? 0)|].
  - left. repeat constructor; simpl; tauto.
  - right. split; [done|]. by eexists [_].
  - left. repeat constructor; simpl; tauto.
Qed.

End Build.

Ltac reports_auto :=
  lazymatch goal with
  | |- reports_build_failure _ (bind _ _) =>
      apply reports_bind; [reports_auto | intros ?; reports_auto]
  | |- reports_build_failure _ (build_program _ _ _) =>
      by apply build_program_reports
  | |- reports_build_failure _ (setup_openCL_device_context_queue_kernel _ _ _) =>
      unfold setup_openCL_device_context_queue_kernel; reports_auto
  | |- reports_build_failure _ _ => apply reports_of_step; step_with triv
  end.

(** C7: when the compiler is called and fails, the process ends with status
    1 and the last things it did are the failed build, the retrieval of the
    build log, and the printing of the whole log. *)
Theorem compile_failure_prints_log env :
  r_BuildProgram env < 0 ->
  Exists is_build (trace (run env)) ->
  termination (run env) = Exited 1
  /\ exists t0, trace (run env) = t0 ++ log_report env.
Proof.
  intros Hneg Hcall.
  assert (H : reports_build_failure env (main env)).
  { unfold main. reports_auto. }
  destruct (H initial_state) as [Hno|[Hex Ht]].
  - apply Exists_exists in Hcall as (e & Hin & He).
    rewrite Forall_forall in Hno. by destruct (Hno e Hin).
  - split; [|done]. unfold termination, run. by rewrite Hex.
Qed.

Lemma compile_failure_prints_log_witness :
  let env := with_build (-11) "vector_ops.txt:1:1: error: expected identifier"
               (nominal ["3"]) in
  termination (run env) = Exited 1
  /\ exists t0, trace (run env) = t0 ++ log_report env.
Proof.
  apply compile_failure_prints_log; [done|].
  vm_compute. repeat (first [ by apply Exists_cons_hd | apply Exists_cons_tl ]).
Defined.

(** * What the queue leaves alone *)

Lemma untouched_refl s : untouched s s.
Proof. by repeat split. Qed.

Lemma untouched_trans s1 s2 s3 :
  untouched s1 s2 -> untouched s2 s3 -> untouched s1 s3.
Proof. unfold untouched. intros H1 H2. destruct_and!. repeat split; congruence. Qed.

Lemma exec_cmd_untouched s c : untouched s (exec_cmd s c).
Proof.
  destruct c as [args g|h n src|h n dst]; simpl.
  - by repeat split.
  - by destruct (get src (host s)), (dmem s !! h); repeat split.
  - by destruct (dmem s !! h), (get dst (host s)); repeat split.
Qed.

Lemma foldl_exec_untouched l : forall s, untouched s (foldl exec_cmd s l).
Proof.
  induction l as [|c l IH]; intros s; simpl; [apply untouched_refl|].
  eapply untouched_trans; [apply exec_cmd_untouched|apply IH].
Qed.

Lemma drain_untouched s : untouched s (drain s).
Proof.
  unfold drain. destruct (foldl_exec_untouched (pending s) s) as
    (? & ? & ? & ? & ? & ? & ? & ? & ?).
  by repeat split.
Qed.

Lemma transfer_untouched b ok blocking c s :
  untouched s (transfer b ok blocking c s).
Proof.
  unfold transfer. destruct b as [h|], ok, blocking; try apply untouched_refl.
  - eapply untouched_trans; [|apply drain_untouched]. by repeat split.
  - by repeat split.
Qed.

Lemma wait_done_untouched ok s : untouched s (wait_done ok s).
Proof. destruct ok; [apply drain_untouched|apply untouched_refl]. Qed.

Lemma SZ_drain s : SZ (drain s) = SZ s.
Proof. apply drain_untouched. Qed.
Lemma SZ_transfer b ok blocking c s : SZ (transfer b ok blocking c s) = SZ s.
Proof. apply transfer_untouched. Qed.
Lemma SZ_wait_done ok s : SZ (wait_done ok s) = SZ s.
Proof. apply wait_done_untouched. Qed.
Lemma SZ_launch ok args g s : SZ (launch ok args g s) = SZ s.
Proof. by destruct ok. Qed.
Lemma SZ_destroy_buffer b s : SZ (destroy_buffer b s) = SZ s.
Proof. by destruct b. Qed.

Lemma buf_transfer b ok blocking c s : buf (transfer b ok blocking c s) = buf s.
Proof. apply transfer_untouched. Qed.
Lemma buf_wait_done ok s : buf (wait_done ok s) = buf s.
Proof. apply wait_done_untouched. Qed.
Lemma buf_launch ok args g s : buf (launch ok args g s) = buf s.
Proof. by destruct ok. Qed.
Lemma buf_destroy_buffer b s : buf (destroy_buffer b s) = buf s.
Proof. by destruct b. Qed.

Lemma live_transfer b ok blocking c s : live (transfer b ok blocking c s) = live s.
Proof. apply transfer_untouched. Qed.
Lemma live_wait_done ok s : live (wait_done ok s) = live s.
Proof. apply wait_done_untouched. Qed.

Lemma live_launch ok args g s :
  live (launch ok args g s) = hold_if ok REvent (live s).
Proof. by destruct ok. Qed.

Lemma live_destroy_buffer b s :
  live (destroy_buffer b s)
  = from_option (fun h => filter (fun x => x <> RMem h) (live s)) (live s) b.
Proof. by destruct b. Qed.

Lemma kargs_transfer b ok blocking c s :
  kargs (transfer b ok blocking c s) = kargs s.
Proof. apply transfer_untouched. Qed.

Lemma event_transfer b ok blocking c s :
  event (transfer b ok blocking c s) = event s.
Proof. apply transfer_untouched. Qed.

Create Rewrite HintDb frame.
#[export] Hint Rewrite SZ_drain SZ_transfer SZ_wait_done SZ_launch
  SZ_destroy_buffer buf_transfer buf_wait_done buf_launch buf_destroy_buffer
  live_transfer live_wait_done live_launch live_destroy_buffer
  kargs_transfer event_transfer : frame.

(** * The calls into the runtime, as equations *)

Section Calls.

Variable env : Env.

Lemma cl_create_run c r res s :
  cl_create env c r res s
  = (Ret r,
     set_clock (clock s + Z.of_N (cost env (Call c r)))
       (set_live (hold_if (r =? CL_SUCCESS) res (live s)) s),
     [Call c r]).
Proof. apply wp_result. unfold cl_create. wp_steps. done. Qed.

Lemma clSetKernelArg_run idx arg s :
  clSetKernelArg env idx arg s
  = (Ret (r_SetKernelArg env idx),
     set_clock (clock s + Z.of_N (cost env (Call (SetKernelArg idx) (r_SetKernelArg env idx))))
       (set_kargs (bind_if (r_SetKernelArg env idx =? CL_SUCCESS) idx arg
                     (kargs s)) s),
     [Call (SetKernelArg idx) (r_SetKernelArg env idx)]).
Proof. apply wp_result. unfold clSetKernelArg. wp_steps. done. Qed.

Lemma clCreateBuffer_run bytes s :
  clCreateBuffer env bytes s
  = (Ret (if r_CreateBuffer env (next_mem s) =? CL_SUCCESS
          then Some (next_mem s) else None),
     set_clock
       (clock s + Z.of_N (cost env (Call (CreateBuffer bytes)
                                      (r_CreateBuffer env (next_mem s)))))
       (create_buffer (r_CreateBuffer env (next_mem s) =? CL_SUCCESS)
          (next_mem s) (uninit env) bytes (set_next_mem (S (next_mem s)) s)),
     [Call (CreateBuffer bytes) (r_CreateBuffer env (next_mem s))]).
Proof. apply wp_result. unfold clCreateBuffer. wp_steps. done. Qed.

Lemma clEnqueueWriteBuffer_run b blocking bytes src s :
  let r := transfer_code b (get src (host s)) (r_EnqueueWriteBuffer env src) in
  clEnqueueWriteBuffer env b blocking bytes src s
  = (Ret r,
     set_clock
       (clock s + Z.of_N (cost env (Call (EnqueueWriteBuffer b blocking bytes src) r)))
       (transfer b (r =? CL_SUCCESS) blocking
          (fun h => CmdWrite h (Z.to_nat (bytes `div` sizeof_int)) src) s),
     [Call (EnqueueWriteBuffer b blocking bytes src) r]).
Proof.
  apply wp_result. unfold clEnqueueWriteBuffer. wp_steps.
  by rewrite (proj2 (proj2 (proj2 (proj2 (proj2 (proj2 (proj2 (proj2
    (transfer_untouched _ _ _ _ _))))))))).
Qed.

Lemma clEnqueueReadBuffer_run b blocking bytes dst s :
  let r := transfer_code b (get dst (host s)) (r_EnqueueReadBuffer env) in
  clEnqueueReadBuffer env b blocking bytes dst s
  = (Ret r,
     set_clock
       (clock s + Z.of_N (cost env (Call (EnqueueReadBuffer b blocking bytes dst) r)))
       (transfer b (r =? CL_SUCCESS) blocking
          (fun h => CmdRead h (Z.to_nat (bytes `div` sizeof_int)) dst) s),
     [Call (EnqueueReadBuffer b blocking bytes dst) r]).
Proof.
  apply wp_result. unfold clEnqueueReadBuffer. wp_steps.
  by rewrite (proj2 (proj2 (proj2 (proj2 (proj2 (proj2 (proj2 (proj2
    (transfer_untouched _ _ _ _ _))))))))).
Qed.

Lemma clEnqueueNDRangeKernel_run global s :
  let r := if args_bound (kargs s) then r_EnqueueNDRangeKernel env
           else CL_INVALID_KERNEL_ARGS in
  clEnqueueNDRangeKernel env global s
  = (Ret r,
     set_clock
       (clock s + Z.of_N (cost env (Call (EnqueueNDRangeKernel global) r)))
       (launch (r =? CL_SUCCESS) (kargs s) global s),
     [Call (EnqueueNDRangeKernel global) r]).
Proof.
  apply wp_result. unfold clEnqueueNDRangeKernel. wp_steps.
  by destruct (_ =? _).
Qed.

Lemma clWaitForEvents_run s :
  let r := match event s with
           | None => CL_INVALID_EVENT
           | Some _ => r_WaitForEvents env
           end in
  clWaitForEvents env s
  = (Ret r,
     set_clock (clock s + Z.of_N (cost env (Call WaitForEvents r)))
       (wait_done (r =? CL_SUCCESS) s),
     [Call WaitForEvents r]).
Proof.
  apply wp_result. unfold clWaitForEvents. wp_steps.
  by rewrite (proj2 (proj2 (proj2 (proj2 (proj2 (proj2 (proj2 (proj2
    (wait_done_untouched _ _))))))))).
Qed.

Lemma cl_release_run c res bad s :
  let r := if holds res s then CL_SUCCESS else bad in
  cl_release env c res bad s
  = (Ret r,
     set_clock (clock s + Z.of_N (cost env (Call c r))) (release res s),
     [Call c r]).
Proof. apply wp_result. unfold cl_release. wp_steps. done. Qed.

Lemma clReleaseMemObject_run b s :
  let r := if from_option (fun h => holds (RMem h) s) false b
           then CL_SUCCESS else CL_INVALID_MEM_OBJECT in
  clReleaseMemObject env b s
  = (Ret r,
     set_clock (clock s + Z.of_N (cost env (Call (ReleaseMemObject b) r)))
       (destroy_buffer b s),
     [Call (ReleaseMemObject b) r]).
Proof.
  apply wp_result. unfold clReleaseMemObject. wp_steps. by destruct b.
Qed.

End Calls.

(** Forward execution through the calls into the runtime. *)
Ltac wp_call :=
  lazymatch goal with
  | |- wp (bind (cl_create _ _ _ _) _) _ _ =>
      eapply wp_bind_eq; [apply cl_create_run|]
  | |- wp (bind (clSetKernelArg _ _ _) _) _ _ =>
      eapply wp_bind_eq; [apply clSetKernelArg_run|]
  | |- wp (bind (clCreateBuffer _ _) _) _ _ =>
      eapply wp_bind_eq; [apply clCreateBuffer_run|]
  | |- wp (bind (clEnqueueWriteBuffer _ _ _ _ _) _) _ _ =>
      eapply wp_bind_eq; [apply clEnqueueWriteBuffer_run|]
  | |- wp (bind (clEnqueueReadBuffer _ _ _ _ _) _) _ _ =>
      eapply wp_bind_eq; [apply clEnqueueReadBuffer_run|]
  | |- wp (bind (clEnqueueNDRangeKernel _ _) _) _ _ =>
      eapply wp_bind_eq; [apply clEnqueueNDRangeKernel_run|]
  | |- wp (bind (clWaitForEvents _) _) _ _ =>
      eapply wp_bind_eq; [apply clWaitForEvents_run|]
  | |- wp (bind (cl_release _ _ _ _) _) _ _ =>
      eapply wp_bind_eq; [apply cl_release_run|]
  | |- wp (bind (clReleaseMemObject _ _) _) _ _ =>
      eapply wp_bind_eq; [apply clReleaseMemObject_run|]
  end; lazy beta zeta; st_simpl.

Ltac frame_simpl := repeat progress (autorewrite with frame; st_simpl).

Ltac wp_go := repeat ((wp_head || wp_call); frame_simpl).

(** * Runs that return *)

Section Runs.

Context {A B : Type} (I : State -> Prop) (E : Event -> Prop).

Lemma runs_ret (a : A) : runs I E (ret a).
Proof. intros s H. by repeat split. Qed.

Lemma runs_modify f : (forall s, I s -> I (f s)) -> runs I E (modify f).
Proof. intros Hf s H. repeat split; [by apply Hf|constructor]. Qed.

Lemma runs_bind (m : M A) (f : A -> M B) :
  runs I E m -> (forall a, runs I E (f a)) -> runs I E (bind m f).
Proof.
  intros Hm Hf s H. rewrite bind_eq. destruct (Hm s H) as (H0 & H1 & H2).
  destruct (m s) as [[[a| |] s1] t1]; simpl in *; [|done..].
  destruct (Hf a s1 H1) as (H3 & H4 & H5).
  repeat split; [done..|]. by apply Forall_app.
Qed.

(** The value read by [gets] is the one the invariant speaks of. *)
Lemma runs_bind_gets (g : State -> A) (f : A -> M B) :
  (forall a, (exists s, I s /\ a = g s) -> runs I E (f a)) ->
  runs I E (bind (gets g) f).
Proof. intros Hf s H. rewrite bind_eq. simpl. apply Hf; eauto. Qed.

Lemma runs_of_eq (m : M A) :
  (forall s, I s -> exists a s' t, m s = (Ret a, s', t) /\ I s' /\ Forall E t) ->
  runs I E m.
Proof. intros H s Hs. by destruct (H s Hs) as (a & s' & t & -> & ? & ?). Qed.

Lemma leaves_bind_l (P : Event -> Prop) (m : M A) (f : A -> M B) :
  leaves P m -> leaves P (bind m f).
Proof.
  intros Hm s. rewrite bind_eq. specialize (Hm s).
  destruct (m s) as [[[a| |] s1] t1]; simpl in *; [|done..].
  intros _. apply Exists_app. left. by apply Hm.
Qed.

Lemma leaves_bind_r (P : Event -> Prop) (m : M A) (f : A -> M B) :
  (forall a, leaves P (f a)) -> leaves P (bind m f).
Proof.
  intros Hf s. rewrite bind_eq.
  destruct (m s) as [[[a| |] s1] t1]; simpl in *; [|done..].
  intros Hr. apply Exists_app. right. by apply Hf.
Qed.

End Runs.

Lemma runs_emit env I (E : Event -> Prop) e :
  (forall s x, I s -> I (set_clock x s)) -> E e -> runs I E (emit env e).
Proof. intros HI He s H. repeat split; [by apply HI|]. by constructor. Qed.

Lemma runs_now I (E : Event -> Prop) : (forall t, E (Now t)) -> runs I E now.
Proof. intros He s H. repeat split; [done|]. by constructor. Qed.

Lemma leaves_emit env (P : Event -> Prop) e : P e -> leaves P (emit env e).
Proof. intros He s _. by constructor. Qed.

(** Syntax-directed proof that a computation runs; [lem] gives the steps
    known by a lemma, [tac] closes the side conditions. *)
Ltac runs_with lem tac :=
  lazy zeta;
  first
    [ lem
    | lazymatch goal with
      | |- runs _ _ (bind (gets _) _) =>
          apply runs_bind_gets;
          let H := fresh "Hv" in
          intros ? (? & H & ->); try rewrite H; try rewrite (proj1 H);
          runs_with lem tac
      | |- runs _ _ (bind _ _) =>
          apply runs_bind; [runs_with lem tac | intros ?; runs_with lem tac]
      | |- runs _ _ (ret _) => apply runs_ret
      | |- runs _ _ (modify _) => apply runs_modify; tac
      | |- runs _ _ (emit _ _) => apply runs_emit; tac
      | |- runs _ _ now => apply runs_now; tac
      | |- runs _ _ ?m => let h := head_of m in unfold h; runs_with lem tac
      end ].

Ltac leaves_search :=
  lazy zeta;
  lazymatch goal with
  | |- leaves _ (emit _ _) => by apply leaves_emit
  | |- leaves _ (bind _ _) =>
      first [ apply leaves_bind_l; leaves_search
            | apply leaves_bind_r; intros ?; leaves_search ]
  | |- leaves _ (ret _) => fail
  | |- leaves _ (gets _) => fail
  | |- leaves _ (modify _) => fail
  | |- leaves _ now => fail
  | |- leaves _ (for_ _ _) => fail
  | |- leaves _ (init _ _ _) => fail
  | |- leaves _ (print _ _ _) => fail
  | |- leaves _ (if _ then _ else _) => fail
  | |- leaves _ (match _ with _ => _ end) => fail
  | |- leaves _ ?m => let h := head_of m in unfold h; leaves_search
  end.

(** * The stages whose result is checked, when they pass *)

Section Checked.

Variable env : Env.
Hypothesis Hpass : checked_stages_pass env.

Lemma create_device_run s :
  exists c d t,
    create_device env s = (Ret (Some d), set_clock c s, t)
    /\ Forall is_setup_call t.
Proof.
  destruct (pass_platform env Hpass) as (p & ps & Hp & Hdev).
  destruct (create_device_cases env s) as [c H]. rewrite Hp in H.
  destruct (find_device GPU p) as [[i d]|] eqn:Hg.
  { eexists _, _, _. split; [exact H|]. by repeat constructor. }
  destruct (find_device CPU p) as [[i d]|] eqn:Hc.
  { eexists _, _, _. split; [exact H|]. by repeat constructor. }
  exfalso. apply list_find_None in Hg, Hc. rewrite Forall_forall in Hg, Hc.
  destruct Hdev as [Hin|Hin]; [by apply (Hg _ Hin)|by apply (Hc _ Hin)].
Qed.

Lemma build_program_run dev s :
  exists c e l t,
    build_program env dev kernel_file s
    = (Ret tt, set_clock c (set_err e (set_live l s)), t)
    /\ Forall is_setup_call t.
Proof.
  destruct (build_program_cases env dev s) as (c & e & l & H & _).
  destruct (pass_source env Hpass) as [text Ht]. rewrite Ht in H.
  pose proof (pass_program env Hpass). pose proof (pass_build env Hpass).
  rewrite (proj2 (Z.ltb_ge _ _)) in H by done.
  rewrite (proj2 (Z.ltb_ge _ _)) in H by done.
  eexists _, _, _, _. split; [exact H|]. by repeat constructor.
Qed.

Lemma setup_run name s :
  exists c e l t,
    setup_openCL_device_context_queue_kernel env kernel_file name s
    = (Ret tt, set_clock c (set_err e (set_live l s)), t)
    /\ Forall is_setup_call t.
Proof.
  unfold setup_openCL_device_context_queue_kernel.
  destruct (create_device_run s) as (c1 & d & t1 & H1 & Q1).
  pose proof (pass_context env Hpass) as Hc. apply Z.ltb_ge in Hc.
  pose proof (pass_queue env Hpass) as Hq. apply Z.ltb_ge in Hq.
  pose proof (pass_kernel env Hpass) as Hk. apply Z.ltb_ge in Hk.
  unfold clCreateContext, clCreateCommandQueueWithProperties, clCreateKernel.
  destruct (build_program_run (Some d)
      (set_clock
         (c1 + Z.of_N (cost env (Call CreateContext (r_CreateContext env))))
         (set_live (hold_if (r_CreateContext env =? CL_SUCCESS) RContext
                      (live s)) s)))
    as (c2 & e2 & l2 & t2 & H2 & Q2).
  eexists _, _, _, _. split.
  - apply wp_result. eapply wp_bind_eq; [exact H1|]. wp_go. rewrite Hc. wp_go.
    eapply wp_bind_eq; [exact H2|]. wp_go. rewrite Hq. wp_go. rewrite Hk. wp_go.
    clock_norm. reflexivity.
  - rewrite !Forall_app. repeat split; try done; by repeat constructor.
Qed.

Lemma args_pass :
  (Z.lor (Z.lor (Z.lor (r_SetKernelArg env 0) (r_SetKernelArg env 1))
            (r_SetKernelArg env 2)) (r_SetKernelArg env 3) <? 0) = false.
Proof.
  apply Z.ltb_ge. rewrite !Z.lor_nonneg.
  repeat split; apply (pass_args env Hpass); lia.
Qed.

Lemma copy_kernel_args_run s :
  exists c e,
    copy_kernel_args env s
    = (Ret tt,
       set_clock c (set_err e (set_kargs
         (bind_if (r_SetKernelArg env 3 =? CL_SUCCESS) 3 (KMem (bufV_out s))
            (bind_if (r_SetKernelArg env 2 =? CL_SUCCESS) 2 (KMem (bufV2 s))
               (bind_if (r_SetKernelArg env 1 =? CL_SUCCESS) 1 (KMem (bufV1 s))
                  (bind_if (r_SetKernelArg env 0 =? CL_SUCCESS) 0
                     (KInt (SZ s)) (kargs s))))) s)),
       [Call (SetKernelArg 0) (r_SetKernelArg env 0);
        Call (SetKernelArg 1) (r_SetKernelArg env 1);
        Call (SetKernelArg 2) (r_SetKernelArg env 2);
        Call (SetKernelArg 3) (r_SetKernelArg env 3)]).
Proof.
  eexists _, _. apply wp_result. unfold copy_kernel_args. wp_go.
  rewrite args_pass. wp_go. clock_norm. reflexivity.
Qed.

End Checked.

(** * The element count *)

Lemma digits_none c r acc : digit_of c = None -> read_digits acc (String c r) = acc.
Proof. intros H. simpl. by rewrite H. Qed.

Lemma read_digits_not_numeric s : starts_with_digit s = false -> read_digits 0 s = 0.
Proof.
  destruct s as [|c r]; [done|]. simpl. intros H.
  destruct (digit_of c); [|done]. by rewrite bool_decide_eq_false in H; destruct H.
Qed.

(** [atoi] gives 0 for a string that does not start with a number. *)
Lemma atoi_not_numeric s : numeric s = false -> atoi s = 0.
Proof.
  unfold numeric, atoi, strtol10. intros H.
  destruct (skip_space s) as [|c r]; [done|].
  destruct (decide (c = "-"%char)) as [->|Hm].
  { by rewrite (read_digits_not_numeric r H). }
  destruct (decide (c = "+"%char)) as [->|Hp].
  { by rewrite (read_digits_not_numeric r H). }
  assert (Hs : starts_with_digit (String c r) = false).
  { revert H. destruct c as [[] [] [] [] [] [] [] []]; done. }
  assert (Hr : clamp_long (read_digits 0 (String c r)) = 0).
  { by rewrite (read_digits_not_numeric _ Hs). }
  revert Hr. destruct c as [[] [] [] [] [] [] [] []]; try done; intros ->; done.
Qed.

Section Count.

Variable env : Env.
Variable c : Z.

(** From the first statement of [main] on, [SZ] is the count. *)
Hypothesis Hcount :
  match argv env !! 1%nat with
  | Some arg => atoi arg = c
  | None => c = 100000000
  end.

Let I (s : State) : Prop := SZ s = c.

Lemma first_statement :
  exists s1,
    (if 1 <? Z.of_nat (length (argv env))
     then modify (set_SZ (atoi (default EmptyString (argv env !! 1%nat))))
     else ret tt) initial_state = (Ret tt, s1, [])
    /\ I s1.
Proof.
  destruct (argv env !! 1%nat) as [arg|] eqn:Harg.
  - rewrite (proj2 (Z.ltb_lt 1 _)); [by eexists|].
    apply lookup_lt_Some in Harg. lia.
  - rewrite (proj2 (Z.ltb_ge 1 _)); [by eexists|].
    apply lookup_ge_None in Harg. lia.
Qed.

(** [SZ] is not written again. *)
Lemma count_kept : SZ (final (run env)) = c.
Proof.
  unfold final, run, main.
  match goal with |- context [bind ?m ?k] =>
    assert (Hk : step I (fun _ => True) (k tt))
  end.
  { step_with ltac:(by (intros; subst I; simpl in *;
                        autorewrite with frame; simpl; auto)). }
  destruct first_statement as (s1 & Hm & Hs1). rewrite bind_eq, Hm. simpl.
  by destruct (Hk s1 Hs1).
Qed.

Hypothesis Hpass : checked_stages_pass env.
Hypothesis Hc : c <= 0.

Let E (e : Event) : Prop := quiet e /\ uses_count c e.

Lemma init_runs A : runs I E (init env A c).
Proof.
  apply runs_of_eq. intros s Hs.
  destruct (init_nonpos env A c s Hc) as (p & l & ->). by eexists _, _, _.
Qed.

Lemma print_runs a : runs I E (print env a c).
Proof.
  apply runs_of_eq. intros s Hs. rewrite print_nonpos by done.
  eexists _, _, _. split; [done|]. split; [done|]. by repeat constructor.
Qed.

Lemma setup_E t : Forall is_setup_call t -> Forall E t.
Proof.
  intros H. eapply Forall_impl; [exact H|].
  intros [| |[] r| |]; simpl; try done.
Qed.

Lemma setup_runs name :
  runs I E (setup_openCL_device_context_queue_kernel env kernel_file name).
Proof.
  apply runs_of_eq. intros s Hs.
  destruct (setup_run env Hpass name s) as (c1 & e1 & l1 & t1 & -> & Ht).
  eexists _, _, _. split; [done|]. split; [done|]. by apply setup_E.
Qed.

Lemma copy_kernel_args_runs : runs I E (copy_kernel_args env).
Proof.
  apply runs_of_eq. intros s Hs.
  destruct (copy_kernel_args_run env Hpass s) as (c1 & e1 & ->).
  eexists _, _, _. split; [done|]. split; [done|]. by repeat constructor.
Qed.

Ltac known :=
  idtac;
  lazymatch goal with
  | |- runs _ _ (init _ _ _) => apply init_runs
  | |- runs _ _ (print _ _ _) => apply print_runs
  | |- runs _ _ (setup_openCL_device_context_queue_kernel _ _ _) =>
      apply setup_runs
  | |- runs _ _ (copy_kernel_args _) => apply copy_kernel_args_runs
  end.

Ltac side :=
  by (intros; subst I E; simpl in *; autorewrite with frame; simpl; auto).

(** With a count that is not positive the whole pipeline runs, without a
    diagnostic, and sizes its buffers and its work domain by the count. *)
Lemma pipeline_runs : is_ret (run env).1.1 /\ Forall E (trace (run env)).
Proof.
  unfold trace, run, main.
  match goal with |- context [bind ?m ?k] =>
    assert (Hk : runs I E (k tt)) by (runs_with known side)
  end.
  destruct first_statement as (s1 & Hm & Hs1). rewrite bind_eq, Hm. simpl.
  by destruct (Hk s1 Hs1) as (? & ? & ?).
Qed.

End Count.

Lemma main_creates_buffers env : leaves is_buffer_creation (main env).
Proof. leaves_search. Qed.

Lemma main_launches env : leaves is_launch (main env).
Proof. leaves_search. Qed.

(** C10: the count is [atoi] of the argument, whatever it is (0 when the
    argument is not a number); when it is zero or negative and the checked
    stages pass, the process still returns 0, without any diagnostic, after
    creating buffers of [(size_t)count * sizeof(int)] bytes and launching the
    kernel over [(size_t)count] work items. *)
Theorem count_is_not_validated env arg :
  argv env !! 1%nat = Some arg ->
  atoi arg <= 0 ->
  checked_stages_pass env ->
  SZ (final (run env)) = atoi arg
  /\ (numeric arg = false -> SZ (final (run env)) = 0)
  /\ termination (run env) = Exited 0
  /\ Forall quiet (trace (run env))
  /\ Exists (fun e => exists r,
       e = Call (CreateBuffer (size_mul (to_size_t (atoi arg)) sizeof_int)) r)
       (trace (run env))
  /\ Exists (fun e => exists r,
       e = Call (EnqueueNDRangeKernel (to_size_t (atoi arg))) r)
       (trace (run env)).
Proof.
  intros Harg Hc Hpass.
  assert (Hcount : match argv env !! 1%nat with
                   | Some a => atoi a = atoi arg
                   | None => atoi arg = 100000000
                   end) by (by rewrite Harg).
  pose proof (count_kept env (atoi arg) Hcount) as HSZ.
  destruct (pipeline_runs env (atoi arg) Hcount Hpass Hc) as [Hret HE].
  rewrite Forall_forall in HE.
  split; [done|]. split; [intros Hn; rewrite HSZ; by apply atoi_not_numeric|].
  split; [|split; [|split]].
  - unfold termination. by destruct ((run env).1.1).
  - apply Forall_forall. intros e He. by apply HE.
  - pose proof (main_creates_buffers env initial_state Hret) as Hex.
    apply Exists_exists in Hex as (e & Hin & He). apply Exists_exists.
    exists e. split; [done|]. destruct (HE e Hin) as [_ Hu].
    destruct e as [| |[] r| |]; try done. simpl in Hu. subst. by eexists.
  - pose proof (main_launches env initial_state Hret) as Hex.
    apply Exists_exists in Hex as (e & Hin & He). apply Exists_exists.
    exists e. split; [done|]. destruct (HE e Hin) as [_ Hu].
    destruct e as [| |[] r| |]; try done. simpl in Hu. subst. by eexists.
Qed.

Lemma count_is_not_validated_witness :
  let env := with_unchecked (fun _ => (-61)) (fun _ => 0) (-63) 0 0
               (nominal ["-5"]) in
  SZ (final (run env)) = atoi "-5"
  /\ (numeric "-5" = false -> SZ (final (run env)) = 0)
  /\ termination (run env) = Exited 0
  /\ Forall quiet (trace (run env))
  /\ Exists (fun e => exists r,
       e = Call (CreateBuffer (size_mul (to_size_t (atoi "-5")) sizeof_int)) r)
       (trace (run env))
  /\ Exists (fun e => exists r,
       e = Call (EnqueueNDRangeKernel (to_size_t (atoi "-5"))) r)
       (trace (run env)).
Proof.
  apply count_is_not_validated.
  - reflexivity.
  - vm_compute. discriminate.
  - constructor; simpl; unfold CL_SUCCESS; try lia; eauto.
    eexists _, _. split; [reflexivity|]. left. constructor.
Defined.

(** * Exit statuses *)

Lemma exits_one_bind {A B} (m : M A) (f : A -> M B) :
  exits_one m -> (forall a, exits_one (f a)) -> exits_one (bind m f).
Proof.
  intros Hm Hf s c. rewrite bind_eq. specialize (Hm s).
  destruct (m s) as [[[a| |] s1] t1]; simpl in *.
  - apply Hf.
  - intros [= <-]. by apply Hm.
  - done.
Qed.

Lemma exits_one_total {A} (m : M A) : total m -> exits_one m.
Proof. intros H s c Hc. specialize (H s). by rewrite Hc in H. Qed.

Lemma exits_one_exit {A} : exits_one (@exit A 1).
Proof. by intros s c [= <-]. Qed.

Lemma exits_one_crash {A} : exits_one (@crash A).
Proof. by intros s c. Qed.

Lemma exits_one_for (l : list Z) (body : Z -> M unit) :
  (forall i, exits_one (body i)) -> exits_one (for_ l body).
Proof.
  intros Hb. induction l as [|i l IH]; simpl; [by intros s c|].
  apply exits_one_bind; [apply Hb|]. by intros _.
Qed.

Ltac exits_auto :=
  lazy zeta;
  lazymatch goal with
  | |- exits_one (bind _ _) =>
      apply exits_one_bind; [exits_auto | intros ?; exits_auto]
  | |- exits_one (exit _) => apply exits_one_exit
  | |- exits_one crash => apply exits_one_crash
  | |- exits_one (ret _) => by intros ? ?
  | |- exits_one (gets _) => by intros ? ?
  | |- exits_one (modify _) => by intros ? ?
  | |- exits_one (emit _ _) => by intros ? ?
  | |- exits_one now => by intros ? ?
  | |- exits_one (rand _) => by intros ? ?
  | |- exits_one (for_ _ _) => apply exits_one_for; intros ?; exits_auto
  | |- exits_one (if ?c then _ else _) => destruct c; exits_auto
  | |- exits_one (match ?x with _ => _ end) => destruct x; exits_auto
  | |- exits_one ?m => let h := head_of m in unfold h; exits_auto
  end.

(** The only exit status of the program, besides the 0 of a return from
    [main], is 1. *)
Lemma main_exits_one env : exits_one (main env).
Proof. exits_auto. Qed.

(** * Binding of the kernel arguments *)

Section Binding.

Variable env : Env.
Variable i : nat.
Hypothesis Hi : (i < 4)%nat.
Hypothesis Hfail : r_SetKernelArg env i < 0.

Lemma args_fail :
  (Z.lor (Z.lor (Z.lor (r_SetKernelArg env 0) (r_SetKernelArg env 1))
            (r_SetKernelArg env 2)) (r_SetKernelArg env 3) <? 0) = true.
Proof.
  apply Z.ltb_lt. rewrite !Z.lor_neg.
  destruct i as [|[|[|[|]]]]; try lia; tauto.
Qed.

(** With a failed binding, [copy_kernel_args] ends the process after the
    four attempts and the diagnostic. *)
Lemma copy_kernel_args_fails s :
  exists s',
    copy_kernel_args env s
    = (Exit 1, s',
       [Call (SetKernelArg 0) (r_SetKernelArg env 0);
        Call (SetKernelArg 1) (r_SetKernelArg env 1);
        Call (SetKernelArg 2) (r_SetKernelArg env 2);
        Call (SetKernelArg 3) (r_SetKernelArg env 3);
        Perror "Couldn't create a kernel argument";
        Printf "Error code = %d"
          [PInt (Z.lor (Z.lor (Z.lor (r_SetKernelArg env 0) (r_SetKernelArg env 1))
                          (r_SetKernelArg env 2)) (r_SetKernelArg env 3))]]).
Proof.
  eexists. apply wp_result. unfold copy_kernel_args. wp_go.
  rewrite args_fail. wp_go. reflexivity.
Qed.

Lemma copy_kernel_args_stops :
  stops (fun _ => True) (fun e => ~ is_launch e) (copy_kernel_args env).
Proof.
  intros s _. destruct (copy_kernel_args_fails s) as [s' ->]. simpl.
  split; [tauto|]. repeat constructor; simpl; tauto.
Qed.

Ltac upto_args :=
  lazymatch goal with
  | |- stops _ _ (bind (copy_kernel_args _) _) =>
      apply stops_here, copy_kernel_args_stops
  | |- stops _ _ (bind _ _) =>
      apply stops_bind; [step_with triv | intros ?; upto_args]
  end.

Lemma main_stops : stops (fun _ => True) (fun e => ~ is_launch e) (main env).
Proof. unfold main. upto_args. Qed.

End Binding.

(** C5: when the binding of any of the four arguments fails,
    [copy_kernel_args] still attempts the four bindings, in the order of
    their indices, prints its diagnostic and ends the process with status
    1; a run then never returns from [main] (it ends with status 1, or
    crashed before) and never enqueues the kernel. *)
Theorem failed_binding_never_launches env i :
  (i < 4)%nat ->
  r_SetKernelArg env i < 0 ->
  (forall s, exists s' code,
     copy_kernel_args env s
     = (Exit 1, s',
        [Call (SetKernelArg 0) (r_SetKernelArg env 0);
         Call (SetKernelArg 1) (r_SetKernelArg env 1);
         Call (SetKernelArg 2) (r_SetKernelArg env 2);
         Call (SetKernelArg 3) (r_SetKernelArg env 3);
         Perror "Couldn't create a kernel argument";
         Printf "Error code = %d" [PInt code]]))
  /\ (termination (run env) = Exited 1 \/ termination (run env) = Crashed)
  /\ Forall (fun e => ~ is_launch e) (trace (run env)).
Proof.
  intros Hi Hfail. split; [|split].
  - intros s. destruct (copy_kernel_args_fails env i Hi Hfail s) as [s' ->].
    by eexists _, _.
  - destruct (main_stops env i Hi Hfail initial_state I) as [Hr _].
    pose proof (main_exits_one env initial_state) as Hone.
    unfold termination, run.
    destruct ((main env initial_state).1.1) as [a|c|]; simpl in *.
    + tauto.
    + left. by rewrite (Hone c).
    + by right.
  - by destruct (main_stops env i Hi Hfail initial_state I).
Qed.

Lemma failed_binding_never_launches_witness :
  let env := with_SetKernelArg (fun i => if (i =? 2)%nat then (-6) else 0)
               (nominal ["3"]) in
  (forall s, exists s' code,
     copy_kernel_args env s
     = (Exit 1, s',
        [Call (SetKernelArg 0) (r_SetKernelArg env 0);
         Call (SetKernelArg 1) (r_SetKernelArg env 1);
         Call (SetKernelArg 2) (r_SetKernelArg env 2);
         Call (SetKernelArg 3) (r_SetKernelArg env 3);
         Perror "Couldn't create a kernel argument";
         Printf "Error code = %d" [PInt code]]))
  /\ (termination (run env) = Exited 1 \/ termination (run env) = Crashed)
  /\ Forall (fun e => ~ is_launch e) (trace (run env)).
Proof.
  apply (failed_binding_never_launches _ 2); [lia|simpl; lia].
Defined.

(** * Ordering of the transfers and of the kernel *)

Section Tracks.

Context {C : Type} (next : C -> Event -> option C).

Lemma mon_run_app c t1 t2 :
  mon_run next c (t1 ++ t2)
  = match mon_run next c t1 with
    | Some c1 => mon_run next c1 t2
    | None => None
    end.
Proof.
  revert c. induction t1 as [|e t1 IH]; intros c; simpl; [done|].
  destruct (next c e); [apply IH|done].
Qed.

Lemma mon_run_neutral c t :
  Forall (neutral next) t -> mon_run next c t = Some c.
Proof. induction 1 as [|e t He _ IH]; simpl; [done|]. by rewrite He. Qed.

Lemma tracks_bind {A B} c c1 c2 (m : M A) (f : A -> M B) :
  tracks next c m c1 -> (forall a, tracks next c1 (f a) c2) ->
  tracks next c (bind m f) c2.
Proof.
  intros Hm Hf s. rewrite bind_eq. destruct (Hm s) as (c' & H1 & H2).
  destruct (m s) as [[[a| |] s1] t1]; simpl in *; [|by eexists..].
  rewrite mon_run_app, H1, (H2 I). apply Hf.
Qed.

Lemma tracks_neutral {A} c (m : M A) :
  step (fun _ => True) (neutral next) m -> tracks next c m c.
Proof.
  intros H s. exists c. split; [|done].
  apply mon_run_neutral. by apply H.
Qed.

Lemma tracks_emit env c c' e :
  next c e = Some c' -> tracks next c (emit env e) c'.
Proof. intros H s. exists c'. simpl. by rewrite H. Qed.

Lemma tracks_accepted {A} c c' (m : M A) s :
  tracks next c m c' -> accepted next c (m s).2 = true.
Proof.
  intros H. destruct (H s) as (c'' & Hrun & _). unfold accepted. by rewrite Hrun.
Qed.

End Tracks.

(** Syntax-directed run of a monitor over a computation: a part made of
    events it does not look at is passed at once. *)
Ltac tracks_auto :=
  lazy zeta;
  first
    [ apply tracks_neutral; solve [step_with triv]
    | lazymatch goal with
      | |- tracks _ _ (bind _ _) _ =>
          eapply tracks_bind; [tracks_auto | intros ?; tracks_auto]
      | |- tracks _ _ (emit _ _) _ => apply tracks_emit; reflexivity
      | |- tracks _ _ (if ?c then _ else _) _ => destruct c; tracks_auto
      | |- tracks _ _ (match ?x with _ => _ end) _ => destruct x; tracks_auto
      | |- tracks _ _ ?m _ => let h := head_of m in unfold h; tracks_auto
      end ].

Lemma main_tracks_sync env : exists c, tracks sync_step sync_init (main env) c.
Proof. eexists. unfold main. tracks_auto. Qed.

(** The monitor is not idle: it refuses a download that is not preceded by
    a launch and a wait, and an upload that does not block. *)
Example synchronised_refuses_early_download :
  synchronised
    [Call (EnqueueWriteBuffer (Some 0%nat) true 12 V1) 0;
     Call (EnqueueWriteBuffer (Some 1%nat) true 12 V2) 0;
     Call (EnqueueNDRangeKernel 3) 0;
     Call (EnqueueReadBuffer (Some 2%nat) true 12 V_OUT) 0] = false.
Proof. reflexivity. Qed.

Example synchronised_refuses_lazy_upload :
  synchronised [Call (EnqueueWriteBuffer (Some 0%nat) false 12 V1) 0] = false.
Proof. reflexivity. Qed.

(** C6: in every run the uploads are blocking and issued before the kernel
    is enqueued, and the download is blocking and issued only after the
    kernel was enqueued and then waited for. *)
Theorem transfers_are_synchronised env : synchronised (trace (run env)) = true.
Proof.
  destruct (main_tracks_sync env) as [c H].
  by apply (tracks_accepted sync_step sync_init c (main env) initial_state).
Qed.

(** * Resources *)

Lemma hoare_bind {A B} P R Q (m : M A) (f : A -> M B) :
  hoare P m R -> (forall a, hoare R (f a) Q) -> hoare P (bind m f) Q.
Proof.
  intros Hm Hf s HP. rewrite bind_eq. specialize (Hm s HP).
  destruct (m s) as [[[a| |] s1] t1]; simpl in *; [|done..].
  intros Hr. by apply (Hf a s1); [apply Hm|].
Qed.

Lemma hoare_step {A} I (m : M A) : step I (fun _ => True) m -> hoare I m I.
Proof. intros H s HI _. by apply H. Qed.

Ltac res_side :=
  by (intros; unfold no_buffers, tracked, bufV1, bufV2, bufV_out in *;
      simpl in *; frame_simpl; unfold hold_if in *; simpl;
      repeat match goal with |- context [if ?c then _ else _] => destruct c end;
      set_solver).

Section Resources.

Variable env : Env.

(** Creating the three buffers and storing their handles makes every live
    buffer a tracked one. *)
Lemma setup_kernel_memory_tracked :
  hoare no_buffers (setup_kernel_memory env) tracked.
Proof.
  intros s Hs _.
  apply (wp_run (setup_kernel_memory env) s (fun _ s' _ => tracked s')).
  unfold setup_kernel_memory. wp_go.
  unfold tracked, no_buffers, bufV1, bufV2, bufV_out in *. st_simpl.
  frame_simpl. unfold hold_if. intros h.
  destruct (r_CreateBuffer env (next_mem s) =? CL_SUCCESS),
    (r_CreateBuffer env (S (next_mem s)) =? CL_SUCCESS),
    (r_CreateBuffer env (S (S (next_mem s))) =? CL_SUCCESS); set_solver.
Qed.

(** [free_memory] gives back every tracked buffer, the kernel, the queue,
    the program, the context and the three host arrays. *)
Lemma free_memory_releases :
  hoare tracked (free_memory env)
    (fun s => Forall (fun r => r = REvent) (live s)).
Proof.
  intros s Hs _.
  apply (wp_run (free_memory env) s
           (fun _ s' _ => Forall (fun r => r = REvent) (live s'))).
  unfold free_memory, clReleaseKernel, clReleaseCommandQueue,
    clReleaseProgram, clReleaseContext, free. wp_go.
  apply Forall_forall. intros r Hr.
  repeat (apply list_elem_of_filter in Hr as [? Hr]).
  assert (Hlive : r ∈ live s
                  /\ forall h, Some h ∈ [bufV1 s; bufV2 s; bufV_out s] ->
                               r <> RMem h).
  { unfold bufV1, bufV2, bufV_out, get.
    destruct (at_v1 (buf s)), (at_v2 (buf s)), (at_v_out (buf s));
      simpl in Hr;
      repeat (apply list_elem_of_filter in Hr as [? Hr]);
      (split; [done|]); intros h' Hh'; set_solver. }
  destruct Hlive as [Hin Hne].
  destruct r as [a|h| | | | |]; try done.
  - by destruct a.
  - by destruct (Hne h (Hs h Hin)).
Qed.

End Resources.

Ltac hoare_auto :=
  lazymatch goal with
  | |- hoare _ (bind (setup_kernel_memory _) _) _ =>
      eapply hoare_bind;
      [apply setup_kernel_memory_tracked | intros ?; hoare_auto]
  | |- hoare _ (free_memory _) _ => apply free_memory_releases
  | |- hoare _ (bind _ _) _ =>
      eapply hoare_bind;
      [apply hoare_step; step_with res_side | intros ?; hoare_auto]
  end.

(** When [main] returns, all that is still held is the completion event of
    the kernel, which the program never releases. *)
Lemma main_releases env :
  hoare no_buffers (main env) (fun s => Forall (fun r => r = REvent) (live s)).
Proof. unfold main. hoare_auto. Qed.

Ltac cut_auto :=
  lazymatch goal with
  | |- cut_short _ _ (free_memory _) => apply cut_short_total; total_auto
  | |- cut_short _ _ (bind _ _) =>
      apply cut_short_bind; [step_with triv | intros ?; cut_auto]
  end.

(** A run that does not return from [main] has released nothing: the only
    releases of the program are in [free_memory], its last statement. *)
Lemma main_cut_short env :
  cut_short (fun _ => True) (fun e => is_release e = false) (main env).
Proof. unfold main. cut_auto. Qed.

(** When [build_program] returns, the monitor of the buffers' life has seen
    a successful build. *)
Lemma build_program_tracks_life env dev c :
  tracks life_step c (build_program env dev kernel_file)
    (MkLife true (created c) (written c) (dispatched c) (retrieved c)).
Proof.
  intros s. destruct (build_program_cases env dev s) as (k & e & l & -> & _).
  destruct (source_file env) as [text|]; [|by eexists].
  destruct (r_CreateProgramWithSource env <? 0); [by eexists|].
  destruct (r_BuildProgram env <? 0) eqn:Hb; [by eexists|].
  eexists. split; [reflexivity|]. intros _. simpl.
  by rewrite (proj2 (Z.leb_le 0 _)) by (by apply Z.ltb_ge).
Qed.

Ltac tracks_life :=
  lazy zeta;
  first
    [ apply tracks_neutral; solve [step_with triv]
    | lazymatch goal with
      | |- tracks _ _ (bind _ _) _ =>
          eapply tracks_bind; [tracks_life | intros ?; tracks_life]
      | |- tracks _ _ (build_program _ _ _) _ => apply build_program_tracks_life
      | |- tracks _ _ (emit _ _) _ => apply tracks_emit; reflexivity
      | |- tracks _ _ (if ?c then _ else _) _ => destruct c; tracks_life
      | |- tracks _ _ (match ?x with _ => _ end) _ => destruct x; tracks_life
      | |- tracks _ _ ?m _ => let h := head_of m in unfold h; tracks_life
      end ].

Lemma main_tracks_life env : exists c, tracks life_step life_init (main env) c.
Proof. eexists. unfold main. tracks_life. Qed.

(** The monitor is not idle: it refuses a buffer created before the build,
    a launch before the uploads, and a release before the download. *)
Example well_ordered_refuses_early_buffer :
  well_ordered [Call (CreateBuffer 12) 0; Call BuildProgram 0] = false.
Proof. reflexivity. Qed.

Example well_ordered_refuses_early_launch :
  well_ordered
    [Call BuildProgram 0; Call (CreateBuffer 12) 0; Call (CreateBuffer 12) 0;
     Call (CreateBuffer 12) 0;
     Call (EnqueueWriteBuffer (Some 0%nat) true 12 V1) 0;
     Call (EnqueueNDRangeKernel 3) 0] = false.
Proof. reflexivity. Qed.

Example well_ordered_refuses_early_release :
  well_ordered
    [Call BuildProgram 0; Call (CreateBuffer 12) 0; Call (CreateBuffer 12) 0;
     Call (CreateBuffer 12) 0;
     Call (EnqueueWriteBuffer (Some 0%nat) true 12 V1) 0;
     Call (EnqueueWriteBuffer (Some 1%nat) true 12 V2) 0;
     Call (EnqueueNDRangeKernel 3) 0;
     Call (ReleaseMemObject (Some 2%nat)) 0] = false.
Proof. reflexivity. Qed.

(** C8, as amended: in every run the buffers are created after the build
    of the program, written before the launch and released only after the
    download; when [main] returns, the buffers, the kernel, the queue, the
    program, the context and the host arrays have all been released (only
    the completion event is still held); when the process ends in any other
    way, it has released nothing. *)
Theorem resources_released_on_return_only env :
  well_ordered (trace (run env)) = true
  /\ match (run env).1.1 with
     | Ret _ => Forall (fun r => r = REvent) (live (final (run env)))
     | _ => Forall (fun e => is_release e = false) (trace (run env))
     end.
Proof.
  split.
  - destruct (main_tracks_life env) as [c H].
    by apply (tracks_accepted life_step life_init c (main env) initial_state).
  - pose proof (main_releases env initial_state) as Hret.
    pose proof (main_cut_short env initial_state I) as Hcut.
    unfold run, final, trace.
    destruct ((main env initial_state).1.1) as [a|c|]; simpl in *.
    + apply Hret; [|done]. intros h Hin. by apply elem_of_nil in Hin.
    + apply Hcut. tauto.
    + apply Hcut. tauto.
Qed.

(** C8, as stated, fails: when the binding of an argument fails after the
    buffers were created, the process ends with status 1 while the three
    buffers, the kernel, the queue, the program, the context and the host
    arrays are still held, and without a single release. *)
Lemma failed_binding_releases_nothing :
  let r := run (with_SetKernelArg (fun i => if (i =? 2)%nat then (-6) else 0)
                  (nominal ["3"])) in
  termination r = Exited 1
  /\ live (final r)
     = [RMem 2; RMem 1; RMem 0; RKernel; RQueue; RProgram; RContext;
        RHost V_OUT; RHost V2; RHost V1]
  /\ Forall (fun e => is_release e = false) (trace r).
Proof.
  vm_compute. split; [done|]. split; [done|]. repeat constructor.
Qed.

(** * The reported time *)

Section Timed.

Variable env : Env.

Lemma set_clock_same s : set_clock (clock s + 0) s = s.
Proof. destruct s. unfold set_clock. simpl. f_equal. lia. Qed.

Lemma timed_ret {A} (a : A) : timed env (ret a).
Proof. intros s. simpl. by rewrite set_clock_same. Qed.

Lemma timed_crash {A} : timed env (@crash A).
Proof. intros s. simpl. by rewrite set_clock_same. Qed.

Lemma timed_emit e : timed env (emit env e).
Proof. intros s. simpl. by rewrite Z.add_0_r. Qed.

Lemma timed_bind {A B} (m : M A) (f : A -> M B) :
  timed env m -> (forall a, timed env (f a)) -> timed env (bind m f).
Proof.
  intros Hm Hf s. rewrite bind_eq. specialize (Hm s).
  destruct (m s) as [[[a| |] s1] t1]; simpl in *; [|done..].
  rewrite (Hf a s1), Hm, cost_sum_app. clock_norm.
  apply set_clock_eq. lia.
Qed.

Lemma timed_for (l : list Z) (body : Z -> M unit) :
  (forall i, timed env (body i)) -> timed env (for_ l body).
Proof.
  intros Hb. induction l as [|i l IH]; simpl; [apply timed_ret|].
  apply timed_bind; [apply Hb|]. by intros _.
Qed.

End Timed.

Ltac timed_auto :=
  lazy zeta;
  lazymatch goal with
  | |- timed _ (bind _ _) => apply timed_bind; [timed_auto | intros ?; timed_auto]
  | |- timed _ (ret _) => apply timed_ret
  | |- timed _ crash => apply timed_crash
  | |- timed _ (emit _ _) => apply timed_emit
  | |- timed _ (for_ _ _) => apply timed_for; intros ?; timed_auto
  | |- timed _ (if ?c then _ else _) => destruct c; timed_auto
  | |- timed _ (match ?x with _ => _ end) => destruct x; timed_auto
  | |- timed _ ?m => let h := head_of m in unfold h; timed_auto
  end.

Section Report.

Variable env : Env.

(** Printing only takes time. *)
Lemma print_timed a size : timed env (print env a size).
Proof. timed_auto. Qed.

(** The last thing [print] shows is the rule under the array. *)
Lemma print_ends a size s :
  is_ret (print env a size s).1.1 ->
  exists tp, (print env a size s).2 = tp ++ [rule].
Proof.
  unfold print. change (PRINT =? 0) with false. cbv iota. rewrite bind_eq.
  match goal with |- context [match ?m s with _ => _ end] =>
    destruct (m s) as [[[u| |] s1] t1]
  end; simpl; [|done..].
  intros _. by exists t1.
Qed.

Lemma on_return_bind_r {A B} (Q : list Event -> Prop) (m : M A) (f : A -> M B) :
  (forall t1 t2, Q t2 -> Q (t1 ++ t2)) ->
  (forall a, on_return Q (f a)) -> on_return Q (bind m f).
Proof.
  intros HQ Hf s. rewrite bind_eq.
  destruct (m s) as [[[a| |] s1] t1]; simpl in *; [|done..].
  intros Hr. by apply HQ, Hf.
Qed.

Lemma measures_later t1 t2 tm :
  measures env t2 tm -> measures env (t1 ++ t2) tm.
Proof.
  intros (t0 & start & t3 & ->). exists (t1 ++ t0), start, t3.
  by rewrite <- app_assoc.
Qed.

End Report.

Ltac upto_now :=
  lazymatch goal with
  | |- on_return _ (bind now _) => idtac
  | |- on_return _ (bind _ _) =>
      apply on_return_bind_r;
      [ intros ? ? (? & ? & ? & ? & ? & ? & ? & ?);
        do 7 eexists; by apply measures_later
      | intros ?; upto_now ]
  end.


Section Interval.

Variable env : Env.

(** The three calls between the readings of the clock return, whatever
    their result, and take the time of their event. *)
Lemma launch_takes g s :
  exists r s',
    clEnqueueNDRangeKernel env g s = (Ret r, s', [Call (EnqueueNDRangeKernel g) r])
    /\ clock s' = clock s + Z.of_N (cost env (Call (EnqueueNDRangeKernel g) r)).
Proof. rewrite clEnqueueNDRangeKernel_run. by eexists _, _. Qed.

Lemma wait_takes s :
  exists r s',
    clWaitForEvents env s = (Ret r, s', [Call WaitForEvents r])
    /\ clock s' = clock s + Z.of_N (cost env (Call WaitForEvents r)).
Proof. rewrite clWaitForEvents_run. by eexists _, _. Qed.

Lemma download_takes b blocking bytes dst s :
  exists r s',
    clEnqueueReadBuffer env b blocking bytes dst s
    = (Ret r, s', [Call (EnqueueReadBuffer b blocking bytes dst) r])
    /\ clock s' = clock s
                  + Z.of_N (cost env (Call (EnqueueReadBuffer b blocking bytes dst) r)).
Proof. rewrite clEnqueueReadBuffer_run. by eexists _, _. Qed.

Lemma print_takes a size s :
  exists o s' tp,
    print env a size s = (o, s', tp)
    /\ clock s' = clock s + cost_sum env tp
    /\ (is_ret o -> exists tp', tp = tp' ++ [rule]).
Proof.
  pose proof (print_timed env a size s) as Ht.
  pose proof (print_ends env a size s) as He.
  destruct (print env a size s) as [[o sp] tp]. simpl in *.
  exists o, sp, tp. split; [done|]. split; [by rewrite Ht|done].
Qed.

End Interval.

(** Whenever [main] returns, the two readings of the clock enclose the
    launch, the wait, the download and the printing of the output. *)
Lemma main_times env : on_return (times_launch_to_print env) (main env).
Proof.
  unfold main. upto_now. intros s.
  apply (wp_run _ s (fun o _ t => is_ret o -> times_launch_to_print env t)).
  wp_head.
  match goal with |- wp (bind (clEnqueueNDRangeKernel _ ?g) _) _ _ =>
    destruct (launch_takes env g s) as (r1 & s1 & H1 & C1)
  end.
  eapply wp_bind_eq; [exact H1|].
  destruct (wait_takes env s1) as (r2 & s2 & H2 & C2).
  eapply wp_bind_eq; [exact H2|]. wp_head. wp_head.
  match goal with |- wp (bind (clEnqueueReadBuffer _ ?b _ ?bytes _) _) _ _ =>
    destruct (download_takes env b CL_TRUE bytes V_OUT s2) as (r3 & s3 & H3 & C3)
  end.
  eapply wp_bind_eq; [exact H3|]. wp_head. wp_head.
  match goal with |- wp (bind (print _ ?a ?n) _) _ _ =>
    destruct (print_takes env a n s3) as (o & s4 & tp & H4 & C4 & He)
  end.
  destruct o as [u|c|];
    [|eapply wp_bind_stop; [exact H4|]; cbn [is_ret]; tauto..].
  destruct He as [tp' ->]; [done|].
  eapply wp_bind_eq; [exact H4|]. wp_head. wp_head.
  unfold wp. intros _.
  match goal with
  | |- times_launch_to_print _
         (_ :: [Call (EnqueueNDRangeKernel ?g) _] ++ _ ++
            [Call (EnqueueReadBuffer ?b _ ?bytes _) _] ++ _) =>
      exists g, r1, r2, b, bytes, r3, tp';
      assert (Hc : clock s4
                   = clock s + cost_sum env (launch_to_print g r1 r2 b bytes r3 tp'))
  end.
  { unfold launch_to_print. rewrite C4, C3, C2, C1, !cost_sum_app.
    cbn [cost_sum foldr]. lia. }
  exists [], (clock s). eexists. rewrite <- Hc.
  match goal with |- context [time_report ?x] =>
    replace x with (clock s4 - clock s) by lia
  end.
  unfold launch_to_print, time_report. cbn [app]. by rewrite <- !app_assoc.
Qed.

(** C2 does not hold of the code: whenever [main] returns, what lies
    between the two readings of the clock is the launch of the kernel, the
    wait for its completion, the download of the output buffer and the
    printing of the output array, and the time reported is the time all of
    them took, download and printing included. *)
Theorem reported_time_spans_launch_to_print env :
  is_ret (run env).1.1 ->
  exists g r1 r2 b bytes r3 tp,
    measures env (trace (run env)) (launch_to_print g r1 r2 b bytes r3 tp)
    /\ cost_sum env (launch_to_print g r1 r2 b bytes r3 tp)
       = Z.of_N (cost env (Call (EnqueueNDRangeKernel g) r1))
         + Z.of_N (cost env (Call WaitForEvents r2))
         + Z.of_N (cost env (Call (EnqueueReadBuffer b CL_TRUE bytes V_OUT) r3))
         + cost_sum env tp + Z.of_N (cost env rule).
Proof.
  intros Hret.
  destruct (main_times env initial_state Hret)
    as (g & r1 & r2 & b & bytes & r3 & tp & H).
  exists g, r1, r2, b, bytes, r3, tp. split; [exact H|].
  unfold launch_to_print. rewrite !cost_sum_app. cbn [cost_sum foldr]. lia.
Qed.

Lemma reported_time_spans_launch_to_print_witness :
  let env := nominal ["3"] in
  exists g r1 r2 b bytes r3 tp,
    measures env (trace (run env)) (launch_to_print g r1 r2 b bytes r3 tp)
    /\ cost_sum env (launch_to_print g r1 r2 b bytes r3 tp)
       = Z.of_N (cost env (Call (EnqueueNDRangeKernel g) r1))
         + Z.of_N (cost env (Call WaitForEvents r2))
         + Z.of_N (cost env (Call (EnqueueReadBuffer b CL_TRUE bytes V_OUT) r3))
         + cost_sum env tp + Z.of_N (cost env rule).
Proof. apply reported_time_spans_launch_to_print. by vm_compute. Defined.

(** With three elements and every action taking one unit of time, the
    launch and the wait take 2 units together, and the program reports 7:
    the download and the four lines of the printed output are in it. *)
Example reported_time_of_a_nominal_run :
  let env := nominal ["3"] in
  Exists (eq (time_report 7)) (trace (run env))
  /\ (cost env (Call (EnqueueNDRangeKernel 3) CL_SUCCESS)
      + cost env (Call WaitForEvents CL_SUCCESS) = 2)%N.
Proof.
  split; [|done]. vm_compute.
  repeat (first [ by apply Exists_cons_hd | apply Exists_cons_tl ]).
Qed.

(** * Calls whose result is not looked at *)

Lemma length_blit n : forall src dst, length (blit n src dst) = length dst.
Proof.
  induction n as [|n IH]; intros [|x src] [|y dst]; simpl; try done.
  by rewrite IH.
Qed.

Lemma extents_exec_cmd s c : extents (exec_cmd s c) = extents s.
Proof.
  destruct c as [args g|h n src|h n dst]; simpl; [done| |].
  - by destruct (get src (host s)), (dmem s !! h).
  - destruct (dmem s !! h) as [data|]; [|done].
    destruct (get dst (host s)) as [old|] eqn:Hold; [|done].
    unfold extents. destruct dst; simpl in *; rewrite Hold; simpl;
      by rewrite length_blit.
Qed.

Lemma extents_foldl l : forall s, extents (foldl exec_cmd s l) = extents s.
Proof.
  induction l as [|c l IH]; intros s; simpl; [done|].
  by rewrite IH, extents_exec_cmd.
Qed.

Lemma extents_drain s : extents (drain s) = extents s.
Proof. unfold drain. apply (extents_foldl (pending s) s). Qed.

Lemma extents_transfer b ok blocking c s :
  extents (transfer b ok blocking c s) = extents s.
Proof.
  unfold transfer. destruct b as [h|], ok, blocking; try done.
  by rewrite extents_drain.
Qed.

Lemma extents_wait_done ok s : extents (wait_done ok s) = extents s.
Proof. destruct ok; [apply extents_drain|done]. Qed.

Lemma extents_launch ok args g s : extents (launch ok args g s) = extents s.
Proof. by destruct ok. Qed.

Lemma extents_destroy_buffer b s : extents (destroy_buffer b s) = extents s.
Proof. by destruct b. Qed.

#[export] Hint Rewrite extents_transfer extents_wait_done extents_launch
  extents_destroy_buffer : frame.

Lemma preview_all (P : Event -> Prop) l size :
  (forall x, P (show x)) -> P ellipsis -> P rule -> Forall P (preview l size).
Proof.
  intros Hs He Hr.
  assert (Hl : forall k : list Z, Forall P (show <$> k)).
  { intros k. apply Forall_fmap, Forall_forall. intros x _. apply Hs. }
  unfold preview. destruct (15 <? size); rewrite !Forall_app;
    repeat split; auto.
Qed.

Lemma setup_quiet t : Forall is_setup_call t -> Forall quiet t.
Proof.
  intros H. eapply Forall_impl; [exact H|].
  intros [| |[] r| |]; simpl; try done.
Qed.

Lemma wp_of_runs {A} I E (m : M A) s (Q : Outcome A -> State -> list Event -> Prop) :
  runs I E m -> I s ->
  (forall a s' t, I s' -> Forall E t -> Q (Ret a) s' t) ->
  wp m s Q.
Proof.
  intros Hm Hs HQ. unfold wp. destruct (Hm s Hs) as (Hr & HI & HE).
  destruct ((m s).1.1) as [a| |]; try done. by apply HQ.
Qed.

Section Unchecked.

Variable env : Env.
Variable n : Z.

Hypothesis Hcount :
  match argv env !! 1%nat with
  | Some arg => atoi arg = n
  | None => n = 100000000
  end.
Hypothesis Hn : 1 <= n < 2 ^ 31.
Hypothesis Hpass : checked_stages_pass env.
Hypothesis Hmalloc : forall a, malloc_ok env a = true.

Let E (e : Event) : Prop :=
  quiet e /\ (is_buffer_creation e -> creation_of env e).

Lemma print_sized a x : sized n x -> runs (sized n) E (print env (get a (host x)) n).
Proof.
  intros [_ Hx]. apply runs_of_eq. intros s Hs.
  assert (exists l, get a (host x) = Some l /\ length l = Z.to_nat n) as (l & -> & Hl).
  { unfold extents in Hx. injection Hx as H1 H2 H3.
    destruct a; simpl;
      [destruct (at_v1 (host x))|destruct (at_v2 (host x))
       |destruct (at_v_out (host x))]; simplify_eq/=; eauto. }
  rewrite print_run by (done || lia).
  eexists _, _, _. split; [done|]. split; [done|].
  by apply preview_all.
Qed.

Lemma setup_sized name :
  runs (sized n) E (setup_openCL_device_context_queue_kernel env kernel_file name).
Proof.
  apply runs_of_eq. intros s Hs.
  destruct (setup_run env Hpass name s) as (c1 & e1 & l1 & t1 & -> & Ht).
  eexists _, _, _. split; [done|]. split; [done|].
  eapply Forall_impl; [exact Ht|]. by intros [| |[] r| |].
Qed.

Lemma copy_kernel_args_sized : runs (sized n) E (copy_kernel_args env).
Proof.
  apply runs_of_eq. intros s Hs.
  destruct (copy_kernel_args_run env Hpass s) as (c1 & e1 & ->).
  eexists _, _, _. split; [done|]. split; [done|]. by repeat constructor.
Qed.

Ltac known :=
  idtac;
  lazymatch goal with
  | |- runs _ _ (print _ _ _) =>
      first [ apply (print_sized V1) | apply (print_sized V2)
            | apply (print_sized V_OUT) ]; assumption
  | |- runs _ _ (setup_openCL_device_context_queue_kernel _ _ _) =>
      apply setup_sized
  | |- runs _ _ (copy_kernel_args _) => apply copy_kernel_args_sized
  end.

Ltac side :=
  idtac; intros; subst E; cbv beta;
  lazymatch goal with
  | H : sized _ _ |- sized _ _ =>
      destruct H as [? ?]; split; autorewrite with frame; assumption
  | |- _ /\ _ =>
      split; [reflexivity | simpl; first [tauto | intros _; by eexists _, _]]
  end.

(** Once the arrays are initialised the rest of [main] runs to its end,
    whatever the unchecked calls report. *)
Lemma main_runs_on :
  is_ret (run env).1.1 /\ Forall E (trace (run env)).
Proof.
  unfold trace, run, main.
  apply (wp_run (main env) initial_state (fun o _ t => is_ret o /\ Forall E t)).
  unfold main.
  destruct (first_statement env n Hcount) as (s1 & Hm & Hs1). simpl in Hs1.
  eapply wp_bind_eq; [exact Hm|]. wp_head. rewrite Hs1.
  eapply wp_bind_eq; [apply init_run; [lia|done]|]. wp_head. rewrite Hs1.
  eapply wp_bind_eq; [apply init_run; [lia|done]|]. wp_head. rewrite Hs1.
  eapply wp_bind_eq; [apply init_run; [lia|done]|].
  st_simpl.
  eapply (wp_of_runs (sized n) E).
  - runs_with known side.
  - split; [exact Hs1|]. unfold extents. st_simpl.
    cbn [fmap option_fmap option_map]. by rewrite !length_rand_cells.
  - intros a s' t _ Ht. by split.
Qed.

End Unchecked.

Lemma main_downloads env : leaves is_download (main env).
Proof. leaves_search. Qed.

(** C3 does not hold of the code: when the checked stages pass and the host
    arrays are allocated, the process returns 0 without a single diagnostic
    whatever the creation of the buffers, the uploads, the launch, the wait
    and the download report, errors included; after the creation of the
    buffers, with the result the runtime gave, it goes on to the launch and
    to the download. *)
Theorem unchecked_failures_are_silent env n :
  match argv env !! 1%nat with
  | Some arg => atoi arg = n
  | None => n = 100000000
  end ->
  1 <= n < 2 ^ 31 ->
  checked_stages_pass env ->
  (forall a, malloc_ok env a = true) ->
  termination (run env) = Exited 0
  /\ Forall quiet (trace (run env))
  /\ Exists (creation_of env) (trace (run env))
  /\ Exists is_launch (trace (run env))
  /\ Exists is_download (trace (run env)).
Proof.
  intros Hcount Hn Hpass Hmalloc.
  destruct (main_runs_on env n Hcount Hn Hpass Hmalloc) as [Hret HE].
  rewrite Forall_forall in HE.
  split; [|split; [|split; [|split]]].
  - unfold termination. by destruct ((run env).1.1).
  - apply Forall_forall. intros e He. by apply HE.
  - pose proof (main_creates_buffers env initial_state Hret) as Hex.
    apply Exists_exists in Hex as (e & Hin & He). apply Exists_exists.
    exists e. split; [done|]. by apply (HE e Hin).
  - by apply (main_launches env initial_state).
  - by apply (main_downloads env initial_state).
Qed.

Lemma unchecked_failures_are_silent_witness :
  let env := with_unchecked (fun _ => (-4)) (fun _ => (-5)) (-5) (-5) (-5)
               (nominal ["3"]) in
  termination (run env) = Exited 0
  /\ Forall quiet (trace (run env))
  /\ Exists (creation_of env) (trace (run env))
  /\ Exists is_launch (trace (run env))
  /\ Exists is_download (trace (run env)).
Proof.
  apply (unchecked_failures_are_silent _ 3).
  - reflexivity.
  - lia.
  - constructor; simpl; unfold CL_SUCCESS; try lia; eauto.
    eexists _, _. split; [reflexivity|]. left. constructor.
  - reflexivity.
Defined.

(** The calls of a run of three elements in which no buffer can be
    allocated and the launch is refused: every call from the creation of
    the buffers to the download fails, the process goes through all of them
    and ends with status 0. *)
Example failed_allocation_goes_unreported :
  let env := with_unchecked (fun _ => (-4)) (fun _ => (-5)) (-5) (-5) (-5)
               (nominal ["3"]) in
  termination (run env) = Exited 0
  /\ calls (trace (run env))
     = [(GetPlatformIDs, 0); (GetDeviceIDs GPU, 0); (CreateContext, 0);
        (CreateProgramWithSource, 0); (BuildProgram, 0);
        (CreateCommandQueueWithProperties, 0);
        (CreateKernel "vector_add_ocl", 0);
        (CreateBuffer 12, -4); (CreateBuffer 12, -4); (CreateBuffer 12, -4);
        (EnqueueWriteBuffer None true 12 V1, CL_INVALID_MEM_OBJECT);
        (EnqueueWriteBuffer None true 12 V2, CL_INVALID_MEM_OBJECT);
        (SetKernelArg 0, 0); (SetKernelArg 1, 0); (SetKernelArg 2, 0);
        (SetKernelArg 3, 0);
        (EnqueueNDRangeKernel 3, -5); (WaitForEvents, CL_INVALID_EVENT);
        (EnqueueReadBuffer None true 12 V_OUT, CL_INVALID_MEM_OBJECT);
        (ReleaseMemObject None, CL_INVALID_MEM_OBJECT);
        (ReleaseMemObject None, CL_INVALID_MEM_OBJECT);
        (ReleaseMemObject None, CL_INVALID_MEM_OBJECT);
        (ReleaseKernel, 0); (ReleaseCommandQueue, 0); (ReleaseProgram, 0);
        (ReleaseContext, 0)].
Proof. by vm_compute. Qed.

(** * The pipeline when every call succeeds *)

Lemma blit_all n : forall src dst,
  length src = n -> length dst = n -> blit n src dst = src.
Proof.
  induction n as [|n IH]; intros [|x src] [|y dst]; simpl; try done.
  intros [= Hs] [= Hd]. f_equal. by apply IH.
Qed.

Lemma length_sums la lb : length lb = length la -> length (sums la lb) = length la.
Proof. intros H. unfold sums. rewrite length_zip_with. lia. Qed.

(** The work items from [k] on fill the output from cell [k] on with the
    sums. *)
Lemma kernel_fold N ha hb hc la lb (j : nat) : forall (k : nat) lc mem,
  ha <> hc -> hb <> hc ->
  length la = (k + j)%nat -> length lb = (k + j)%nat ->
  length lc = (k + j)%nat -> Z.of_nat (k + j) <= N ->
  mem !! ha = Some la -> mem !! hb = Some lb -> mem !! hc = Some lc ->
  foldl (fun m gid => vector_add_ocl N (Some ha) (Some hb) (Some hc) gid m)
    mem (seqZ (Z.of_nat k) (Z.of_nat j))
  = <[hc := take k lc ++ drop k (sums la lb)]> mem.
Proof.
  induction j as [|j IH]; intros k lc mem Hac Hbc Hla Hlb Hlc HN Ha Hb Hc.
  - rewrite seqZ_nil by lia. simpl.
    rewrite take_ge, drop_ge, app_nil_r by (rewrite ?length_sums; lia).
    by rewrite insert_id.
  - rewrite seqZ_cons by lia.
    replace (Z.succ (Z.of_nat k)) with (Z.of_nat (S k)) by lia.
    replace (Z.pred (Z.of_nat (S j))) with (Z.of_nat j) by lia.
    destruct (lookup_lt_is_Some_2 la k) as [x Hx]; [lia|].
    destruct (lookup_lt_is_Some_2 lb k) as [y Hy]; [lia|].
    cbn [foldl]. unfold vector_add_ocl at 2.
    replace ((0 <=? Z.of_nat k) && (Z.of_nat k <? N)) with true
      by (symmetry; apply andb_true_iff;
          split; [apply Z.leb_le|apply Z.ltb_lt]; lia).
    rewrite Ha, Hb, Hc, Nat2Z.id, Hx, Hy.
    rewrite (IH (S k) (<[k := wrap_int (x + y)]> lc));
      rewrite ?length_insert, ?lookup_insert_eq, ?lookup_insert_ne by done;
      try done; try lia.
    rewrite insert_insert_eq. f_equal.
    assert (Hs : sums la lb !! k = Some (wrap_int (x + y))).
    { unfold sums. by rewrite lookup_zip_with, Hx, Hy. }
    rewrite (drop_S _ _ _ Hs).
    rewrite (take_S_r _ _ (wrap_int (x + y)))
      by (apply list_lookup_insert_eq; lia).
    rewrite take_insert_ge by lia. by rewrite <- app_assoc.
Qed.

(** The kernel over [n] work items, on three distinct buffers of [n]
    cells, leaves the sums in the third. *)
Lemma run_kernel_sums n args ha hb hc la lb lc mem :
  0 <= n < 2 ^ 64 ->
  args !! 0%nat = Some (KInt n) ->
  args !! 1%nat = Some (KMem (Some ha)) ->
  args !! 2%nat = Some (KMem (Some hb)) ->
  args !! 3%nat = Some (KMem (Some hc)) ->
  ha <> hc -> hb <> hc ->
  length la = Z.to_nat n -> length lb = Z.to_nat n -> length lc = Z.to_nat n ->
  mem !! ha = Some la -> mem !! hb = Some lb -> mem !! hc = Some lc ->
  run_kernel args (to_size_t n) mem = <[hc := sums la lb]> mem.
Proof.
  intros Hn H0 H1 H2 H3 Hac Hbc Hla Hlb Hlc Ha Hb Hc.
  unfold run_kernel, to_size_t. rewrite H0, H1, H2, H3.
  rewrite Z.mod_small by lia.
  replace (seqZ 0 n) with (seqZ (Z.of_nat 0) (Z.of_nat (Z.to_nat n)))
    by (f_equal; lia).
  by rewrite (kernel_fold n ha hb hc la lb (Z.to_nat n) 0 lc mem) by (done || lia).
Qed.

(** The sums of cells between 0 and 99 do not overflow. *)
Lemma sums_rand_cells env k1 k2 n i :
  (i < n)%nat ->
  exists a b,
    rand_cells env k1 n !! i = Some a /\ rand_cells env k2 n !! i = Some b
    /\ sums (rand_cells env k1 n) (rand_cells env k2 n) !! i = Some (a + b).
Proof.
  intros Hi.
  destruct (lookup_lt_is_Some_2 (rand_cells env k1 n) i) as [a Ha];
    [by rewrite length_rand_cells|].
  destruct (lookup_lt_is_Some_2 (rand_cells env k2 n) i) as [b Hb];
    [by rewrite length_rand_cells|].
  exists a, b. split; [done|]. split; [done|].
  unfold sums. rewrite lookup_zip_with, Ha, Hb. simpl. f_equal.
  pose proof (rand_cells_bounds env _ _ _ _ Ha).
  pose proof (rand_cells_bounds env _ _ _ _ Hb).
  unfold wrap_int. rewrite Z.mod_small; lia.
Qed.

Lemma state_eq s s' :
  SZ s = SZ s' -> host s = host s' -> buf s = buf s' -> event s = event s' ->
  err s = err s' -> rand_next s = rand_next s' -> next_mem s = next_mem s' ->
  dmem s = dmem s' -> kargs s = kargs s' -> pending s = pending s' ->
  live s = live s' -> clock s = clock s' -> s = s'.
Proof. destruct s, s'; simpl; congruence. Qed.

Lemma four_args (a0 a1 a2 a3 : KArg) (K : gmap nat KArg) :
  let args := <[3%nat := a3]> (<[2%nat := a2]> (<[1%nat := a1]> (<[0%nat := a0]> K))) in
  args !! 0%nat = Some a0 /\ args !! 1%nat = Some a1
  /\ args !! 2%nat = Some a2 /\ args !! 3%nat = Some a3.
Proof. repeat split; by simplify_map_eq. Qed.

Lemma host_destroy_buffer b s : host (destroy_buffer b s) = host s.
Proof. by destruct b. Qed.

Lemma drain_one c s :
  pending s = [] -> drain (enqueue c s) = set_pending [] (exec_cmd (enqueue c s) c).
Proof. intros H. unfold drain, enqueue at 2. st_simpl. by rewrite H. Qed.

Ltac data_eq := unfold data; apply state_eq; st_simpl; frame_simpl; try reflexivity.

Section Pipeline.

Variable env : Env.
Hypothesis Hok : every_call_succeeds env.

Lemma init_data a n s :
  0 <= n < 2 ^ 61 ->
  exists s',
    init env a n s = (Ret tt, s', [])
    /\ data s'
       = set_host (upd a (Some (rand_cells env (rand_next s) (Z.to_nat n))) (host s))
           (set_rand_next (rand_next s + Z.to_nat n) (data s)).
Proof.
  intros Hn. eexists. split; [apply init_run; [done|apply (ok_malloc env Hok)]|].
  reflexivity.
Qed.

Lemma print_data l n s :
  length l = Z.to_nat n -> 0 <= n ->
  exists s', print env (Some l) n s = (Ret tt, s', preview l n) /\ data s' = data s.
Proof. intros Hl Hn. eexists. split; [by apply print_run|]. reflexivity. Qed.

Lemma setup_data name s :
  exists s' t,
    setup_openCL_device_context_queue_kernel env kernel_file name s = (Ret tt, s', t)
    /\ data s' = data s.
Proof.
  destruct (setup_run env (ok_checked env Hok) name s) as (c & e & l & t & -> & _).
  by eexists _, _.
Qed.

Lemma copy_kernel_args_data s :
  exists s' t,
    copy_kernel_args env s = (Ret tt, s', t)
    /\ data s'
       = set_kargs
           (<[3%nat := KMem (bufV_out s)]>
              (<[2%nat := KMem (bufV2 s)]>
                 (<[1%nat := KMem (bufV1 s)]>
                    (<[0%nat := KInt (SZ s)]> (kargs s))))) (data s).
Proof.
  destruct (copy_kernel_args_run env (ok_checked env Hok) s) as (c & e & ->).
  eexists _, _. split; [done|].
  rewrite !(ok_args env Hok) by lia. reflexivity.
Qed.

Lemma create_data n s :
  0 <= n < 2 ^ 61 ->
  exists s',
    clCreateBuffer env (4 * n) s
    = (Ret (Some (next_mem s)), s', [Call (CreateBuffer (4 * n)) CL_SUCCESS])
    /\ data s'
       = set_dmem (<[next_mem s := uninit env <$> seq 0 (Z.to_nat n)]> (dmem s))
           (set_next_mem (S (next_mem s)) (data s)).
Proof.
  intros Hn. destruct (bytes_of_count n Hn) as (_ & _ & Hd).
  rewrite clCreateBuffer_run, (ok_buffers env Hok). eexists. split; [done|].
  unfold create_buffer. change (CL_SUCCESS =? CL_SUCCESS) with true. cbv iota.
  by rewrite Hd.
Qed.

(** A blocking upload on an idle queue has copied the host array into the
    buffer when it returns. *)
Lemma upload_data n h src cells old s :
  0 <= n < 2 ^ 61 ->
  get src (host s) = Some cells -> dmem s !! h = Some old -> pending s = [] ->
  length cells = Z.to_nat n -> length old = Z.to_nat n ->
  exists s',
    clEnqueueWriteBuffer env (Some h) CL_TRUE (4 * n) src s
    = (Ret CL_SUCCESS, s',
       [Call (EnqueueWriteBuffer (Some h) CL_TRUE (4 * n) src) CL_SUCCESS])
    /\ data s' = set_dmem (<[h := cells]> (dmem s)) (data s).
Proof.
  intros Hn Hsrc Hold Hp Hlc Hlo. destruct (bytes_of_count n Hn) as (_ & _ & Hd).
  rewrite clEnqueueWriteBuffer_run, Hsrc, Hd. cbn [transfer_code].
  rewrite (ok_uploads env Hok). eexists. split; [done|].
  change (CL_SUCCESS =? CL_SUCCESS) with true. cbn [transfer CL_TRUE].
  rewrite (drain_one _ _ Hp). cbn [exec_cmd]. st_simpl.
  rewrite Hsrc, Hold, (blit_all _ _ _ Hlc Hlo).
  data_eq. done.
Qed.

(** A launch with the four arguments bound puts the kernel on the queue. *)
Lemma launch_data g s :
  args_bound (kargs s) = true ->
  exists s',
    clEnqueueNDRangeKernel env g s
    = (Ret CL_SUCCESS, s', [Call (EnqueueNDRangeKernel g) CL_SUCCESS])
    /\ data s'
       = set_event (Some 0%nat)
           (set_pending (pending s ++ [CmdKernel (kargs s) g]) (data s)).
Proof.
  intros Hb. rewrite clEnqueueNDRangeKernel_run, Hb, (ok_launch env Hok).
  eexists. split; [done|]. reflexivity.
Qed.

(** The wait returns once the kernel has run. *)
Lemma wait_data e args g s :
  event s = Some e -> pending s = [CmdKernel args g] ->
  exists s',
    clWaitForEvents env s = (Ret CL_SUCCESS, s', [Call WaitForEvents CL_SUCCESS])
    /\ data s' = set_pending [] (set_dmem (run_kernel args g (dmem s)) (data s)).
Proof.
  intros He Hp. rewrite clWaitForEvents_run, He, (ok_wait env Hok).
  eexists. split; [done|].
  change (CL_SUCCESS =? CL_SUCCESS) with true. cbn [wait_done].
  unfold drain. rewrite Hp. cbn [foldl exec_cmd]. reflexivity.
Qed.

(** A blocking download on an idle queue has copied the buffer into the
    host array when it returns. *)
Lemma download_data n h dst cells old s :
  0 <= n < 2 ^ 61 ->
  dmem s !! h = Some cells -> get dst (host s) = Some old -> pending s = [] ->
  length cells = Z.to_nat n -> length old = Z.to_nat n ->
  exists s',
    clEnqueueReadBuffer env (Some h) CL_TRUE (4 * n) dst s
    = (Ret CL_SUCCESS, s',
       [Call (EnqueueReadBuffer (Some h) CL_TRUE (4 * n) dst) CL_SUCCESS])
    /\ data s' = set_host (upd dst (Some cells) (host s)) (data s).
Proof.
  intros Hn Hcells Hdst Hp Hlc Hlo. destruct (bytes_of_count n Hn) as (_ & _ & Hd).
  rewrite clEnqueueReadBuffer_run, Hdst, Hd. cbn [transfer_code].
  rewrite (ok_download env Hok). eexists. split; [done|].
  change (CL_SUCCESS =? CL_SUCCESS) with true. cbn [transfer CL_TRUE].
  rewrite (drain_one _ _ Hp). cbn [exec_cmd]. st_simpl.
  rewrite Hcells, Hdst, (blit_all _ _ _ Hlc Hlo).
  data_eq. done.
Qed.

(** [free_memory] returns and leaves the host arrays as they are. *)
Lemma free_memory_host s :
  exists s' t, free_memory env s = (Ret tt, s', t) /\ host s' = host s.
Proof.
  eexists _, _. split.
  - apply wp_result. unfold free_memory, clReleaseKernel, clReleaseCommandQueue,
      clReleaseProgram, clReleaseContext, free. wp_go. reflexivity.
  - st_simpl. by repeat (rewrite host_destroy_buffer; st_simpl).
Qed.

Lemma modify_data f s :
  exists s', modify f s = (Ret tt, s', []) /\ data s' = data (f s).
Proof. by eexists. Qed.

End Pipeline.

Lemma data_fields s D :
  data s = D ->
  SZ s = SZ D /\ host s = host D /\ buf s = buf D /\ event s = event D
  /\ rand_next s = rand_next D /\ next_mem s = next_mem D /\ dmem s = dmem D
  /\ kargs s = kargs D /\ pending s = pending D.
Proof. intros <-. by repeat split. Qed.

Lemma args_bound_four (a0 a1 a2 a3 : KArg) (K : gmap nat KArg) :
  args_bound (<[3%nat := a3]> (<[2%nat := a2]> (<[1%nat := a1]> (<[0%nat := a0]> K))))
  = true.
Proof.
  destruct (four_args a0 a1 a2 a3 K) as (H0 & H1 & H2 & H3).
  unfold args_bound. cbn [forallb]. rewrite H0, H1, H2, H3.
  by rewrite !bool_decide_eq_true_2 by eauto.
Qed.

Section Stages.

Context {A B : Type}.
Implicit Types (k : A -> M B) (Q : Outcome B -> State -> list Event -> Prop).

(** A step known by what it returns, what it emits and a property of the
    state it leaves. *)
Lemma wp_bind_stage (m : M A) k s Q a t (P : State -> Prop) :
  (exists s', m s = (Ret a, s', t) /\ P s') ->
  (forall s', P s' -> wp (k a) s' (fun o s2 t2 => Q o s2 (t ++ t2))) ->
  wp (bind m k) s Q.
Proof. intros (s' & Hm & HP) Hk. eapply wp_bind_eq; [exact Hm|]. by apply Hk. Qed.

Lemma wp_bind_stage_any (m : M A) k s Q a (P : State -> Prop) :
  (exists s' t, m s = (Ret a, s', t) /\ P s') ->
  (forall s' t, P s' -> wp (k a) s' (fun o s2 t2 => Q o s2 (t ++ t2))) ->
  wp (bind m k) s Q.
Proof. intros (s' & t & Hm & HP) Hk. eapply wp_bind_eq; [exact Hm|]. by apply Hk. Qed.

End Stages.

Lemma printed_here l n b bytes r t1 :
  printed_after_download l n
    ([Call (EnqueueReadBuffer b CL_TRUE bytes V_OUT) r] ++ preview l n ++ t1).
Proof. by exists [], b, bytes, r, t1. Qed.

Lemma printed_later l n t1 t :
  printed_after_download l n t -> printed_after_download l n (t1 ++ t).
Proof.
  intros (t0 & b & bytes & r & t2 & ->). exists (t1 ++ t0), b, bytes, r, t2.
  by rewrite <- app_assoc.
Qed.

Lemma printed_later_cons l n e t :
  printed_after_download l n t -> printed_after_download l n (e :: t).
Proof. apply (printed_later l n [e]). Qed.

Section Start.

Variable env : Env.
Variable n : Z.

Hypothesis Hcount :
  match argv env !! 1%nat with
  | Some arg => atoi arg = n
  | None => n = 100000000
  end.
Hypothesis Hn : 1 <= n < 2 ^ 31.
Hypothesis Hok : every_call_succeeds env.

Lemma first_data :
  exists s',
    (if 1 <? Z.of_nat (length (argv env))
     then modify (set_SZ (atoi (default EmptyString (argv env !! 1%nat))))
     else ret tt) initial_state = (Ret tt, s', [])
    /\ data s' = set_SZ n initial_state.
Proof.
  destruct (argv env !! 1%nat) as [arg|] eqn:Harg.
  - rewrite (proj2 (Z.ltb_lt 1 _)); [|apply lookup_lt_Some in Harg; lia].
    eexists. split; [done|]. simpl. by rewrite Hcount.
  - rewrite (proj2 (Z.ltb_ge 1 _)); [|apply lookup_ge_None in Harg; lia].
    eexists. split; [done|]. by rewrite Hcount.
Qed.

End Start.

(** Rewriting with the nine facts known of the current state. *)
Ltac with_facts Hs tac :=
  let H := fresh in
  pose proof Hs as H;
  let H1 := fresh in let H2 := fresh in let H3 := fresh in
  let H4 := fresh in let H5 := fresh in let H6 := fresh in
  let H7 := fresh in let H8 := fresh in let H9 := fresh in
  destruct H as (H1 & H2 & H3 & H4 & H5 & H6 & H7 & H8 & H9);
  tac H1 H2 H3 H4 H5 H6 H7 H8 H9;
  clear H1 H2 H3 H4 H5 H6 H7 H8 H9.

Ltac use_facts Hs :=
  with_facts Hs ltac:(fun H1 H2 H3 H4 H5 H6 H7 H8 H9 =>
    rewrite ?H1, ?H2, ?H3, ?H4, ?H5, ?H6, ?H7, ?H8, ?H9); st_simpl.

(** The facts known of the state reached, from those of the state left. *)
Ltac next_state Hs Hd :=
  apply data_fields in Hd; unfold data in Hd; st_simpl_in Hd;
  with_facts Hs ltac:(fun H1 H2 H3 H4 H5 H6 H7 H8 H9 =>
    rewrite ?H1, ?H2, ?H3, ?H4, ?H5, ?H6, ?H7, ?H8, ?H9 in Hd);
  st_simpl_in Hd; clear Hs; rename Hd into Hs.

Ltac stage Hs lem :=
  eapply wp_bind_stage;
  [eapply lem | intros ? Hd; use_facts Hs; next_state Hs Hd].

Ltac stage_any Hs lem :=
  eapply wp_bind_stage_any;
  [eapply lem | intros ? ? Hd; use_facts Hs; next_state Hs Hd].

Ltac read_state Hs := wp_head; use_facts Hs.

Section Assembly.

Variable env : Env.
Variable n : Z.

Hypothesis Hcount :
  match argv env !! 1%nat with
  | Some arg => atoi arg = n
  | None => n = 100000000
  end.
Hypothesis Hn : 1 <= n < 2 ^ 31.
Hypothesis Hok : every_call_succeeds env.

Let A := rand_cells env 0 (Z.to_nat n).
Let B := rand_cells env (Z.to_nat n) (Z.to_nat n).

Lemma pipeline_result :
  wp (main env) initial_state (fun o s t =>
    is_ret o
    /\ host s = MkArrs (Some A) (Some B) (Some (sums A B))
    /\ printed_after_download (sums A B) n t).
Proof.
  assert (Hn' : 0 <= n < 2 ^ 61) by lia.
  destruct (bytes_of_count n Hn') as (_ & Hb & _).
  unfold main.
  eapply wp_bind_stage; [apply (first_data env n Hcount)|].
  intros s Hs. apply data_fields in Hs. st_simpl_in Hs.
  read_state Hs. stage Hs (init_data env Hok V1 n); [done|].
  read_state Hs. stage Hs (init_data env Hok V2 n); [done|].
  read_state Hs. stage Hs (init_data env Hok V_OUT n); [done|].
  read_state Hs. lazy zeta.
  read_state Hs. read_state Hs.
  stage Hs (print_data env); [by rewrite length_rand_cells|lia|].
  read_state Hs. read_state Hs.
  stage Hs (print_data env); [by rewrite length_rand_cells|lia|].
  stage_any Hs (setup_data env Hok).
  unfold setup_kernel_memory. apply wp_bind_assoc.
  read_state Hs. rewrite Hb.
  apply wp_bind_assoc. stage Hs (create_data env Hok n); [done|].
  apply wp_bind_assoc. stage Hs (modify_data).
  apply wp_bind_assoc. stage Hs (create_data env Hok n); [done|].
  apply wp_bind_assoc. stage Hs (modify_data).
  apply wp_bind_assoc. stage Hs (create_data env Hok n); [done|].
  apply wp_bind_assoc. stage Hs (modify_data).
  apply wp_bind_assoc. read_state Hs.
  apply wp_bind_assoc.
  stage Hs (upload_data env Hok n);
    [done|by use_facts Hs|by use_facts Hs; simplify_map_eq|by use_facts Hs
    |by rewrite length_rand_cells|by rewrite length_fmap, length_seq|].
  apply wp_bind_assoc. read_state Hs.
  apply wp_bind_assoc.
  stage Hs (upload_data env Hok n);
    [done|by use_facts Hs|by use_facts Hs; simplify_map_eq|by use_facts Hs
    |by rewrite length_rand_cells|by rewrite length_fmap, length_seq|].
  wp_head.
  stage_any Hs (copy_kernel_args_data env Hok).
  wp_head.
  stage Hs (launch_data env Hok).
  { use_facts Hs. apply args_bound_four. }
  stage Hs (wait_data env Hok); [by use_facts Hs..|].
  rewrite (run_kernel_sums n _ 0%nat 1%nat 2%nat
             (rand_cells env 0 (Z.to_nat n))
             (rand_cells env (0 + Z.to_nat n) (Z.to_nat n))
             (uninit env <$> seq 0 (Z.to_nat n))) in Hs;
    [|lia|by simplify_map_eq|by simplify_map_eq|by simplify_map_eq
     |by simplify_map_eq|done|done
     |by rewrite length_rand_cells|by rewrite length_rand_cells
     |by rewrite length_fmap, length_seq
     |by simplify_map_eq|by simplify_map_eq|by simplify_map_eq].
  read_state Hs. read_state Hs. rewrite Hb.
  stage Hs (download_data env Hok n);
    [done|by use_facts Hs; simplify_map_eq|by use_facts Hs|by use_facts Hs
    |by rewrite length_sums; rewrite !length_rand_cells
    |by rewrite length_rand_cells|].
  read_state Hs. read_state Hs.
  stage Hs (print_data env);
    [by rewrite length_sums; rewrite !length_rand_cells|lia|].
  wp_head. wp_head.
  destruct Hs as (_ & Hhost & _).
  match goal with |- wp (free_memory env) ?s _ =>
    destruct (free_memory_host env s) as (sf & tf & Hf & Hh)
  end.
  eapply wp_eq; [exact Hf|]. cbv beta.
  split; [done|]. split; [by rewrite Hh|].
  repeat first [ apply printed_here | apply printed_later
               | apply printed_later_cons ].
Qed.

End Assembly.

(** C1: when every call succeeds, for a count [n] of at least 1, the run
    ends with status 0 with the two inputs as [init] filled them and, in the
    output array, at every index below [n], the sum of the two inputs at
    that index; this is the array printed right after the download.  The
    kernel is the one modelled from the spec. *)
Theorem output_is_the_elementwise_sum env n :
  match argv env !! 1%nat with
  | Some arg => atoi arg = n
  | None => n = 100000000
  end ->
  1 <= n < 2 ^ 31 ->
  every_call_succeeds env ->
  exists la lb lc,
    termination (run env) = Exited 0
    /\ v1 (final (run env)) = Some la
    /\ v2 (final (run env)) = Some lb
    /\ v_out (final (run env)) = Some lc
    /\ length lc = Z.to_nat n
    /\ printed_after_download lc n (trace (run env))
    /\ forall i, (i < Z.to_nat n)%nat ->
         exists a b, la !! i = Some a /\ lb !! i = Some b
                     /\ lc !! i = Some (a + b).
Proof.
  intros Hcount Hn Hok.
  pose proof (pipeline_result env n Hcount Hn Hok) as H. unfold wp in H.
  cbv zeta in H. destruct H as (Hret & Hhost & Hpr).
  eexists _, _, _. unfold termination, final, v1, v2, v_out, run.
  rewrite Hhost. cbn [get at_v1 at_v2 at_v_out].
  split; [by destruct ((main env initial_state).1.1)|].
  repeat split; try done.
  - rewrite length_sums; by rewrite !length_rand_cells.
  - apply sums_rand_cells.
Qed.

Lemma output_is_the_elementwise_sum_witness :
  let env := nominal ["3"] in
  exists la lb lc,
    termination (run env) = Exited 0
    /\ v1 (final (run env)) = Some la
    /\ v2 (final (run env)) = Some lb
    /\ v_out (final (run env)) = Some lc
    /\ length lc = Z.to_nat 3
    /\ printed_after_download lc 3 (trace (run env))
    /\ forall i, (i < Z.to_nat 3)%nat ->
         exists a b, la !! i = Some a /\ lb !! i = Some b
                     /\ lc !! i = Some (a + b).
Proof.
  apply (output_is_the_elementwise_sum _ 3).
  - reflexivity.
  - lia.
  - constructor; try reflexivity.
    constructor; simpl; unfold CL_SUCCESS; try lia; eauto.
    eexists _, _. split; [reflexivity|]. left. constructor.
Defined.

(** The run of three elements: 3 + 24, 10 + 31 and 17 + 38. *)
Example nominal_run_adds :
  let r := run (nominal ["3"]) in
  v1 (final r) = Some [3; 10; 17] /\ v2 (final r) = Some [24; 31; 38]
  /\ v_out (final r) = Some [27; 41; 55].
Proof. by vm_compute. Qed.

(** * How a run ends *)

(** X5: a run ends in one of three ways: [main] returns (status 0), the
    process calls [exit(1)], or it crashes; no other status is ever
    given. *)
Theorem exit_status_is_zero_or_one env :
  termination (run env) = Exited 0 \/ termination (run env) = Exited 1
  \/ termination (run env) = Crashed.
Proof.
  pose proof (main_exits_one env initial_state) as Hone.
  unfold termination, run.
  destruct ((main env initial_state).1.1) as [a|c|]; simpl in *; auto.
  right. left. by rewrite (Hone c).
Qed.

Section Diagnosed.

Context {A B : Type}.

Lemma diagnosed_bind (m : M A) (f : A -> M B) :
  diagnosed m -> (forall a, diagnosed (f a)) -> diagnosed (bind m f).
Proof.
  intros Hm Hf s. rewrite bind_eq. specialize (Hm s).
  destruct (m s) as [[[a| |] s1] t1]; simpl in *; [|done..].
  specialize (Hf a s1). destruct ((f a s1).1.1) as [b|c|].
  - by apply Forall_app.
  - destruct Hf as (-> & t0 & d & -> & Hd). split; [done|].
    exists (t1 ++ t0), d. by rewrite app_assoc.
  - by apply Forall_app.
Qed.

Lemma diagnosed_ret (a : A) : diagnosed (ret a).
Proof. intros s. simpl. by repeat constructor. Qed.

Lemma diagnosed_gets (f : State -> A) : diagnosed (gets f).
Proof. intros s. simpl. by repeat constructor. Qed.

Lemma diagnosed_crash : diagnosed (@crash A).
Proof. intros s. simpl. by repeat constructor. Qed.

End Diagnosed.

Lemma diagnosed_modify f : diagnosed (modify f).
Proof. intros s. simpl. by repeat constructor. Qed.

Lemma diagnosed_now : diagnosed now.
Proof. intros s. simpl. by repeat constructor. Qed.

Lemma diagnosed_rand env : diagnosed (rand env).
Proof. intros s. simpl. by repeat constructor. Qed.

Lemma diagnosed_emit env e : quiet e -> diagnosed (emit env e).
Proof. intros He s. simpl. by repeat constructor. Qed.

Lemma diagnosed_for (l : list Z) (body : Z -> M unit) :
  (forall i, diagnosed (body i)) -> diagnosed (for_ l body).
Proof.
  intros Hb. induction l as [|i l IH]; simpl; [apply diagnosed_ret|].
  apply diagnosed_bind; [apply Hb|]. by intros _.
Qed.

(** The two shapes of a failure branch: a diagnostic, or any message and
    a diagnostic, followed by [exit(1)]. *)
Lemma diagnosed_report env {A} e :
  is_diagnostic e = true -> diagnosed (bind (emit env e) (fun _ => @exit A 1)).
Proof. intros He s. simpl. split; [done|]. by exists [], e. Qed.

Lemma diagnosed_report2 env {A} e1 e2 :
  is_diagnostic e2 = true ->
  diagnosed (bind (emit env e1) (fun _ => bind (emit env e2) (fun _ => @exit A 1))).
Proof. intros He s. simpl. split; [done|]. by exists [e1], e2. Qed.

Ltac diag_auto :=
  lazy zeta;
  lazymatch goal with
  | |- diagnosed (bind (perror _ _) (fun _ => bind (printf _ _ _) (fun _ => exit 1))) =>
      apply diagnosed_report2; reflexivity
  | |- diagnosed (bind (perror _ _) (fun _ => exit 1)) =>
      apply diagnosed_report; reflexivity
  | |- diagnosed (bind (printf _ _ _) (fun _ => exit 1)) =>
      apply diagnosed_report; reflexivity
  | |- diagnosed (bind _ _) =>
      apply diagnosed_bind; [diag_auto | intros ?; diag_auto]
  | |- diagnosed (ret _) => apply diagnosed_ret
  | |- diagnosed (gets _) => apply diagnosed_gets
  | |- diagnosed crash => apply diagnosed_crash
  | |- diagnosed (modify _) => apply diagnosed_modify
  | |- diagnosed now => apply diagnosed_now
  | |- diagnosed (rand _) => apply diagnosed_rand
  | |- diagnosed (emit _ _) => apply diagnosed_emit; reflexivity
  | |- diagnosed (for_ _ _) => apply diagnosed_for; intros ?; diag_auto
  | |- diagnosed (if ?c then _ else _) => destruct c; diag_auto
  | |- diagnosed (match ?x with _ => _ end) => destruct x; diag_auto
  | |- diagnosed ?m => let h := head_of m in unfold h; diag_auto
  end.

Lemma main_diagnosed env : diagnosed (main env).
Proof. diag_auto. Qed.


(** X7: the count is fixed by the first statement of [main] and never
    written again: at the end of every run, however it ends, [SZ] is [atoi]
    of the first argument if there is one, and 100000000 otherwise. *)
Theorem count_is_fixed_at_start env :
  SZ (final (run env))
  = match argv env !! 1%nat with
    | Some arg => atoi arg
    | None => 100000000
    end.
Proof. apply count_kept. by destruct (argv env !! 1%nat). Qed.

(** * The order of the calls *)

Lemma tracks_exit {C A} (next : C -> Event -> option C) c c' k :
  tracks next c (@exit A k) c'.
Proof. intros s. exists c. split; [done|]. by intros []. Qed.

Lemma tracks_crash {C A} (next : C -> Event -> option C) c c' :
  tracks next c (@crash A) c'.
Proof. intros s. exists c. split; [done|]. by intros []. Qed.

Ltac tracks_order :=
  lazy zeta;
  lazymatch goal with
  | |- tracks _ _ (exit _) _ => apply tracks_exit
  | |- tracks _ _ crash _ => apply tracks_crash
  | |- tracks _ _ (for_ _ _) _ => apply tracks_neutral; solve [step_with triv]
  | |- tracks _ _ (bind _ _) _ =>
      eapply tracks_bind; [tracks_order | intros ?; tracks_order]
  | |- tracks _ _ (emit _ _) _ => apply tracks_emit; cbn; reflexivity
  | |- tracks _ _ (if ?c then _ else _) _ => destruct c; tracks_order
  | |- tracks _ _ (match ?x with _ => _ end) _ => destruct x; tracks_order
  | |- tracks _ _ (ret _) _ => apply tracks_neutral; apply step_ret
  | |- tracks _ _ (gets _) _ => apply tracks_neutral; apply step_gets
  | |- tracks _ _ (modify _) _ => apply tracks_neutral; by apply step_modify
  | |- tracks _ _ now _ => apply tracks_neutral; by apply step_now
  | |- tracks _ _ (rand _) _ => apply tracks_neutral; by apply step_rand
  | |- tracks _ _ ?m _ => let h := head_of m in unfold h; tracks_order
  end.

Lemma main_tracks_order env : exists c, tracks order_step 0%nat (main env) c.
Proof. eexists. unfold main. tracks_order. Qed.

(** The monitor is not idle: it refuses a launch that comes before the
    creation of a buffer, and a release that comes before the download. *)
Example in_pipeline_order_refuses :
  in_pipeline_order [Call (EnqueueNDRangeKernel 3) 0; Call (CreateBuffer 12) 0]
  = false
  /\ in_pipeline_order
       [Call ReleaseKernel 0; Call (EnqueueReadBuffer None true 12 V_OUT) 0]
     = false.
Proof. by split. Qed.

(** X8: in every run, however it ends, the calls come in the order of the
    pipeline: platform, devices, context, program, build (and its log),
    queue, kernel, buffers, uploads, arguments, launch, wait, download,
    then the releases of the buffers, the kernel, the queue, the program
    and the context, and last the host arrays; no call of an earlier stage
    ever follows one of a later stage. *)
Theorem calls_follow_the_pipeline env : in_pipeline_order (trace (run env)) = true.
Proof.
  destruct (main_tracks_order env) as [c H].
  by apply (tracks_accepted order_step 0%nat c (main env) initial_state).
Qed.

(** * Further properties of [init] and [print] *)

(** X1: [init(A, size)], for a size that is not negative and with memory
    at hand, returns without printing anything; [A] then has exactly [size]
    cells, the [i]-th being the result of the [i]-th next call of [rand]
    modulo 100, hence between 0 and 99; the other arrays are untouched and
    [rand] has been called [size] times. *)
Theorem init_fills_the_array env A size s :
  0 <= size < 2 ^ 31 ->
  malloc_ok env A = true ->
  exists s' cells,
    init env A size s = (Ret tt, s', [])
    /\ get A (host s') = Some cells
    /\ length cells = Z.to_nat size
    /\ (forall i, (i < Z.to_nat size)%nat ->
          cells !! i = Some (Z.of_N (rand_val env (rand_next s + i)%nat) `rem` 100))
    /\ (forall i x, cells !! i = Some x -> 0 <= x <= 99)
    /\ (forall B, B <> A -> get B (host s') = get B (host s))
    /\ rand_next s' = (rand_next s + Z.to_nat size)%nat
    /\ SZ s' = SZ s.
Proof.
  intros Hsz Hok. eexists _, _. split; [apply init_run; [lia|done]|].
  st_simpl. rewrite get_upd. split; [done|].
  split; [apply length_rand_cells|]. split; [|split; [|split; [|done]]].
  - intros i Hi. unfold rand_cells. rewrite list_lookup_fmap.
    by rewrite lookup_seq_lt by done.
  - apply rand_cells_bounds.
  - intros B HB. by apply get_upd_ne.
Qed.

Lemma init_fills_the_array_witness :
  exists s' cells,
    init (nominal []) V2 4 initial_state = (Ret tt, s', [])
    /\ get V2 (host s') = Some cells
    /\ length cells = Z.to_nat 4
    /\ (forall i, (i < Z.to_nat 4)%nat ->
          cells !! i
          = Some (Z.of_N (rand_val (nominal []) (rand_next initial_state + i)%nat)
                  `rem` 100))
    /\ (forall i x, cells !! i = Some x -> 0 <= x <= 99)
    /\ (forall B, B <> V2 -> get B (host s') = get B (host initial_state))
    /\ rand_next s' = (rand_next initial_state + Z.to_nat 4)%nat
    /\ SZ s' = SZ initial_state.
Proof. apply init_fills_the_array; [lia|reflexivity]. Defined.

(** Without memory, the first store of [init] goes through a null
    pointer. *)
Lemma init_null env A size s :
  1 <= size -> malloc_ok env A = false ->
  exists s', init env A size s = (Crash, s', []).
Proof.
  intros Hsz Hno. unfold init, malloc, range. rewrite Hno, andb_false_r.
  rewrite Z.sub_0_r, seqZ_cons by lia. cbn [for_].
  eexists. apply wp_result. wp_steps. unfold store at 1. wp_steps.
  rewrite get_upd. wp_steps. reflexivity.
Qed.

(** X2: the result of [malloc] is not checked: when the count is at least
    1 and the allocation of [v1] fails, the process crashes in the first
    [init], before it has printed anything or called OpenCL. *)
Theorem failed_allocation_crashes env c :
  match argv env !! 1%nat with
  | Some arg => atoi arg = c
  | None => c = 100000000
  end ->
  1 <= c ->
  malloc_ok env V1 = false ->
  termination (run env) = Crashed /\ trace (run env) = [].
Proof.
  intros Hcount Hc Hno.
  destruct (first_statement env c Hcount) as (s1 & Hm & Hs1). simpl in Hs1.
  destruct (init_null env V1 c s1 Hc Hno) as [s2 Hi].
  assert (H : main env initial_state = (Crash, s2, [])).
  { apply wp_result. unfold main. eapply wp_bind_eq; [exact Hm|].
    wp_head. rewrite Hs1. eapply wp_bind_stop; [exact Hi|]. done. }
  unfold termination, trace, run. by rewrite H.
Qed.

Lemma failed_allocation_crashes_witness :
  termination (run (without_memory (nominal ["3"]))) = Crashed
  /\ trace (run (without_memory (nominal ["3"]))) = [].
Proof. apply (failed_allocation_crashes _ 3); [reflexivity|lia|reflexivity]. Defined.

(** X3: [print(A, size)] on an array of [size] cells returns after showing
    the first five cells, the ellipsis and the last five cells when [size]
    is above 15, and every cell otherwise, then the rule; it changes nothing
    but the time. *)
Theorem print_shows_the_preview env l size s :
  length l = Z.to_nat size ->
  0 <= size ->
  print env (Some l) size s
  = (Ret tt, set_clock (clock s + cost_sum env (preview l size)) s, preview l size)
  /\ preview l size
     = (if 15 <? size
        then (show <$> take 5 l) ++ [ellipsis]
             ++ (show <$> drop (length l - 5) l)
        else show <$> l) ++ [rule]
  /\ Z.of_nat (length (preview l size)) = (if 15 <? size then 12 else size + 1).
Proof.
  intros Hl Hsz. split; [by apply print_run|]. unfold preview.
  destruct (Z.ltb_spec 15 size) as [Hbig|Hsmall].
  - split; [by replace (length l - 5)%nat with (Z.to_nat (size - 5)) by lia|].
    rewrite !length_app, !length_fmap, length_take, length_drop.
    cbn [length]. lia.
  - split; [done|]. rewrite length_app, length_fmap. cbn [length]. lia.
Qed.

Lemma print_shows_the_preview_witness :
  let l := [1; 2; 3; 4; 5; 6; 7; 8; 9; 10; 11; 12; 13; 14; 15; 16] in
  print (nominal []) (Some l) 16 initial_state
  = (Ret tt,
     set_clock (clock initial_state + cost_sum (nominal []) (preview l 16))
       initial_state,
     preview l 16)
  /\ preview l 16
     = (if 15 <? 16
        then (show <$> take 5 l) ++ [ellipsis]
             ++ (show <$> drop (length l - 5) l)
        else show <$> l) ++ [rule]
  /\ Z.of_nat (length (preview l 16)) = (if 15 <? 16 then 12 else 16 + 1).
Proof. apply print_shows_the_preview; [reflexivity|lia]. Defined.

(** X4: [print] on a null pointer: with a size that is not positive it
    shows the rule alone and returns, without reading through the pointer;
    with a size of at least 1 it crashes before showing anything. *)
Theorem print_of_a_null_pointer env size s :
  (size <= 0 ->
   print env None size s
   = (Ret tt, set_clock (clock s + Z.of_N (cost env rule)) s, [rule]))
  /\ (1 <= size -> print env None size s = (Crash, s, [])).
Proof.
  split; [apply print_nonpos|]. intros Hsz.
  unfold print, range. change (PRINT =? 0) with false.
  change (PRINT =? 1) with true. cbv iota. simpl andb.
  destruct (15 <? size).
  - change (seqZ 0 (5 - 0)) with (0 :: seqZ 1 4). cbn [for_].
    apply wp_result. wp_steps. unfold load at 1. wp_steps. reflexivity.
  - rewrite Z.sub_0_r, seqZ_cons by lia. cbn [for_].
    apply wp_result. wp_steps. unfold load at 1. wp_steps. reflexivity.
Qed.

(** * The checked stages *)

Lemma find_device_elem ty p :
  bool_decide (ty ∈ p)
  = match find_device ty p with Some _ => true | None => false end.
Proof.
  unfold find_device. destruct (list_find _ p) as [[i d]|] eqn:H.
  - apply list_find_Some in H as (Hi & -> & _). apply bool_decide_eq_true_2.
    by eapply list_elem_of_lookup_2.
  - apply list_find_None in H. apply bool_decide_eq_false_2. intros Hin.
    by eapply Forall_forall in H.
Qed.

Section Setup.

Variable env : Env.

Lemma setup_outcome name s :
  (setup_openCL_device_context_queue_kernel env kernel_file name s).1.1
  = if setup_ok env then Ret tt else Exit 1.
Proof.
  unfold setup_ok, has_device, passes.
  unfold setup_openCL_device_context_queue_kernel.
  destruct (create_device_cases env s) as [c H].
  destruct (platforms env) as [|p ps]; [by rewrite bind_eq, H|].
  rewrite !find_device_elem.
  assert (Hrest : forall d s1 t1,
    create_device env s = (Ret d, s1, t1) ->
    (setup_openCL_device_context_queue_kernel env kernel_file name s).1.1
    = if negb (r_CreateContext env <? 0)
         && bool_decide (is_Some (source_file env))
         && negb (r_CreateProgramWithSource env <? 0)
         && negb (r_BuildProgram env <? 0)
         && negb (r_CreateCommandQueue env <? 0)
         && negb (r_CreateKernel env <? 0)
      then Ret tt else Exit 1).
  { intros d s1 t1 Hd.
    apply (wp_run _ s (fun o _ _ => o = _)).
    unfold setup_openCL_device_context_queue_kernel.
    eapply wp_bind_eq; [exact Hd|].
    unfold clCreateContext, clCreateCommandQueueWithProperties, clCreateKernel.
    wp_go. destruct (r_CreateContext env <? 0); [by wp_go|]. wp_go.
    match goal with |- wp (bind (build_program _ ?dv _) _) ?s' _ =>
      destruct (build_program_cases env dv s') as (c2 & e2 & l2 & Hb & _)
    end.
    destruct (source_file env) as [text|];
      [|by eapply wp_bind_stop; [exact Hb|]].
    rewrite bool_decide_eq_true_2 by eauto.
    destruct (r_CreateProgramWithSource env <? 0);
      [by eapply wp_bind_stop; [exact Hb|]|].
    destruct (r_BuildProgram env <? 0);
      [by eapply wp_bind_stop; [exact Hb|]|].
    eapply wp_bind_eq; [exact Hb|]. wp_go.
    destruct (r_CreateCommandQueue env <? 0); [by wp_go|]. wp_go.
    destruct (r_CreateKernel env <? 0); by wp_go. }
  unfold setup_openCL_device_context_queue_kernel in Hrest.
  destruct (find_device GPU p) as [[i d]|].
  { simpl orb. cbv iota. rewrite (Hrest _ _ _ H).
    by repeat (destruct (_ <? 0) || destruct (bool_decide _)). }
  destruct (find_device CPU p) as [[i d]|].
  { simpl orb. cbv iota. rewrite (Hrest _ _ _ H).
    by repeat (destruct (_ <? 0) || destruct (bool_decide _)). }
  by rewrite bind_eq, H.
Qed.

Lemma setup_diagnosed name :
  diagnosed (setup_openCL_device_context_queue_kernel env kernel_file name).
Proof. diag_auto. Qed.

End Setup.


(** * Binding of the arguments, as a whole *)

Lemma args_ok_lor env :
  args_ok env
  = negb (Z.lor (Z.lor (Z.lor (r_SetKernelArg env 0) (r_SetKernelArg env 1))
                   (r_SetKernelArg env 2)) (r_SetKernelArg env 3) <? 0).
Proof.
  unfold args_ok, passes. cbn [forallb]. rewrite andb_true_r.
  destruct (Z.ltb_spec (Z.lor (Z.lor (Z.lor (r_SetKernelArg env 0)
              (r_SetKernelArg env 1)) (r_SetKernelArg env 2))
              (r_SetKernelArg env 3)) 0) as [H|H].
  - rewrite !Z.lor_neg in H. simpl.
    destruct (Z.ltb_spec (r_SetKernelArg env 0) 0),
      (Z.ltb_spec (r_SetKernelArg env 1) 0),
      (Z.ltb_spec (r_SetKernelArg env 2) 0),
      (Z.ltb_spec (r_SetKernelArg env 3) 0); simpl; try done; lia.
  - rewrite !Z.lor_nonneg in H. simpl.
    destruct (Z.ltb_spec (r_SetKernelArg env 0) 0),
      (Z.ltb_spec (r_SetKernelArg env 1) 0),
      (Z.ltb_spec (r_SetKernelArg env 2) 0),
      (Z.ltb_spec (r_SetKernelArg env 3) 0); simpl; try done; lia.
Qed.

(** X10: [copy_kernel_args] always attempts the four bindings, in the order
    of their indices, and leaves in [err] the bitwise or of the four
    results, which is negative exactly when one of them is: it returns
    exactly when none of the four results is negative, and ends the process
    with status 1 otherwise.  An argument is bound when its call reports
    [CL_SUCCESS]. *)
Theorem copy_kernel_args_returns_iff_bound env s :
  let r := copy_kernel_args env s in
  r.1.1 = (if args_ok env then Ret tt else Exit 1)
  /\ err r.1.2
     = Z.lor (Z.lor (Z.lor (r_SetKernelArg env 0) (r_SetKernelArg env 1))
                (r_SetKernelArg env 2)) (r_SetKernelArg env 3)
  /\ calls r.2
     = [(SetKernelArg 0, r_SetKernelArg env 0); (SetKernelArg 1, r_SetKernelArg env 1);
        (SetKernelArg 2, r_SetKernelArg env 2); (SetKernelArg 3, r_SetKernelArg env 3)]
  /\ kargs r.1.2
     = bind_if (r_SetKernelArg env 3 =? CL_SUCCESS) 3 (KMem (bufV_out s))
         (bind_if (r_SetKernelArg env 2 =? CL_SUCCESS) 2 (KMem (bufV2 s))
            (bind_if (r_SetKernelArg env 1 =? CL_SUCCESS) 1 (KMem (bufV1 s))
               (bind_if (r_SetKernelArg env 0 =? CL_SUCCESS) 0 (KInt (SZ s))
                  (kargs s)))).
Proof.
  intros r. subst r. rewrite args_ok_lor.
  apply (wp_run (copy_kernel_args env) s (fun o s' t =>
    o = _ /\ err s' = _ /\ calls t = _ /\ kargs s' = _)).
  unfold copy_kernel_args. wp_go.
  destruct (_ <? 0); wp_go; by repeat split.
Qed.

(** * The stages, one by one *)

(** X11: [build_program] stops at its first failure: without the kernel
    file it calls nothing; when the creation of the program fails it does
    not call the compiler; when the build fails it reports the log; each
    time it ends the process with status 1.  When it returns it has made
    exactly the two calls, and the global [err] holds the result of the
    build. *)
Theorem build_program_stops_at_first_failure env dev s :
  let r := build_program env dev kernel_file s in
  (r.1.1, r.2)
  = match source_file env with
    | None => (Exit 1, [Perror "Couldn't find the program file"])
    | Some _ =>
        if r_CreateProgramWithSource env <? 0 then
          (Exit 1,
           [Call CreateProgramWithSource (r_CreateProgramWithSource env);
            Perror "Couldn't create the program"])
        else if r_BuildProgram env <? 0 then
          (Exit 1,
           Call CreateProgramWithSource (r_CreateProgramWithSource env)
           :: log_report env)
        else
          (Ret tt,
           [Call CreateProgramWithSource (r_CreateProgramWithSource env);
            Call BuildProgram (r_BuildProgram env)])
    end
  /\ (is_ret r.1.1 -> err r.1.2 = r_BuildProgram env).
Proof.
  intros r. subst r. split.
  - destruct (build_program_cases env dev s) as (c & e & l & -> & _).
    by destruct (source_file env);
      [destruct (_ <? 0); [|destruct (_ <? 0)]|].
  - apply (wp_run (build_program env dev kernel_file) s
             (fun o s' _ => is_ret o -> err s' = r_BuildProgram env)).
    unfold build_program, fopen. rewrite String.eqb_refl.
    destruct (source_file env) as [text|]; [|by wp_steps].
    unfold clCreateProgramWithSource, clBuildProgram,
      clGetProgramBuildInfo_size, clGetProgramBuildInfo_log. wp_go.
    destruct (_ <? 0); [by wp_go|]. wp_go.
    destruct (_ <? 0); [|by wp_go]. wp_go. destruct (_ <=? _); by wp_go.
Qed.

(** X12: [create_device] takes, on the first platform, the first GPU when
    there is one, without asking for a CPU; and the first CPU when there is
    no GPU, after the query for a GPU has reported that none was found. *)
Theorem create_device_takes_the_first env p ps s :
  platforms env = p :: ps ->
  (forall i, first_of GPU p i ->
     let r := create_device env s in
     r.1.1 = Ret (Some (Device 0 i))
     /\ r.2 = [Call GetPlatformIDs CL_SUCCESS; Call (GetDeviceIDs GPU) CL_SUCCESS])
  /\ (forall i, GPU ∉ p -> first_of CPU p i ->
        let r := create_device env s in
        r.1.1 = Ret (Some (Device 0 i))
        /\ r.2 = [Call GetPlatformIDs CL_SUCCESS;
                  Call (GetDeviceIDs GPU) CL_DEVICE_NOT_FOUND;
                  Call (GetDeviceIDs CPU) CL_SUCCESS]).
Proof.
  intros Hp.
  assert (Hfirst : forall ty i, first_of ty p i -> find_device ty p = Some (i, ty)).
  { intros ty i [Hi Hmin]. unfold find_device. apply list_find_Some.
    split; [done|]. split; [done|]. intros j y Hj Hlt ->. by apply (Hmin j). }
  destruct (create_device_cases env s) as [c H]. rewrite Hp in H.
  split.
  - intros i Hi. rewrite (Hfirst _ _ Hi) in H. by rewrite H.
  - intros i Hno Hi. rewrite (Hfirst _ _ Hi) in H.
    destruct (find_device GPU p) as [[j d]|] eqn:Hg; [|by rewrite H].
    apply list_find_Some in Hg as (Hj & -> & _). destruct Hno.
    by eapply list_elem_of_lookup_2.
Qed.

Lemma create_device_takes_the_first_witness :
  let env := with_platforms [[CPU; ACCELERATOR; GPU; GPU]; [GPU]] (nominal []) in
  (forall i, first_of GPU [CPU; ACCELERATOR; GPU; GPU] i ->
     let r := create_device env initial_state in
     r.1.1 = Ret (Some (Device 0 i))
     /\ r.2 = [Call GetPlatformIDs CL_SUCCESS; Call (GetDeviceIDs GPU) CL_SUCCESS])
  /\ (forall i, GPU ∉ [CPU; ACCELERATOR; GPU; GPU] ->
        first_of CPU [CPU; ACCELERATOR; GPU; GPU] i ->
        let r := create_device env initial_state in
        r.1.1 = Ret (Some (Device 0 i))
        /\ r.2 = [Call GetPlatformIDs CL_SUCCESS;
                  Call (GetDeviceIDs GPU) CL_DEVICE_NOT_FOUND;
                  Call (GetDeviceIDs CPU) CL_SUCCESS]).
Proof. apply (create_device_takes_the_first _ _ [[GPU]]). reflexivity. Defined.

(** The GPU of the witness is at position 2. *)
Example first_of_sample : first_of GPU [CPU; ACCELERATOR; GPU; GPU] 2.
Proof. split; [done|]. intros [|[|j]] Hj; simpl; (done || lia). Qed.

(** X13: [free_memory] always returns, whatever is held: it releases the
    three buffers, then the kernel, the queue, the program and the
    context, then frees the three host arrays, in that order, ignoring the
    result of each release; the host pointers and the buffer handles keep
    their values. *)
Theorem free_memory_releases_in_order env s :
  exists s' r1 r2 r3 r4 r5 r6 r7,
    free_memory env s
    = (Ret tt, s',
       [Call (ReleaseMemObject (bufV1 s)) r1; Call (ReleaseMemObject (bufV2 s)) r2;
        Call (ReleaseMemObject (bufV_out s)) r3; Call ReleaseKernel r4;
        Call ReleaseCommandQueue r5; Call ReleaseProgram r6;
        Call ReleaseContext r7; Free V1; Free V2; Free V_OUT])
    /\ host s' = host s /\ buf s' = buf s.
Proof.
  do 8 eexists. split.
  - apply wp_result. unfold free_memory, clReleaseKernel, clReleaseCommandQueue,
      clReleaseProgram, clReleaseContext, free. wp_go. reflexivity.
  - st_simpl. split.
    + by repeat (rewrite host_destroy_buffer; st_simpl).
    + by repeat (rewrite buf_destroy_buffer; st_simpl).
Qed.

(** X14: [setup_kernel_memory], when the creations and the uploads
    succeed on an idle queue, returns with three distinct buffers of
    [SZ * sizeof(int)] bytes in [bufV1], [bufV2] and [bufV_out]; the first
    two hold copies of [v1] and [v2], the third has [SZ] cells that nothing
    has written; the host arrays are as before and the queue is idle
    again. *)
Theorem setup_kernel_memory_uploads_the_inputs env n la lb s :
  every_call_succeeds env ->
  0 <= n < 2 ^ 31 ->
  SZ s = n -> v1 s = Some la -> v2 s = Some lb ->
  length la = Z.to_nat n -> length lb = Z.to_nat n -> pending s = [] ->
  exists s' lc,
    setup_kernel_memory env s
    = (Ret tt, s',
       [Call (CreateBuffer (4 * n)) CL_SUCCESS;
        Call (CreateBuffer (4 * n)) CL_SUCCESS;
        Call (CreateBuffer (4 * n)) CL_SUCCESS;
        Call (EnqueueWriteBuffer (Some (next_mem s)) CL_TRUE (4 * n) V1) CL_SUCCESS;
        Call (EnqueueWriteBuffer (Some (S (next_mem s))) CL_TRUE (4 * n) V2)
          CL_SUCCESS])
    /\ bufV1 s' = Some (next_mem s) /\ bufV2 s' = Some (S (next_mem s))
    /\ bufV_out s' = Some (S (S (next_mem s)))
    /\ dmem s' !! next_mem s = Some la
    /\ dmem s' !! S (next_mem s) = Some lb
    /\ dmem s' !! S (S (next_mem s)) = Some lc /\ length lc = Z.to_nat n
    /\ host s' = host s /\ pending s' = [].
Proof.
  intros Hok Hn HSZ Hv1 Hv2 Hla Hlb Hp.
  assert (Hn' : 0 <= n < 2 ^ 61) by lia.
  destruct (bytes_of_count n Hn') as (_ & Hb & _).
  assert (Hs : SZ s = n
    /\ host s = MkArrs (Some la) (Some lb) (at_v_out (host s))
    /\ buf s = buf s /\ event s = event s /\ rand_next s = rand_next s
    /\ next_mem s = next_mem s /\ dmem s = dmem s /\ kargs s = kargs s
    /\ pending s = []).
  { repeat split; try done. unfold v1, v2 in *. simpl in *.
    destruct (host s); simpl in *; congruence. }
  set (k := next_mem s) in *. set (D := dmem s) in *.
  set (c := at_v_out (host s)) in *.
  apply (wp_run (setup_kernel_memory env) s (fun o s' t =>
    exists s'' lc, (o, s', t) = (Ret tt, s'', _) /\ _)).
  unfold setup_kernel_memory.
  read_state Hs. rewrite Hb.
  stage Hs (create_data env Hok n); [done|].
  stage Hs (modify_data).
  stage Hs (create_data env Hok n); [done|].
  stage Hs (modify_data).
  stage Hs (create_data env Hok n); [done|].
  stage Hs (modify_data).
  read_state Hs.
  stage Hs (upload_data env Hok n);
    [done|by use_facts Hs
    |use_facts Hs; by rewrite !lookup_insert_ne, lookup_insert_eq by lia
    |by use_facts Hs|done|by rewrite length_fmap, length_seq|].
  read_state Hs.
  stage Hs (upload_data env Hok n);
    [done|by use_facts Hs
    |use_facts Hs; by rewrite !lookup_insert_ne, lookup_insert_eq by lia
    |by use_facts Hs|done|by rewrite length_fmap, length_seq|].
  wp_head.
  destruct Hs as (_ & Hhost & Hbuf & _ & _ & _ & Hdmem & _ & Hpend).
  eexists _, (uninit env <$> seq 0 (Z.to_nat n)). split; [reflexivity|].
  rewrite Hhost, Hbuf, Hdmem, Hpend. st_simpl.
  repeat split; try done;
    rewrite ?lookup_insert_eq, ?lookup_insert_ne by lia;
    rewrite ?lookup_insert_eq, ?lookup_insert_ne by lia;
    rewrite ?lookup_insert_eq, ?lookup_insert_ne by lia;
    try done.
  by rewrite length_fmap, length_seq.
Qed.

Lemma setup_kernel_memory_uploads_the_inputs_witness :
  let s := set_host (MkArrs (Some [5; 6]) (Some [7; 8]) None)
             (set_SZ 2 initial_state) in
  exists s' lc,
    setup_kernel_memory (nominal []) s
    = (Ret tt, s',
       [Call (CreateBuffer (4 * 2)) CL_SUCCESS;
        Call (CreateBuffer (4 * 2)) CL_SUCCESS;
        Call (CreateBuffer (4 * 2)) CL_SUCCESS;
        Call (EnqueueWriteBuffer (Some (next_mem s)) CL_TRUE (4 * 2) V1) CL_SUCCESS;
        Call (EnqueueWriteBuffer (Some (S (next_mem s))) CL_TRUE (4 * 2) V2)
          CL_SUCCESS])
    /\ bufV1 s' = Some (next_mem s) /\ bufV2 s' = Some (S (next_mem s))
    /\ bufV_out s' = Some (S (S (next_mem s)))
    /\ dmem s' !! next_mem s = Some [5; 6]
    /\ dmem s' !! S (next_mem s) = Some [7; 8]
    /\ dmem s' !! S (S (next_mem s)) = Some lc /\ length lc = Z.to_nat 2
    /\ host s' = host s /\ pending s' = [].
Proof.
  apply setup_kernel_memory_uploads_the_inputs; try done; try lia.
  constructor; try reflexivity.
  constructor; simpl; unfold CL_SUCCESS; try lia; eauto.
  eexists _, _. split; [reflexivity|]. left. constructor.
Defined.

(** X15: [init] with a size that is not positive stores nothing and calls
    [rand] not once.  For a negative size the request
    [sizeof(int) * size], computed in [size_t], is above [PTRDIFF_MAX]:
    [malloc] fails and the array is left null.  For size 0 the array is an
    empty block when [malloc] gives one. *)
Theorem init_of_a_count_not_positive env A size s :
  - 2 ^ 31 <= size <= 0 ->
  let r := init env A size s in
  r.1.1 = Ret tt /\ r.2 = [] /\ rand_next r.1.2 = rand_next s
  /\ (size < 0 -> get A (host r.1.2) = None /\ live r.1.2 = live s)
  /\ (size = 0 -> malloc_ok env A = true -> get A (host r.1.2) = Some []).
Proof.
  intros Hsz r.
  assert (Hb : (size_mul sizeof_int (to_size_t size) <=? PTRDIFF_MAX)
               = bool_decide (size = 0)).
  { unfold size_mul, to_size_t, sizeof_int, PTRDIFF_MAX.
    destruct (decide (size = 0)) as [->|Hne].
    - by rewrite bool_decide_eq_true_2.
    - rewrite bool_decide_eq_false_2 by done. apply Z.leb_gt.
      replace (size `mod` 2 ^ 64) with (size + 2 ^ 64)
        by (apply (Z.mod_unique_pos _ _ (-1)); lia).
      replace ((4 * (size + 2 ^ 64)) `mod` 2 ^ 64) with (4 * size + 2 ^ 64)
        by (apply (Z.mod_unique_pos _ _ 3); lia).
      lia. }
  assert (Hr : r = (Ret tt,
            set_host
              (upd A (if bool_decide (size = 0) && malloc_ok env A
                      then Some (replicate (Z.to_nat
                             (size_mul sizeof_int (to_size_t size) `div` sizeof_int)) 0)
                      else None) (host s))
              (set_live (hold_if (bool_decide (size = 0) && malloc_ok env A)
                           (RHost A) (live s)) s), [])).
  { subst r. unfold init, malloc, range. rewrite seqZ_nil, Hb by lia.
    apply wp_result. wp_steps. reflexivity. }
  rewrite Hr. st_simpl. rewrite get_upd. repeat split; try done.
  - by rewrite bool_decide_eq_false_2 by lia.
  - by rewrite bool_decide_eq_false_2 by lia.
  - intros -> ->. by rewrite bool_decide_eq_true_2.
Qed.

Lemma init_of_a_count_not_positive_witness :
  let r := init (nominal []) V1 (-5) initial_state in
  r.1.1 = Ret tt /\ r.2 = [] /\ rand_next r.1.2 = rand_next initial_state
  /\ (-5 < 0 -> get V1 (host r.1.2) = None /\ live r.1.2 = live initial_state)
  /\ (-5 = 0 -> malloc_ok (nominal []) V1 = true ->
      get V1 (host r.1.2) = Some []).
Proof. apply init_of_a_count_not_positive. lia. Defined.

(** X16: [setup_kernel_memory] when no buffer can be created: the three
    handles are null, the two uploads are refused by the runtime with
    [CL_INVALID_MEM_OBJECT], and the function returns all the same, with
    the device memory, the host arrays and the resources held as they
    were. *)
Theorem setup_kernel_memory_without_buffers env s :
  (forall k, r_CreateBuffer env k <> CL_SUCCESS) ->
  let r := setup_kernel_memory env s in
  let bytes := size_mul (to_size_t (SZ s)) sizeof_int in
  r.1.1 = Ret tt
  /\ r.2 = [Call (CreateBuffer bytes) (r_CreateBuffer env (next_mem s));
            Call (CreateBuffer bytes) (r_CreateBuffer env (S (next_mem s)));
            Call (CreateBuffer bytes) (r_CreateBuffer env (S (S (next_mem s))));
            Call (EnqueueWriteBuffer None CL_TRUE bytes V1) CL_INVALID_MEM_OBJECT;
            Call (EnqueueWriteBuffer None CL_TRUE bytes V2) CL_INVALID_MEM_OBJECT]
  /\ buf r.1.2 = MkArrs None None None
  /\ dmem r.1.2 = dmem s /\ host r.1.2 = host s /\ live r.1.2 = live s
  /\ pending r.1.2 = pending s.
Proof.
  intros Hno r bytes. subst r bytes.
  assert (Hf : forall k, (r_CreateBuffer env k =? CL_SUCCESS) = false).
  { intros k. apply Z.eqb_neq, Hno. }
  apply (wp_run (setup_kernel_memory env) s (fun o s' t =>
    o = Ret tt /\ t = _ /\ buf s' = _ /\ dmem s' = _ /\ host s' = _
    /\ live s' = _ /\ pending s' = _)).
  unfold setup_kernel_memory. wp_go. rewrite !Hf. cbn [transfer_code transfer].
  unfold create_buffer, hold_if. st_simpl. by repeat split.
Qed.

Lemma setup_kernel_memory_without_buffers_witness :
  let env := with_unchecked (fun _ => (-4)) (fun _ => 0) 0 0 0 (nominal []) in
  let s := initial_state in
  let r := setup_kernel_memory env s in
  let bytes := size_mul (to_size_t (SZ s)) sizeof_int in
  r.1.1 = Ret tt
  /\ r.2 = [Call (CreateBuffer bytes) (r_CreateBuffer env (next_mem s));
            Call (CreateBuffer bytes) (r_CreateBuffer env (S (next_mem s)));
            Call (CreateBuffer bytes) (r_CreateBuffer env (S (S (next_mem s))));
            Call (EnqueueWriteBuffer None CL_TRUE bytes V1) CL_INVALID_MEM_OBJECT;
            Call (EnqueueWriteBuffer None CL_TRUE bytes V2) CL_INVALID_MEM_OBJECT]
  /\ buf r.1.2 = MkArrs None None None
  /\ dmem r.1.2 = dmem s /\ host r.1.2 = host s /\ live r.1.2 = live s
  /\ pending r.1.2 = pending s.
Proof. apply setup_kernel_memory_without_buffers. by intros k. Defined.

(** * The completion event *)

Section Event.

Variable env : Env.
Hypothesis Hargs : forall i, (i < 4)%nat -> r_SetKernelArg env i = CL_SUCCESS.
Hypothesis Hlaunch : r_EnqueueNDRangeKernel env = CL_SUCCESS.

Let bound (s : State) : Prop := args_bound (kargs s) = true.
Let held (s : State) : Prop := REvent ∈ live s.

Lemma copy_kernel_args_binds :
  hoare (fun _ => True) (copy_kernel_args env) bound.
Proof.
  intros s _.
  apply (wp_run (copy_kernel_args env) s (fun o s' _ => is_ret o -> bound s')).
  unfold copy_kernel_args. wp_go. rewrite !Hargs by lia.
  change (CL_SUCCESS =? CL_SUCCESS) with true. unfold bind_if.
  destruct (_ <? 0); wp_go; [done|]. intros _. apply args_bound_four.
Qed.

Lemma launch_holds g : hoare bound (clEnqueueNDRangeKernel env g) held.
Proof.
  intros s Hb _. rewrite clEnqueueNDRangeKernel_run, Hb, Hlaunch. subst held.
  simpl. apply list_elem_of_here.
Qed.

Ltac keeps :=
  idtac;
  by (intros; subst held bound; simpl in *; frame_simpl;
      rewrite ?live_destroy_buffer; unfold hold_if;
      repeat match goal with
             | |- context [if ?c then _ else _] => destruct c
             | |- context [from_option _ _ ?b] => destruct b; simpl
             end;
      rewrite ?list_elem_of_filter; set_solver).

Ltac event_auto :=
  lazymatch goal with
  | |- hoare _ (bind (copy_kernel_args _) _) _ =>
      eapply hoare_bind; [apply copy_kernel_args_binds | intros ?; event_auto]
  | |- hoare _ (bind (clEnqueueNDRangeKernel _ _) _) _ =>
      eapply hoare_bind; [apply launch_holds | intros ?; event_auto]
  | |- hoare _ (bind _ _) _ =>
      eapply hoare_bind;
      [apply hoare_step; step_with keeps | intros ?; event_auto]
  | |- hoare _ _ _ => apply hoare_step; step_with keeps
  end.

Lemma main_holds_event : hoare (fun _ => True) (main env) held.
Proof. unfold main. event_auto. Qed.

End Event.

(** X17: the completion event of the kernel is never released: when the
    four arguments are bound, the launch succeeds and [main] returns, the
    event made by the launch is still held at the end, and it is the only
    thing that is. *)
Theorem completion_event_is_never_released env :
  (forall i, (i < 4)%nat -> r_SetKernelArg env i = CL_SUCCESS) ->
  r_EnqueueNDRangeKernel env = CL_SUCCESS ->
  is_ret (run env).1.1 ->
  REvent ∈ live (final (run env))
  /\ Forall (fun r => r = REvent) (live (final (run env))).
Proof.
  intros Hargs Hlaunch Hret. split.
  - by apply (main_holds_event env Hargs Hlaunch initial_state).
  - apply (main_releases env initial_state); [|done].
    intros h Hin. by apply elem_of_nil in Hin.
Qed.

Lemma completion_event_is_never_released_witness :
  REvent ∈ live (final (run (nominal ["3"])))
  /\ Forall (fun r => r = REvent) (live (final (run (nominal ["3"])))).
Proof.
  apply completion_event_is_never_released; [done|done|by vm_compute].
Defined.

(** * A failed setup *)

Ltac setup_side := by (intros; simpl; auto; lia).

Section FailedSetup.

Variable env : Env.
Hypothesis Hfail : setup_ok env = false.

Lemma setup_stops name :
  stops (fun _ => True) only_setup
    (setup_openCL_device_context_queue_kernel env kernel_file name).
Proof.
  assert (Hs : step (fun _ => True) only_setup
                 (setup_openCL_device_context_queue_kernel env kernel_file name))
    by step_with setup_side.
  intros s _. split; [|by apply Hs].
  rewrite setup_outcome, Hfail. tauto.
Qed.

Ltac upto_setup :=
  lazymatch goal with
  | |- stops _ _ (bind (setup_openCL_device_context_queue_kernel _ _ _) _) =>
      apply stops_here, setup_stops
  | |- stops _ _ (bind _ _) =>
      apply stops_bind; [step_with setup_side | intros ?; upto_setup]
  end.

Lemma main_stops_at_setup : stops (fun _ => True) only_setup (main env).
Proof. unfold main. upto_setup. Qed.

End FailedSetup.


